(** * BitNet accelerator offload driver: a shallow embedding and its properties

    The development follows the C sources of the DE10-Nano BitNet software:
    - [bitnet_test/bitnet_test_common.h]: weight codec, reference model
    - [test_bitnet.c]: the minimal test program (same [pack_weights])
    - [bitmamba_fpga/bitnet_fpga.h]: the tiling driver [fpga_bitlinear] and
      the activation quantizer [rms_norm_int8]
    - [mnist/mnist_inference.c]: arg-max, image preprocessing, exit codes

    C integers are mathematical integers ([Z]) with the wrap-around of each
    fixed-width type written out; C arrays are lists read and written by
    index; the register bank and the DDR3 window are finite maps from word
    index to 32-bit word; a C [float] is an IEEE 754 binary32 value
    ([SpecFloat] at precision 24). *)

From Stdlib Require Import ZArith Lia List Bool.
From Stdlib Require Floats.SpecFloat.
From stdpp Require Import base tactics option list numbers strings gmap.

Local Open Scope Z_scope.

(** ** Fixed-width integers *)

Module CInt.

Definition to_uint32 (z : Z) : Z := z mod 2 ^ 32.
Definition to_int32 (z : Z) : Z := (z + 2 ^ 31) mod 2 ^ 32 - 2 ^ 31.
Definition to_uint8 (z : Z) : Z := z mod 2 ^ 8.
Definition to_int8 (z : Z) : Z := (z + 2 ^ 7) mod 2 ^ 8 - 2 ^ 7.

Definition is_int8 (z : Z) : Prop := -128 <= z <= 127.
Definition is_uint8 (z : Z) : Prop := 0 <= z <= 255.
Definition is_int32 (z : Z) : Prop := - 2 ^ 31 <= z < 2 ^ 31.
Definition is_uint32 (z : Z) : Prop := 0 <= z < 2 ^ 32.

(** [int] arithmetic: the result is brought back into 32 bits. *)
Definition add32 (x y : Z) : Z := to_int32 (x + y).
Definition sub32 (x y : Z) : Z := to_int32 (x - y).
Definition mul32 (x y : Z) : Z := to_int32 (x * y).
(** C division truncates toward zero. *)
Definition div32 (x y : Z) : Z := to_int32 (Z.quot x y).

(** [uint32_t] arithmetic. *)
Definition addu32 (x y : Z) : Z := to_uint32 (x + y).
Definition mulu32 (x y : Z) : Z := to_uint32 (x * y).
Definition shlu32 (x n : Z) : Z := to_uint32 (Z.shiftl x n).

End CInt.

Import CInt.

(** ** Arrays and counting loops *)

(** [a[i]]: a read inside the array; a read outside it (undefined in C)
    is given the value 0. *)
Definition aget (a : list Z) (i : Z) : Z :=
  if i <? 0 then 0 else nth (Z.to_nat i) a 0.

(** [a[i] = v]; a write outside the array leaves the list as it is. *)
Definition aset (a : list Z) (i : Z) (v : Z) : list Z :=
  if i <? 0 then a else <[Z.to_nat i := v]> a.

(** [for (i = lo; i < hi; i++) s = body i s]. *)
Fixpoint iter_from {S : Type} (n : nat) (i : Z) (body : Z -> S -> S) (s : S) : S :=
  match n with
  | O => s
  | Datatypes.S n' => iter_from n' (i + 1) body (body i s)
  end.

Definition for_range {S : Type} (lo hi : Z) (body : Z -> S -> S) (s : S) : S :=
  iter_from (Z.to_nat (hi - lo)) lo body s.

(** ** Reference model ([bitnet_test_common.h]) *)

(** [compute_expected_row]: dot product, arithmetic right shift, clamp. *)
Definition compute_expected_row (weights acts : list Z) (K shift : Z) : Z :=
  let acc := 0 in
  let acc :=
    for_range 0 K
      (fun i acc => add32 acc (mul32 (to_int32 (aget weights i)) (to_int32 (aget acts i))))
      acc in
  let acc := Z.shiftr acc shift in
  let acc := if acc >? 127 then 127 else acc in
  let acc := if acc <? -128 then -128 else acc in
  to_int8 acc.


(** The dot product of the specification, over the integers. *)
Fixpoint dot (w a : list Z) : Z :=
  match w, a with
  | x :: w', y :: a' => x * y + dot w' a'
  | _, _ => 0
  end.

Definition clamp (lo hi z : Z) : Z := Z.max lo (Z.min hi z).

Definition is_ternary (z : Z) : Prop := z = -1 \/ z = 0 \/ z = 1.

(** The order the specification excludes: clamp first, shift afterwards. *)
Definition clamp_then_shift (acc shift : Z) : Z := Z.shiftr (clamp (-128) 127 acc) shift.

(** ** Weight codec ([bitnet_test_common.h]; [test_bitnet.c] has the same
       [pack_weights]) *)

Definition NUM_PES : Z := 64.

(** [pack_weights]: 64 weights into four 32-bit words, two bits each. *)
Definition pack_weights (weights : list Z) : list Z :=
  let out := [0; 0; 0; 0] in
  for_range 0 64
    (fun i out =>
       let enc :=
         if aget weights i =? 1 then 1
         else if aget weights i =? -1 then 2
         else 0 in
       aset out (Z.quot i 16)
         (Z.lor (aget out (Z.quot i 16)) (shlu32 enc (mul32 (Z.rem i 16) 2))))
    out.

(** The 64 weights of one tile of [write_weight_matrix]: columns at or
    beyond [K] are padded with zero. *)
Definition tile_chunk (wmat : list Z) (K row tile : Z) : list Z :=
  let col_start := mul32 tile NUM_PES in
  for_range 0 64
    (fun i chunk =>
       let col := add32 col_start i in
       if col <? K then aset chunk i (aget wmat (add32 (mul32 row K) col))
       else aset chunk i 0)
    (replicate 64 0).

(** [write_weight_matrix]: [g_ddr3] is the DDR3 window as 32-bit words. *)
Definition write_weight_matrix (wmat : list Z) (M K : Z) (g_ddr3 : gmap Z Z) : gmap Z Z :=
  let tiles_per_row := div32 (sub32 (add32 K NUM_PES) 1) NUM_PES in
  for_range 0 M
    (fun row g_ddr3 =>
       for_range 0 tiles_per_row
         (fun tile g_ddr3 =>
            let chunk := tile_chunk wmat K row tile in
            let packed := pack_weights chunk in
            let word_offset := to_uint32 (mul32 (add32 (mul32 row tiles_per_row) tile) 4) in
            for_range 0 4
              (fun i g_ddr3 => <[addu32 word_offset i := aget packed i]> g_ddr3)
              g_ddr3)
         g_ddr3)
    g_ddr3.

(** The Weight Codec of the specification, in its own words. *)
Module CodecSpec.

Definition tile_width : Z := 64.
Definition bytes_per_tile : Z := 16.

(** ceil(K / tile_width) *)
Definition tiles_per_row (K : Z) : Z := (K + tile_width - 1) / tile_width.

Definition byte_stride (K : Z) : Z := tiles_per_row K * bytes_per_tile.

Definition tile_offset (K row tile : Z) : Z :=
  row * tiles_per_row K * bytes_per_tile + tile * bytes_per_tile.

(** Modelled from the spec: the decoder of the 2-bit code, which the
    software never runs (the accelerator reads the codes); the table is
    00 = 0, 01 = +1, 10 = -1, 11 reserved. *)
Definition decode (code : Z) : option Z :=
  if code =? 0 then Some 0
  else if code =? 1 then Some 1
  else if code =? 2 then Some (-1)
  else None.

(** The 2-bit field of weight [j] (0 <= j < 64) inside a packed tile. *)
Definition field (packed : list Z) (j : Z) : Z :=
  Z.land (Z.shiftr (aget packed (j / 16)) (2 * (j mod 16))) 3.

(** The four words of tile ([row], [tile]) as stored in the DDR3 window,
    [None] if one of them was never written. *)
Definition stored_tile (ddr3 : gmap Z Z) (K row tile : Z) : option (list Z) :=
  mapM (fun i => ddr3 !! (tile_offset K row tile / 4 + i)) [0; 1; 2; 3].

(** The weight at ([row], [col]) as the layout gives it back. *)
Definition unpack (ddr3 : gmap Z Z) (K row col : Z) : option Z :=
  match stored_tile ddr3 K row (col / tile_width) with
  | Some packed => decode (field packed (col mod tile_width))
  | None => None
  end.

End CodecSpec.

(** ** Arg-max of the last layer ([mnist_inference.c]) *)

Definition argmax_int8 (buf : list Z) (n : Z) : Z :=
  let best := 0 in
  for_range 1 n
    (fun i best => if aget buf i >? aget buf best then i else best)
    best.

(** ** The accelerator seen from the register bank ([bitnet_fpga.h]) *)

Module Fpga.

Definition REG_CTRL : Z := 0x00.
Definition REG_STATUS : Z := 0x04.
Definition REG_WEIGHT_BASE : Z := 0x08.
Definition REG_DIM_M : Z := 0x0C.
Definition REG_DIM_K : Z := 0x10.
Definition REG_SHIFT_AMT : Z := 0x14.
Definition REG_PERF_CYCLES : Z := 0x18.
Definition REG_ACT_BASE : Z := 0x80.
Definition REG_RES_BASE : Z := 0x4000.

Definition FPGA_NUM_PES : Z := 128.
Definition FPGA_MAX_DIM_K : Z := 2048.
Definition FPGA_MAX_DIM_M : Z := 1024.
Definition FPGA_BYTES_PER_BEAT : Z := 32.

(** Modelled from the spec: the accelerator itself, whose hardware
    description is not among the software sources.  A run computes one
    accumulator per output row from the weights stored at the row's DDR3
    address, [DIM_K] and the activation buffer; rows are
    [tiles_per_row * bytes_per_tile] bytes apart; STATUS bit 1 reports
    completion.  What the datapath computes, when STATUS shows done, and
    how many rows the result buffer holds are left open. *)
Record accelerator := {
  (** the accumulator of the row stored at a byte address, as a 32-bit word *)
  hw_row : Z -> Z -> Z -> list Z -> Z;
  (** STATUS at the p-th read after the n-th START pulse *)
  hw_status : nat -> nat -> Z;
  (** number of entries of the RESULT array (maxDimM) *)
  hw_max_dim_m : Z;
  (** what a RESULT register outside a completed run's rows reads as *)
  hw_stale : Z -> Z;
}.

(** Modelled from the spec: the bytes from one weight row to the next
    for input length [K], [tiles_per_row * FPGA_BYTES_PER_BEAT] (the
    [stride] the header of [fpga_bitlinear] documents). *)
Definition hw_row_bytes (K : Z) : Z :=
  (K + FPGA_NUM_PES - 1) / FPGA_NUM_PES * FPGA_BYTES_PER_BEAT.

(** The register bank: the last word written at each word index, the
    register contents latched at each START pulse (oldest first), and the
    number of STATUS reads since the last pulse. *)
Record fpga := {
  regs : gmap Z Z;
  runs : list (gmap Z Z);
  polls : nat;
}.

Definition reg_of (r : gmap Z Z) (offset : Z) : Z := default 0 (r !! (offset / 4)).

(** The activation buffer of a latched configuration: [k] words. *)
Definition act_buffer (cfg : gmap Z Z) (k : Z) : list Z :=
  map (fun i => reg_of cfg (REG_ACT_BASE + i * 4)) (seqZ 0 k).

(** Modelled from the spec: RESULT[i] after the run latched as [cfg].
    Row [i] of a run is the row stored [i] row sizes after WEIGHT_BASE;
    a run with more rows than the result buffer holds, or a longer input
    than maxDimK, leaves no defined result. *)
Definition result_reg (hw : accelerator) (cfg : gmap Z Z) (i : Z) : Z :=
  let m := reg_of cfg REG_DIM_M in
  let k := reg_of cfg REG_DIM_K in
  if (0 <=? i) && (i <? m) && (m <=? hw_max_dim_m hw) && (k <=? FPGA_MAX_DIM_K) then
    hw_row hw (to_uint32 (reg_of cfg REG_WEIGHT_BASE + i * hw_row_bytes k))
      k (reg_of cfg REG_SHIFT_AMT) (act_buffer cfg k)
  else hw_stale hw i.

(** [fpga_reg_write]: [fpga_bitnet[offset / 4] = val], [offset] being a
    [uint32_t]; writing bit 0 of CTRL is the START pulse. *)
Definition fpga_reg_write (offset val : Z) (d : fpga) : fpga :=
  let offset := to_uint32 offset in
  let r := <[offset / 4 := val]> (regs d) in
  if (offset / 4 =? REG_CTRL / 4) && Z.testbit val 0
  then {| regs := r; runs := runs d ++ [r]; polls := 0 |}
  else {| regs := r; runs := runs d; polls := polls d |}.

(** [fpga_reg_read]: [fpga_bitnet[offset / 4]]. *)
Definition fpga_reg_read (hw : accelerator) (offset : Z) (d : fpga) : Z * fpga :=
  let offset := to_uint32 offset in
  if offset / 4 =? REG_STATUS / 4 then
    (hw_status hw (length (runs d)) (polls d),
     {| regs := regs d; runs := runs d; polls := Datatypes.S (polls d) |})
  else if REG_RES_BASE / 4 <=? offset / 4 then
    (result_reg hw (List.last (runs d) ∅) (offset / 4 - REG_RES_BASE / 4), d)
  else (reg_of (regs d) offset, d).

(** The loop of [fpga_wait_done]; each turn takes 10 from [timeout_us],
    so [fuel] turns are enough once [fuel] is at least [timeout_us]. *)
Fixpoint wait_loop (hw : accelerator) (fuel : nat) (timeout_us : Z) (d : fpga) : Z * fpga :=
  match fuel with
  | O => (-1, d)
  | Datatypes.S fuel' =>
      if timeout_us >? 0 then
        let '(st, d) := fpga_reg_read hw REG_STATUS d in
        if Z.land st 2 =? 0
        then wait_loop hw fuel' (sub32 timeout_us 10) d
        else (0, d)
      else (-1, d)
  end.

Definition fpga_wait_done (hw : accelerator) (timeout_us : Z) (d : fpga) : Z * fpga :=
  wait_loop hw (Z.to_nat timeout_us) timeout_us d.

(** [memset(&results[start], 0, n * sizeof(int32_t))]. *)
Definition memset0 (results : list Z) (start n : Z) : list Z :=
  for_range 0 n (fun i results => aset results (start + i) 0) results.

(** The state [fpga_bitlinear] works on: the register bank, the output
    array, and the [rows_done] values of the timeout lines on stderr. *)
Record driver := {
  dev : fpga;
  results : list Z;
  stderr : list Z;
}.

(** The [while (rows_done < M)] loop; every turn adds at least one row,
    so [fuel] turns are enough once [fuel] is at least [M - rows_done]. *)
Fixpoint tile_loop (hw : accelerator) (fuel : nat) (weight_base M stride rows_done : Z)
    (s : driver) : driver :=
  match fuel with
  | O => s
  | Datatypes.S fuel' =>
      if rows_done <? M then
        let tile_m := sub32 M rows_done in
        let tile_m := if tile_m >? FPGA_MAX_DIM_M then FPGA_MAX_DIM_M else tile_m in
        let tile_weight_base :=
          addu32 weight_base (mulu32 (to_uint32 rows_done) (to_uint32 stride)) in
        let d := fpga_reg_write REG_WEIGHT_BASE tile_weight_base (dev s) in
        let d := fpga_reg_write REG_DIM_M (to_uint32 tile_m) d in
        let d := fpga_reg_write REG_CTRL 0x1 d in
        let '(rc, d) := fpga_wait_done hw 1000000 d in
        if rc <? 0 then
          tile_loop hw fuel' weight_base M stride (add32 rows_done tile_m)
            {| dev := d;
               results := memset0 (results s) rows_done tile_m;
               stderr := stderr s ++ [rows_done] |}
        else
          let '(res, d) :=
            for_range 0 tile_m
              (fun i '(res, d) =>
                 let '(v, d) := fpga_reg_read hw (add32 REG_RES_BASE (mul32 i 4)) d in
                 (aset res (add32 rows_done i) (to_int32 v), d))
              (results s, d) in
          tile_loop hw fuel' weight_base M stride (add32 rows_done tile_m)
            {| dev := d; results := res; stderr := stderr s |}
      else s
  end.

(** [fpga_bitlinear]. *)
Definition fpga_bitlinear (hw : accelerator) (activations : list Z) (K : Z)
    (weight_base : Z) (M : Z) (stride : Z) (s : driver) : driver :=
  let d :=
    for_range 0 K
      (fun i d =>
         fpga_reg_write (add32 REG_ACT_BASE (mul32 i 4)) (to_uint8 (aget activations i)) d)
      (dev s) in
  let d := fpga_reg_write REG_DIM_K (to_uint32 K) d in
  let d := fpga_reg_write REG_SHIFT_AMT 0 d in
  tile_loop hw (Z.to_nat M) weight_base M stride 0
    {| dev := d; results := results s; stderr := stderr s |}.

(** The row offsets at which the chunks of an [M]-row call start. *)
Definition chunk_starts (M : Z) : list Z :=
  map (fun c => c * FPGA_MAX_DIM_M) (seqZ 0 ((M + FPGA_MAX_DIM_M - 1) / FPGA_MAX_DIM_M)).

(** Whether STATUS shows done within the [n] reads that follow the
    [launch]-th START pulse. *)
Definition done_within (hw : accelerator) (launch : nat) (n : nat) : bool :=
  existsb (fun p => negb (Z.land (hw_status hw launch p) 2 =? 0)) (seq 0 n).

(** Reads of STATUS that a one-second wait makes at most. *)
Definition polls_per_wait : nat := Z.to_nat 100000.

(** The specification's single invocation: the same register protocol
    with DIM_M = M and one START; its result vector is RESULT[0..M) of
    that run. *)
Definition single_invocation (hw : accelerator) (activations : list Z) (K : Z)
    (weight_base : Z) (M : Z) (d : fpga) : list Z :=
  let d :=
    for_range 0 K
      (fun i d =>
         fpga_reg_write (add32 REG_ACT_BASE (mul32 i 4)) (to_uint8 (aget activations i)) d)
      d in
  let d := fpga_reg_write REG_DIM_K (to_uint32 K) d in
  let d := fpga_reg_write REG_SHIFT_AMT 0 d in
  let d := fpga_reg_write REG_WEIGHT_BASE weight_base d in
  let d := fpga_reg_write REG_DIM_M (to_uint32 M) d in
  let d := fpga_reg_write REG_CTRL 0x1 d in
  map (fun i => to_int32 (result_reg hw (List.last (runs d) ∅) i)) (seqZ 0 M).

(** The same accelerator with a RESULT array of any length. *)
Definition unlimited (hw : accelerator) (M : Z) : accelerator :=
  {| hw_row := hw_row hw; hw_status := hw_status hw;
     hw_max_dim_m := M; hw_stale := hw_stale hw |}.

End Fpga.

(** ** Image preprocessing ([mnist_inference.c]) *)

Module Image.

Definition MAX_IMG_DIM : Z := 1024.
Definition MNIST_DIM : Z := 28.
Definition MNIST_PIXELS : Z := MNIST_DIM * MNIST_DIM.

(** A file is the list of its bytes, [None] when it cannot be opened; an
    open stream is the list of the bytes not read yet. *)

(** [fgets(line, size, fp)]: at most [size - 1] bytes, up to and including
    the first newline; [None] at end of file. *)
Fixpoint fgets_bytes (n : nat) (fp : list Z) : list Z * list Z :=
  match n, fp with
  | Datatypes.S n', c :: fp' =>
      if c =? 10 then ([c], fp')
      else let '(line, rest) := fgets_bytes n' fp' in (c :: line, rest)
  | _, _ => ([], fp)
  end.

Definition fgets (size : Z) (fp : list Z) : option (list Z * list Z) :=
  match fp with
  | [] => None
  | _ => Some (fgets_bytes (Z.to_nat (size - 1)) fp)
  end.

(** [fread(buf, 1, n, fp)] with [n] a [size_t]: the bytes read land at the
    start of [buf]; the count read is returned. *)
Definition fread (buf : list Z) (n : Z) (fp : list Z) : Z * list Z * list Z :=
  let n := Z.to_nat (to_uint32 n) in
  let got := take n fp in
  (Z.of_nat (length got), got ++ drop (length got) buf, drop n fp).

(** The text a line holds as a C string: the bytes before the first NUL. *)
Fixpoint c_string (line : list Z) : list Z :=
  match line with
  | [] => []
  | c :: line' => if c =? 0 then [] else c :: c_string line'
  end.

(** The decimal conversion of the C library is a parameter [scan]: it
    takes the text left and gives the [int] read and the text after it,
    or [None] when no number starts there. *)
Definition scanner : Type := list Z -> option (Z * list Z).

(** [sscanf(line, "%d", &a)]: conversions made, and [a] afterwards. *)
Definition sscanf_d (scan : scanner) (line : list Z) (a : Z) : Z * Z :=
  match scan (c_string line) with
  | Some (v, _) => (1, v)
  | None => (0, a)
  end.

(** [sscanf(line, "%d %d", &a, &b)]. *)
Definition sscanf_d_d (scan : scanner) (line : list Z) (a b : Z) : Z * Z * Z :=
  match scan (c_string line) with
  | Some (v, rest) =>
      match scan rest with
      | Some (v', _) => (2, v, v')
      | None => (1, v, b)
      end
  | None => (0, a, b)
  end.

(** The header loop of [load_pgm]; every turn reads at least one byte, so
    [fuel] turns are enough once [fuel] exceeds the bytes left. *)
Fixpoint pgm_header (scan : scanner) (fuel : nat) (fp : list Z)
    (header_fields width height maxval : Z) : option (list Z * Z * Z * Z) :=
  match fuel with
  | O => None
  | Datatypes.S fuel' =>
      if header_fields <? 3 then
        match fgets 256 fp with
        | None => None
        | Some (line, fp) =>
            if aget line 0 =? 35 then
              pgm_header scan fuel' fp header_fields width height maxval
            else if header_fields =? 0 then
              let '(n, width, height) := sscanf_d_d scan line width height in
              if n =? 2 then
                pgm_header scan fuel' fp (header_fields + 2) width height maxval
              else
                let '(n, width) := sscanf_d scan line width in
                if n =? 1 then
                  pgm_header scan fuel' fp (header_fields + 1) width height maxval
                else pgm_header scan fuel' fp header_fields width height maxval
            else if header_fields =? 1 then
              let '(n, height) := sscanf_d scan line height in
              if n =? 1 then
                pgm_header scan fuel' fp (header_fields + 1) width height maxval
              else pgm_header scan fuel' fp header_fields width height maxval
            else if header_fields =? 2 then
              let '(n, maxval) := sscanf_d scan line maxval in
              if n =? 1 then
                pgm_header scan fuel' fp (header_fields + 1) width height maxval
              else pgm_header scan fuel' fp header_fields width height maxval
            else pgm_header scan fuel' fp header_fields width height maxval
        end
      else Some (fp, width, height, maxval)
  end.

(** [load_pgm]: the buffer after the read, the width and the height;
    [None] stands for the return value -1. *)
Definition load_pgm (scan : scanner) (file : option (list Z)) (buf : list Z) (buf_size : Z)
    : option (list Z * Z * Z) :=
  match file with
  | None => None
  | Some fp =>
      match fgets 256 fp with
      | None => None
      | Some (line, fp) =>
          if negb (aget line 0 =? 80) || negb (aget line 1 =? 53) then None
          else
            match pgm_header scan (Datatypes.S (length fp)) fp 0 0 0 0 with
            | None => None
            | Some (fp, width, height, maxval) =>
                if (width <=? 0) || (height <=? 0) || (maxval <=? 0) || (maxval >? 255)
                then None
                else if mul32 width height >? buf_size then None
                else
                  let '(got, buf, _) := fread buf (mul32 width height) fp in
                  if negb (to_int32 got =? mul32 width height) then None
                  else Some (buf, width, height)
            end
      end
  end.

(** [resize_nearest]. *)
Definition resize_nearest (src : list Z) (src_w src_h : Z) (dst : list Z) (dst_w dst_h : Z)
    : list Z :=
  for_range 0 dst_h
    (fun y dst =>
       let sy := div32 (mul32 y src_h) dst_h in
       for_range 0 dst_w
         (fun x dst =>
            let sx := div32 (mul32 x src_w) dst_w in
            aset dst (add32 (mul32 y dst_w) x) (aget src (add32 (mul32 sy src_w) sx)))
         dst)
    dst.

(** [memcpy(dst, src, n)] on byte arrays. *)
Definition memcpy (dst src : list Z) (n : Z) : list Z :=
  for_range 0 n (fun i dst => aset dst i (aget src i)) dst.

Record preprocessed := {
  output : list Z;
  orig_w : Z;
  orig_h : Z;
  resized : Z;
}.

(** The last loop of [preprocess_image]: uint8 [0,255] to int8 [0,127]. *)
Definition to_activations (img28 output : list Z) : list Z :=
  for_range 0 MNIST_PIXELS
    (fun i output => aset output i (to_int8 (div32 (mul32 (aget img28 i) 127) 255)))
    output.

(** The 28x28 image [preprocess_image] builds before that loop.
    [raw_buf] and [img28] are the two local arrays as they are found on
    the stack. *)
Definition load_image28 (scan : scanner) (file : option (list Z)) (raw_buf img28 : list Z)
    : option (list Z * Z * Z * Z) :=
  match file with
  | None => None
  | Some fp =>
      let '(got, magic, _) := fread [0; 0] 2 fp in
      if negb (got =? 2) then None
      else if (aget magic 0 =? 80) && (aget magic 1 =? 53) then
        match load_pgm scan file raw_buf (MAX_IMG_DIM * MAX_IMG_DIM) with
        | None => None
        | Some (raw_buf, width, height) =>
            if (width =? MNIST_DIM) && (height =? MNIST_DIM)
            then Some (memcpy img28 raw_buf MNIST_PIXELS, width, height, 0)
            else Some (resize_nearest raw_buf width height img28 MNIST_DIM MNIST_DIM,
                       width, height, 1)
        end
      else
        let fsize := Z.of_nat (length fp) in
        if negb (fsize =? MNIST_PIXELS) then None
        else
          let '(got, img28, _) := fread img28 MNIST_PIXELS fp in
          if negb (to_int32 got =? MNIST_PIXELS) then None
          else Some (img28, 28, 28, 0)
  end.

(** [preprocess_image]; [None] stands for the return value -1. *)
Definition preprocess_image (scan : scanner) (file : option (list Z))
    (raw_buf img28 output : list Z) : option preprocessed :=
  match load_image28 scan file raw_buf img28 with
  | None => None
  | Some (img28, w, h, r) =>
      Some {| output := to_activations img28 output; orig_w := w; orig_h := h; resized := r |}
  end.

End Image.

(** ** Process exit codes *)

Module Exit.

(** *** [test_bitnet.c] *)






(** *** [bitnet_test_common.h] and [test_bitnet_comprehensive.c] *)


Record counters := {
  g_tests_passed : Z;
  g_tests_failed : Z;
  g_tests_total : Z;
}.

Definition TEST_PASS (c : counters) : counters :=
  {| g_tests_passed := g_tests_passed c + 1;
     g_tests_failed := g_tests_failed c;
     g_tests_total := g_tests_total c + 1 |}.

Definition TEST_FAIL (c : counters) : counters :=
  {| g_tests_passed := g_tests_passed c;
     g_tests_failed := g_tests_failed c + 1;
     g_tests_total := g_tests_total c + 1 |}.

Definition ASSERT_EQ (actual expected : Z) (c : counters) : counters :=
  if actual =? expected then TEST_PASS c else TEST_FAIL c.



(** The shape most tests have, here [test_W1_all_plus_one]:
    [run_test] timing out is recorded as a failure. *)
Definition test_W1_all_plus_one (run_test : option (list Z)) (c : counters) : counters :=
  match run_test with
  | None => TEST_FAIL c
  | Some results => ASSERT_EQ (aget results 0) 64 c
  end.


(** *** [mnist_inference.c] *)

(** Output width of the last layer; [generated/mnist_weights.h] is not
    among the sources, the file header gives the network as
    784->256->128->10. *)
Definition L3_M : Z := 10.

(** [fpga_inference]: [layers] holds what [fpga_layer] gives for each of
    the three layers, [None] after a timeout; the first timeout ends the
    inference with -1, otherwise the arg-max of the last layer is the
    prediction. *)
Definition fpga_inference (layers : list (option (list Z))) : Z :=
  match nth 0 layers None with
  | None => -1
  | Some buf1 =>
      match nth 1 layers None with
      | None => -1
      | Some buf2 =>
          match nth 2 layers None with
          | None => -1
          | Some buf3 => argmax_int8 buf3 L3_M
          end
      end
  end.





(** [strrchr(name, '.')]: the text from the last dot on. *)
Fixpoint strrchr_dot (name : string) : option string :=
  match name with
  | EmptyString => None
  | String c rest =>
      match strrchr_dot rest with
      | Some dot => Some dot
      | None => if Ascii.eqb c (Ascii.ascii_of_nat 46) then Some name else None
      end
  end.

Definition tolower (c : Ascii.ascii) : Ascii.ascii :=
  let n := Ascii.nat_of_ascii c in
  if Nat.leb 65 n && Nat.leb n 90 then Ascii.ascii_of_nat (n + 32) else c.

Fixpoint lowercase (s : string) : string :=
  match s with
  | EmptyString => EmptyString
  | String c rest => String (tolower c) (lowercase rest)
  end.

(** [has_image_ext]: [strcasecmp] against ".pgm", ".bin" and ".raw". *)
Definition has_image_ext (name : string) : bool :=
  match strrchr_dot name with
  | None => false
  | Some dot =>
      String.eqb (lowercase dot) ".pgm"
      || String.eqb (lowercase dot) ".bin"
      || String.eqb (lowercase dot) ".raw"
  end.




End Exit.

(** What the loop of [argmax_int8] has established once it reaches [i]. *)
Definition first_max_upto (buf : list Z) (i best : Z) : Prop :=
  0 <= best < i
  /\ (forall j, 0 <= j < i -> aget buf j <= aget buf best)
  /\ (forall j, 0 <= j < best -> aget buf j < aget buf best).

(** The code [pack_weights] gives a weight, as a function. *)
Definition encode (w : Z) : Z :=
  if w =? 1 then 1 else if w =? -1 then 2 else 0.

(** What the loop of [pack_weights] has established once it reaches
    [i]: the fields below [i] hold their codes, the others are clear. *)
Definition packed_upto (weights : list Z) (i : Z) (out : list Z) : Prop :=
  length out = 4%nat
  /\ Forall is_uint32 out
  /\ forall j, 0 <= j < 64 ->
       CodecSpec.field out j = if j <? i then encode (aget weights j) else 0.

(** The DDR3 window of [bitnet_test_common.h], in bytes. *)
Definition DDR3_SPAN : Z := 0x00100000.

(** The encoded matrix lies inside the mapped window. *)
Definition fits_window (M K : Z) : Prop := M * CodecSpec.byte_stride K <= DDR3_SPAN.

(** The weight of column [col] of a row once the row is padded. *)
Definition padded_weight (wmat : list Z) (K row col : Z) : Z :=
  if col <? K then aget wmat (row * K + col) else 0.

(** The word [write_weight_matrix] stores at word index [idx]. *)
Definition layout_word (wmat : list Z) (K idx : Z) : Z :=
  aget (pack_weights
          (tile_chunk wmat K (idx / 4 / CodecSpec.tiles_per_row K)
             ((idx / 4) mod CodecSpec.tiles_per_row K)))
       (idx mod 4).

(** The window once the first [n] words have been written. *)
Definition written_upto (wmat : list Z) (K : Z) (before : gmap Z Z) (n : Z)
    (ddr3 : gmap Z Z) : Prop :=
  forall idx,
    ddr3 !! idx
    = if (0 <=? idx) && (idx <? n) then Some (layout_word wmat K idx) else before !! idx.

(** *** What a call of [fpga_bitlinear] is expected to leave behind *)

Module Tiling.

Import Fpga.

(** WEIGHT_BASE of the chunk that starts at row [r], as the code computes it. *)
Definition tile_base (weight_base stride r : Z) : Z :=
  addu32 weight_base (mulu32 (to_uint32 r) (to_uint32 stride)).

(** DIM_M of the chunk that starts at row [r]. *)
Definition chunk_rows (M r : Z) : Z := Z.min (M - r) FPGA_MAX_DIM_M.

Definition num_chunks (M : Z) : Z := (M + FPGA_MAX_DIM_M - 1) / FPGA_MAX_DIM_M.

(** The activation buffer the accelerator holds after the first loop. *)
Definition loaded_acts (activations : list Z) (K : Z) : list Z :=
  map (fun i => to_uint8 (aget activations i)) (seqZ 0 K).

(** What is read back for row [j] when its chunk completes. *)
Definition readback (hw : accelerator) (activations : list Z) (K weight_base stride j : Z)
    : Z :=
  let r := j / FPGA_MAX_DIM_M * FPGA_MAX_DIM_M in
  to_int32
    (hw_row hw (to_uint32 (tile_base weight_base stride r + (j - r) * hw_row_bytes K))
       K 0 (loaded_acts activations K)).

(** Whether chunk [c] of a call completes within its wait, when [n0]
    START pulses were issued before the call. *)
Definition chunk_ok (hw : accelerator) (n0 : nat) (c : Z) : bool :=
  done_within hw (n0 + 1 + Z.to_nat c) polls_per_wait.

(** Row [j] of the output after the call. *)
Definition tiled_row (hw : accelerator) (n0 : nat) (activations : list Z)
    (K weight_base stride j : Z) : Z :=
  if chunk_ok hw n0 (j / FPGA_MAX_DIM_M)
  then readback hw activations K weight_base stride j
  else 0.

(** The chunk starts from chunk [c] on. *)
Definition starts_from (M c : Z) : list Z :=
  map (fun k => k * FPGA_MAX_DIM_M) (seqZ c (num_chunks M - c)).

(** The registers the first part of [fpga_bitlinear] has set. *)
Definition configured (activations : list Z) (K : Z) (r : gmap Z Z) : Prop :=
  reg_of r REG_DIM_K = to_uint32 K
  /\ reg_of r REG_SHIFT_AMT = 0
  /\ forall i, 0 <= i < K -> reg_of r (REG_ACT_BASE + i * 4) = to_uint8 (aget activations i).

(** WEIGHT_BASE and DIM_M of a latched configuration. *)
Definition launch_args (cfg : gmap Z Z) : Z * Z :=
  (reg_of cfg REG_WEIGHT_BASE, reg_of cfg REG_DIM_M).

End Tiling.

(** One turn of the tile loop: the state handed to the next turn. *)
Definition chunk_step (hw : Fpga.accelerator) (weight_base M stride rows_done : Z)
    (s : Fpga.driver) : Fpga.driver :=
  let tile_m := sub32 M rows_done in
  let tile_m := if tile_m >? Fpga.FPGA_MAX_DIM_M then Fpga.FPGA_MAX_DIM_M else tile_m in
  let tile_weight_base :=
    addu32 weight_base (mulu32 (to_uint32 rows_done) (to_uint32 stride)) in
  let d := Fpga.fpga_reg_write Fpga.REG_WEIGHT_BASE tile_weight_base (Fpga.dev s) in
  let d := Fpga.fpga_reg_write Fpga.REG_DIM_M (to_uint32 tile_m) d in
  let d := Fpga.fpga_reg_write Fpga.REG_CTRL 0x1 d in
  let '(rc, d) := Fpga.fpga_wait_done hw 1000000 d in
  if rc <? 0 then
    {| Fpga.dev := d;
       Fpga.results := Fpga.memset0 (Fpga.results s) rows_done tile_m;
       Fpga.stderr := Fpga.stderr s ++ [rows_done] |}
  else
    let '(res, d) :=
      for_range 0 tile_m
        (fun i '(res, d) =>
           let '(v, d) :=
             Fpga.fpga_reg_read hw (add32 Fpga.REG_RES_BASE (mul32 i 4)) d in
           (aset res (add32 rows_done i) (to_int32 v), d))
        (Fpga.results s, d) in
    {| Fpga.dev := d; Fpga.results := res; Fpga.stderr := Fpga.stderr s |}.

(** *** A small accelerator to run the driver on *)

(** Its accumulator is the row's address plus the sum of the activation
    buffer; the launches listed in [stuck] never show done, the others
    show it at the first read. *)
Definition demo_hw (stuck : list nat) : Fpga.accelerator :=
  {| Fpga.hw_row := fun addr k shift acts => to_uint32 (addr + fold_right Z.add 0 acts);
     Fpga.hw_status := fun launch p => if existsb (Nat.eqb launch) stuck then 1 else 2;
     Fpga.hw_max_dim_m := Fpga.FPGA_MAX_DIM_M;
     Fpga.hw_stale := fun i => 0xDEAD |}.

(** 128 activations of value 1: one tile per weight row. *)
Definition demo_acts : list Z := replicate 128 1.

(** A fresh register bank and an output array of [M] entries holding 7. *)
Definition demo_start (M : Z) : Fpga.driver :=
  {| Fpga.dev := {| Fpga.regs := ∅; Fpga.runs := []; Fpga.polls := O |};
     Fpga.results := replicate (Z.to_nat M) 7;
     Fpga.stderr := [] |}.

(** *** A decimal scanner to run [preprocess_image] on *)

Definition is_space (c : Z) : bool :=
  (c =? 32) || ((9 <=? c) && (c <=? 13)).

Definition is_digit (c : Z) : bool := (48 <=? c) && (c <=? 57).

Fixpoint skip_spaces (s : list Z) : list Z :=
  match s with
  | c :: s' => if is_space c then skip_spaces s' else s
  | [] => []
  end.

Fixpoint scan_digits (s : list Z) (acc : Z) : Z * list Z :=
  match s with
  | c :: s' => if is_digit c then scan_digits s' (to_int32 (acc * 10 + (c - 48))) else (acc, s)
  | [] => (acc, [])
  end.

(** Blanks, then at least one digit; signs are not needed here. *)
Definition scan_decimal : Image.scanner :=
  fun s =>
    match skip_spaces s with
    | c :: s' => if is_digit c then Some (scan_digits (c :: s') 0) else None
    | [] => None
    end.

(** "P5\n2 2\n255\n" followed by the four pixels 0, 255, 128, 64. *)
Definition demo_pgm : list Z :=
  [80; 53; 10; 50; 32; 50; 10; 50; 53; 53; 10; 0; 255; 128; 64].

(** *** Exit codes: what is counted, and two runs of [mnist_inference] *)

Module ExitSpec.

Import Exit.








End ExitSpec.

(** The same accelerator, never stuck, whose weights from byte address
    [zero_from] on are all zero: those rows accumulate to 0. *)
Definition demo_hw_zero_rows (zero_from : Z) : Fpga.accelerator :=
  {| Fpga.hw_row := fun addr k shift acts =>
       if addr <? zero_from then to_uint32 (addr + fold_right Z.add 0 acts) else 0;
     Fpga.hw_status := fun launch p => 2;
     Fpga.hw_max_dim_m := Fpga.FPGA_MAX_DIM_M;
     Fpga.hw_stale := fun i => 0xDEAD |}.

(** An accelerator that shows BUSY at the first [ready] reads of STATUS
    after a START pulse and DONE from then on. *)
Definition demo_hw_late (ready : nat) : Fpga.accelerator :=
  {| Fpga.hw_row := fun addr k shift acts => to_uint32 (addr + fold_right Z.add 0 acts);
     Fpga.hw_status := fun launch p => if Nat.ltb p ready then 1 else 2;
     Fpga.hw_max_dim_m := Fpga.FPGA_MAX_DIM_M;
     Fpga.hw_stale := fun i => 0xDEAD |}.

(** A register bank in use: DIM_M and DIM_K written, one run launched,
    STATUS not read since. *)
Definition demo_bank : Fpga.fpga :=
  {| Fpga.regs := <[0 := 1]> (<[4 := 128]> (<[3 := 4]> ∅));
     Fpga.runs := [<[0 := 1]> (<[4 := 128]> (<[3 := 4]> ∅))];
     Fpga.polls := O |}.

(** ** Further functions of the sources *)

(** [relu_int8] ([mnist_inference.c]). *)
Definition relu_int8 (buf : list Z) (n : Z) : list Z :=
  for_range 0 n (fun i buf => if aget buf i <? 0 then aset buf i 0 else buf) buf.



(** ** The test bench ([bitnet_test_common.h]) *)

Module Bench.

Import Fpga.

(** The register offsets are those of [Fpga], the result buffer apart. *)
Definition RES_BASE : Z := 0x2000.
Definition DDR3_BASE : Z := 0x30000000.
Definition LW_BRIDGE_SPAN : Z := 0x00200000.

(** Modelled from the spec: the accelerator of the test bench, whose
    hardware description is not among the software sources.  STATUS is
    what the p-th read after the n-th START pulse shows; the RESULT
    registers and PERF_CYCLES after the n-th START pulse are given from
    the registers latched by that pulse.  Nothing more is assumed. *)
Record bench_hw := {
  bh_status : nat -> nat -> Z;
  bh_result : nat -> gmap Z Z -> Z -> Z;
  bh_cycles : nat -> gmap Z Z -> Z;
}.

(** [reg_write(g_bitnet, offset, val)]: [base[offset / 4] = val]; writing
    bit 0 of CTRL is the START pulse. *)
Definition reg_write (offset val : Z) (g_bitnet : fpga) : fpga :=
  let offset := to_uint32 offset in
  let r := <[offset / 4 := val]> (regs g_bitnet) in
  if (offset / 4 =? REG_CTRL / 4) && Z.testbit val 0
  then {| regs := r; runs := runs g_bitnet ++ [r]; polls := 0 |}
  else {| regs := r; runs := runs g_bitnet; polls := polls g_bitnet |}.

(** [reg_read(g_bitnet, offset)]: [base[offset / 4]]. *)
Definition reg_read (hw : bench_hw) (offset : Z) (g_bitnet : fpga) : Z * fpga :=
  let offset := to_uint32 offset in
  if offset / 4 =? REG_STATUS / 4 then
    (bh_status hw (length (runs g_bitnet)) (polls g_bitnet),
     {| regs := regs g_bitnet; runs := runs g_bitnet;
        polls := Datatypes.S (polls g_bitnet) |})
  else if RES_BASE / 4 <=? offset / 4 then
    (bh_result hw (length (runs g_bitnet)) (List.last (runs g_bitnet) ∅)
       (offset / 4 - RES_BASE / 4), g_bitnet)
  else if offset / 4 =? REG_PERF_CYCLES / 4 then
    (bh_cycles hw (length (runs g_bitnet)) (List.last (runs g_bitnet) ∅), g_bitnet)
  else (reg_of (regs g_bitnet) offset, g_bitnet).

(** The loop of [wait_done]; each turn takes 10 from [timeout_us], so
    [fuel] turns are enough once [fuel] is at least [timeout_us]. *)
Fixpoint wait_loop (hw : bench_hw) (fuel : nat) (timeout_us : Z) (g_bitnet : fpga)
    : Z * fpga :=
  match fuel with
  | O => (-1, g_bitnet)
  | Datatypes.S fuel' =>
      if timeout_us >? 0 then
        let '(st, g_bitnet) := reg_read hw REG_STATUS g_bitnet in
        if Z.land st 2 =? 0
        then wait_loop hw fuel' (sub32 timeout_us 10) g_bitnet
        else (0, g_bitnet)
      else (-1, g_bitnet)
  end.

Definition wait_done (hw : bench_hw) (timeout_us : Z) (g_bitnet : fpga) : Z * fpga :=
  wait_loop hw (Z.to_nat timeout_us) timeout_us g_bitnet.

(** [write_activations]. *)
Definition write_activations (acts : list Z) (K : Z) (g_bitnet : fpga) : fpga :=
  for_range 0 K
    (fun i g_bitnet =>
       reg_write (add32 REG_ACT_BASE (mul32 i 4)) (to_uint8 (aget acts i)) g_bitnet)
    g_bitnet.

(** [read_results]. *)
Definition read_results (hw : bench_hw) (results : list Z) (M : Z) (g_bitnet : fpga)
    : list Z * fpga :=
  for_range 0 M
    (fun i '(results, g_bitnet) =>
       let '(v, g_bitnet) := reg_read hw (add32 RES_BASE (mul32 i 4)) g_bitnet in
       (aset results i (to_int8 (Z.land v 0xFF)), g_bitnet))
    (results, g_bitnet).

(** The two mappings of [mmap_init]: the register bank and the DDR3
    window as 32-bit words. *)
Record board := {
  g_bitnet : fpga;
  g_ddr3 : gmap Z Z;
}.

(** [run_test]: the return value, the output array, the board. *)
Definition run_test (hw : bench_hw) (wmat acts : list Z) (M K shift : Z)
    (results : list Z) (b : board) : Z * list Z * board :=
  let ddr3 := write_weight_matrix wmat M K (g_ddr3 b) in
  let d := reg_write REG_WEIGHT_BASE DDR3_BASE (g_bitnet b) in
  let d := reg_write REG_DIM_M (to_uint32 M) d in
  let d := reg_write REG_DIM_K (to_uint32 K) d in
  let d := reg_write REG_SHIFT_AMT (to_uint32 shift) d in
  let d := write_activations acts K d in
  let d := reg_write REG_CTRL 0x1 d in
  let '(rc, d) := wait_done hw 500000 d in
  if rc <? 0 then (-1, results, {| g_bitnet := d; g_ddr3 := ddr3 |})
  else
    let '(results, d) := read_results hw results M d in
    (0, results, {| g_bitnet := d; g_ddr3 := ddr3 |}).

(** The STATUS oracle of the bench as an [accelerator], to share the
    facts on polling. *)
Definition status_only (hw : bench_hw) : accelerator :=
  {| hw_row := fun _ _ _ _ => 0; hw_status := bh_status hw;
     hw_max_dim_m := 0; hw_stale := fun _ => 0 |}.

(** Whether STATUS shows done within the [n] reads that follow the
    [launch]-th START pulse. *)
Definition done_by (hw : bench_hw) (launch : nat) (n : Z) : bool :=
  existsb (fun p => negb (Z.land (bh_status hw launch p) 2 =? 0)) (seq 0 (Z.to_nat n)).

(** What a START pulse of [run_test] or [fpga_layer] latches. *)
Definition launched (acts : list Z) (M K shift base : Z) (cfg : gmap Z Z) : Prop :=
  reg_of cfg REG_WEIGHT_BASE = base
  /\ reg_of cfg REG_DIM_M = to_uint32 M
  /\ reg_of cfg REG_DIM_K = to_uint32 K
  /\ reg_of cfg REG_SHIFT_AMT = to_uint32 shift
  /\ forall i, 0 <= i < K -> reg_of cfg (REG_ACT_BASE + i * 4) = to_uint8 (aget acts i).

(** The registers a run of [M] rows on [K] activations touches lie
    inside the mapped bridge: ACTIVATION[0..K) ends below the RESULT
    registers, and RESULT[0..M) ends inside the [LW_BRIDGE_SPAN] bytes
    that [mmap_init] maps. *)
Definition fits_bridge (M K : Z) : Prop :=
  REG_ACT_BASE + 4 * K <= RES_BASE /\ RES_BASE + 4 * M <= LW_BRIDGE_SPAN.

(** Entry [i] of the output after the [n]-th run, latched as [cfg]. *)
Definition result_byte (hw : bench_hw) (n : nat) (cfg : gmap Z Z) (i : Z) : Z :=
  to_int8 (Z.land (bh_result hw n cfg i) 0xFF).

End Bench.

(** ** The network of [mnist_inference.c] *)

Module Mnist.

Import Fpga Bench.

(** The constants of [generated/mnist_weights.h], a file that is not
    among the sources: they are parameters here. *)
Record network := {
  L1_M : Z; L1_K : Z; L1_SHIFT : Z; L1_DDR3_BYTES : Z;
  L2_M : Z; L2_K : Z; L2_SHIFT : Z; L2_DDR3_BYTES : Z;
  L3_M : Z; L3_K : Z; L3_SHIFT : Z; L3_DDR3_BYTES : Z;
}.

(** The register bank, the three layer offsets, and the (M, K) of the
    "FPGA timeout!" lines on stderr. *)
Record mnist := {
  bank : fpga;
  ddr3_l1_offset : Z;
  ddr3_l2_offset : Z;
  ddr3_l3_offset : Z;
  timeout_lines : list (Z * Z);
}.

Definition with_bank (s : mnist) (d : fpga) : mnist :=
  {| bank := d;
     ddr3_l1_offset := ddr3_l1_offset s;
     ddr3_l2_offset := ddr3_l2_offset s;
     ddr3_l3_offset := ddr3_l3_offset s;
     timeout_lines := timeout_lines s |}.



(** [fpga_layer]; [cycles_out] is never null in the callers and stands
    for the word it points to.  The return value, the output array, the
    cycle count, the state. *)
Definition fpga_layer (hw : bench_hw) (activations results : list Z)
    (M K shift ddr3_byte_offset : Z) (cycles_out : Z) (s : mnist)
    : Z * list Z * Z * mnist :=
  let d := write_activations activations K (bank s) in
  let d := reg_write REG_WEIGHT_BASE (addu32 DDR3_BASE ddr3_byte_offset) d in
  let d := reg_write REG_DIM_M (to_uint32 M) d in
  let d := reg_write REG_DIM_K (to_uint32 K) d in
  let d := reg_write REG_SHIFT_AMT (to_uint32 shift) d in
  let d := reg_write REG_CTRL 0x1 d in
  let '(rc, d) := wait_done hw 2000000 d in
  if rc <? 0 then
    (-1, results, cycles_out,
     {| bank := d;
        ddr3_l1_offset := ddr3_l1_offset s;
        ddr3_l2_offset := ddr3_l2_offset s;
        ddr3_l3_offset := ddr3_l3_offset s;
        timeout_lines := timeout_lines s ++ [(M, K)] |})
  else
    let '(cycles, d) := reg_read hw REG_PERF_CYCLES d in
    let '(results, d) := read_results hw results M d in
    (0, results, cycles, with_bank s d).

(** [fpga_inference]; [buf1], [buf2] and [buf3] are the local arrays as
    they are found on the stack.  The return value, [layer_cycles], the
    state. *)
Definition fpga_inference (hw : bench_hw) (net : network) (image : list Z)
    (layer_cycles : list Z) (buf1 buf2 buf3 : list Z) (s : mnist)
    : Z * list Z * mnist :=
  let '(rc, buf1, c, s) :=
    fpga_layer hw image buf1 (L1_M net) (L1_K net) (L1_SHIFT net)
      (ddr3_l1_offset s) (aget layer_cycles 0) s in
  let layer_cycles := aset layer_cycles 0 c in
  if rc <? 0 then (-1, layer_cycles, s)
  else
    let buf1 := relu_int8 buf1 (L1_M net) in
    let '(rc, buf2, c, s) :=
      fpga_layer hw buf1 buf2 (L2_M net) (L2_K net) (L2_SHIFT net)
        (ddr3_l2_offset s) (aget layer_cycles 1) s in
    let layer_cycles := aset layer_cycles 1 c in
    if rc <? 0 then (-1, layer_cycles, s)
    else
      let buf2 := relu_int8 buf2 (L2_M net) in
      let '(rc, buf3, c, s) :=
        fpga_layer hw buf2 buf3 (L3_M net) (L3_K net) (L3_SHIFT net)
          (ddr3_l3_offset s) (aget layer_cycles 2) s in
      let layer_cycles := aset layer_cycles 2 c in
      if rc <? 0 then (-1, layer_cycles, s)
      else (argmax_int8 buf3 (L3_M net), layer_cycles, s).



Definition relu (v : list Z) : list Z := map (Z.max 0) v.

End Mnist.

(** *** What one inference is expected to do *)

Module MnistSpec.

Import Fpga Bench Mnist.

(** Whether the [k]-th run launched from state [s] on shows done within
    the 200000 reads of STATUS that [fpga_layer] allows. *)
Definition layer_ok (hw : bench_hw) (s : mnist) (k : nat) : bool :=
  done_by hw (length (runs (bank s)) + k) 200000.

(** The [M] output bytes of that run, latched as [cfg]. *)
Definition layer_out (hw : bench_hw) (s : mnist) (k : nat) (cfg : gmap Z Z) (M : Z)
    : list Z :=
  map (result_byte hw (length (runs (bank s)) + k) cfg) (seqZ 0 M).

(** The three local buffers have the sizes of the layers, and every
    index computed by the code fits an [int]. *)
Definition sized (net : network) (buf1 buf2 buf3 : list Z) : Prop :=
  (0 <= L1_K net < 2 ^ 28 /\ 0 <= L2_K net < 2 ^ 28 /\ 0 <= L3_K net < 2 ^ 28)
  /\ (L1_M net < 2 ^ 28 /\ L2_M net < 2 ^ 28 /\ L3_M net < 2 ^ 28)
  /\ Z.of_nat (length buf1) = L1_M net
  /\ Z.of_nat (length buf2) = L2_M net
  /\ Z.of_nat (length buf3) = L3_M net.

(** The arrays of one inference are as wide as the code reads them: the
    image has the L1_K entries of the first layer, each later layer reads
    as many activations as the layer before it wrote, [layer_cycles] has
    its three entries, and the registers of every layer lie inside the
    mapped bridge. *)
Definition wired (net : network) (image layer_cycles : list Z) : Prop :=
  Z.of_nat (length image) = L1_K net
  /\ L2_K net = L1_M net /\ L3_K net = L2_M net
  /\ length layer_cycles = 3%nat
  /\ fits_bridge (L1_M net) (L1_K net)
  /\ fits_bridge (L2_M net) (L2_K net)
  /\ fits_bridge (L3_M net) (L3_K net).



(** A network of the shape 6 -> 3 -> 2 -> 2 to run the definitions on. *)
Definition demo_net : network :=
  {| L1_M := 3; L1_K := 6; L1_SHIFT := 1; L1_DDR3_BYTES := 48;
     L2_M := 2; L2_K := 3; L2_SHIFT := 0; L2_DDR3_BYTES := 32;
     L3_M := 2; L3_K := 2; L3_SHIFT := 0; L3_DDR3_BYTES := 32 |}.

Definition demo_bench (stuck : list nat) : bench_hw :=
  {| bh_status := fun n _ => if existsb (Nat.eqb n) stuck then 0 else 2;
     bh_result := fun n _ i => 250 + Z.of_nat n + i;
     bh_cycles := fun n _ => Z.of_nat n |}.

Definition demo_state : mnist :=
  {| bank := {| regs := ∅; runs := []; polls := O |};
     ddr3_l1_offset := 0; ddr3_l2_offset := 48; ddr3_l3_offset := 80;
     timeout_lines := [] |}.

End MnistSpec.

(** ** Loading a weight file ([bitnet_fpga.h]) *)

(** [fpga_load_weights]: [file] is the file at [fpga_bin_path] ([None]
    when it cannot be opened), [fpga_ddr3] the mapped window as bytes.
    [ftell] gives the length of the file, taken to fit a [long]; [long]
    and [size_t] are 32 bits wide on the target.  The return value and
    the window. *)
Definition fpga_load_weights (file : option (list Z)) (fpga_ddr3_span : Z)
    (fpga_ddr3 : list Z) : Z * list Z :=
  match file with
  | None => (-1, fpga_ddr3)
  | Some f =>
      let size := Z.of_nat (length f) in
      if to_uint32 size >? fpga_ddr3_span then (-1, fpga_ddr3)
      else
        let '(read, fpga_ddr3, _) := Image.fread fpga_ddr3 size f in
        if negb (to_int32 read =? size) then (-1, fpga_ddr3) else (0, fpga_ddr3)
  end.

(** ** The smoke test of the driver ([test_fpga_driver.c]) *)

Module DriverTest.

Import Fpga.

(** [pack_weights_128]: 128 weights into eight 32-bit words. *)
Definition pack_weights_128 (weights : list Z) : list Z :=
  let out := replicate 8 0 in
  for_range 0 128
    (fun i out =>
       let enc :=
         if aget weights i =? 1 then 1
         else if aget weights i =? -1 then 2
         else 0 in
       aset out (Z.quot i 16)
         (Z.lor (aget out (Z.quot i 16)) (shlu32 enc (mul32 (Z.rem i 16) 2))))
    out.

(** The 128 weights of one tile of [write_test_weights]: [fill_weight]
    in the columns below [K], zero from [K] on. *)
Definition test_chunk (K tile fill_weight : Z) : list Z :=
  for_range 0 128
    (fun i chunk =>
       let col := add32 (mul32 tile FPGA_NUM_PES) i in
       aset chunk i (if col <? K then fill_weight else 0))
    (replicate 128 0).

(** [write_test_weights]: [fpga_ddr3] is the DDR3 window as 32-bit words. *)
Definition write_test_weights (M K fill_weight : Z) (fpga_ddr3 : gmap Z Z) : gmap Z Z :=
  let tiles_per_row := div32 (sub32 (add32 K FPGA_NUM_PES) 1) FPGA_NUM_PES in
  for_range 0 M
    (fun row fpga_ddr3 =>
       for_range 0 tiles_per_row
         (fun tile fpga_ddr3 =>
            let chunk := test_chunk K tile fill_weight in
            let packed := pack_weights_128 chunk in
            let word_offset := to_uint32 (mul32 (add32 (mul32 row tiles_per_row) tile) 8) in
            for_range 0 8
              (fun i fpga_ddr3 => <[addu32 word_offset i := aget packed i]> fpga_ddr3)
              fpga_ddr3)
         fpga_ddr3)
    fpga_ddr3.

(** ceil(K / 128), the tiles of a row. *)
Definition tiles128 (K : Z) : Z := (K + FPGA_NUM_PES - 1) / FPGA_NUM_PES.

(** What the loop of [pack_weights_128] has established once it reaches
    [i]. *)
Definition packed128_upto (weights : list Z) (i : Z) (out : list Z) : Prop :=
  length out = 8%nat
  /\ Forall is_uint32 out
  /\ forall j, 0 <= j < 128 ->
       CodecSpec.field out j = if j <? i then encode (aget weights j) else 0.

(** The word [write_test_weights] stores at word index [idx]. *)
Definition test_word (K fill_weight idx : Z) : Z :=
  aget (pack_weights_128 (test_chunk K ((idx / 8) mod tiles128 K) fill_weight)) (idx mod 8).

(** The window once the first [n] words have been written. *)
Definition test_written_upto (K fill_weight : Z) (before : gmap Z Z) (n : Z)
    (ddr3 : gmap Z Z) : Prop :=
  forall idx,
    ddr3 !! idx
    = if (0 <=? idx) && (idx <? n) then Some (test_word K fill_weight idx)
      else before !! idx.

End DriverTest.

(** ** The activation quantizer ([bitmamba_fpga/bitnet_fpga.h]) *)

(** C [float] is IEEE 754 binary32: 24 bits of precision, exponents below
    128.  Every operation is rounded to binary32, to nearest with ties to
    even, as on the ARM target of the driver ([FLT_EVAL_METHOD] 0, no
    fused multiply-add).  A value is a [spec_float]: a signed zero, a
    signed infinity, NaN, or [(-1)^s * m * 2^e]. *)
Module F32.
Import SpecFloat.

Definition float : Type := spec_float.

(** The values a binary32 variable can hold. *)
Definition valid (f : float) : bool := valid_binary 24 128 f.

(** Neither an infinity nor NaN. *)
Definition is_finite (f : float) : bool :=
  match f with
  | S754_zero _ | S754_finite _ _ _ => true
  | _ => false
  end.

Definition is_zero (f : float) : bool :=
  match f with
  | S754_zero _ => true
  | _ => false
  end.

(** The sign bit; NaN is given none. *)
Definition sign_bit (f : float) : bool :=
  match f with
  | S754_zero s | S754_infinity s | S754_finite s _ _ => s
  | S754_nan => false
  end.

Definition fadd (a b : float) : float := SFadd 24 128 a b.
Definition fmul (a b : float) : float := SFmul 24 128 a b.
Definition fdiv (a b : float) : float := SFdiv 24 128 a b.
Definition sqrtf (a : float) : float := SFsqrt 24 128 a.
Definition fabsf (a : float) : float := SFabs a.

(** [a > b] and [a < b]; both are false when an operand is NaN. *)
Definition fgt (a b : float) : bool := SFltb b a.
Definition flt (a b : float) : bool := SFltb a b.

(** [(float)n] for an [int] n. *)
Definition of_int (n : Z) : float := binary_normalize 24 128 n 0 false.

(** The literals of [rms_norm_int8]: [0.0f], [1.0f], [1e-6f], [1e-5f],
    [127.0f], [-128.0f]. *)
Definition f_0 : float := S754_zero false.
Definition f_1 : float := S754_finite false 8388608 (-23).
Definition f_1e_6 : float := S754_finite false 8796093 (-43).
Definition f_1e_5 : float := S754_finite false 10995116 (-40).
Definition f_127 : float := S754_finite false 16646144 (-17).
Definition f_m128 : float := S754_finite true 8388608 (-16).

(** [FLT_MAX], the largest finite value. *)
Definition FLT_MAX : float := S754_finite false 16777215 104.

(** [roundf] of the C library: the nearest integral value, halves away
    from zero; zeros, infinities and NaN are returned as they are. *)
Definition roundf (v : float) : float :=
  match v with
  | S754_finite s m e =>
      if 0 <=? e then v
      else
        let n := (Z.pos m + 2 ^ (- e - 1)) / 2 ^ (- e) in
        if n =? 0 then S754_zero s
        else binary_normalize 24 128 (cond_Zopp s n) 0 s
  | _ => v
  end.

(** [(int8_t)v]: the fractional part is discarded; the conversion is
    undefined ([None]) when the integral part is not a value of [int8_t],
    and for the infinities and NaN. *)
Definition int8_of_float (v : float) : option Z :=
  match v with
  | S754_zero _ => Some 0
  | S754_finite s m e =>
      let t := cond_Zopp s (if 0 <=? e then Z.pos m * 2 ^ e
                            else Z.pos m / 2 ^ (- e)) in
      if (-128 <=? t) && (t <=? 127) then Some t else None
  | _ => None
  end.

(** [a[i]] and [a[i] = v] on arrays of [float]; as for [aget] and [aset],
    a read outside the array gives 0 and a write outside it does nothing. *)
Definition fget (a : list float) (i : Z) : float :=
  if i <? 0 then f_0 else nth (Z.to_nat i) a f_0.

Definition fset (a : list float) (i : Z) (v : float) : list float :=
  if i <? 0 then a else <[Z.to_nat i := v]> a.

(** [malloc(size * sizeof(float))], taken to succeed: [size] cells whose
    contents are not initialised (here NaN).  The byte count is computed
    in the 32-bit [size_t] of the board, without wrap-around for
    [size < 2^30]. *)
Definition malloc_floats (size : Z) : list float :=
  replicate (Z.to_nat size) S754_nan.

End F32.

Module Quant.
Import F32.

(** The three statements of the last loop of [rms_norm_int8] on one value:
    [if (val > 127.0f) val = 127.0f; if (val < -128.0f) val = -128.0f;
     (int8_t)roundf(val)]. *)
Definition saturate_round (val : float) : option Z :=
  let val := if fgt val f_127 then f_127 else val in
  let val := if flt val f_m128 then f_m128 else val in
  int8_of_float (roundf val).

(** [rms_norm_int8]: the returned scale and the [out] array, or [None]
    when a float-to-[int8_t] conversion is undefined. *)
Definition rms_norm_int8 (x norm_weight : list float) (size : Z) (out : list Z)
    : option (float * list Z) :=
  let sum_sq :=
    for_range 0 size (fun i sum_sq => fadd sum_sq (fmul (fget x i) (fget x i))) f_0 in
  let rms := fdiv f_1 (sqrtf (fadd (fdiv sum_sq (of_int size)) f_1e_6)) in
  let '(max_abs, normalized) :=
    for_range 0 size
      (fun i '(max_abs, normalized) =>
         let normalized :=
           fset normalized i (fmul (fmul (fget x i) rms) (fget norm_weight i)) in
         let a := fabsf (fget normalized i) in
         (if fgt a max_abs then a else max_abs, normalized))
      (f_0, malloc_floats size) in
  let scale_x := fdiv f_127 (fadd max_abs f_1e_5) in
  let out :=
    for_range 0 size
      (fun i out =>
         match out with
         | Some out =>
             let val := fmul (fget normalized i) scale_x in
             match saturate_round val with
             | Some q => Some (aset out i q)
             | None => None
             end
         | None => None
         end)
      (Some out) in
  match out with
  | Some out => Some (scale_x, out)
  | None => None
  end.

End Quant.

(** The quantizer as the specification words it, in binary32 arithmetic. *)
Module QuantSpec.
Import F32.

(** mean(x_i^2): the squares summed from the first entry on, over K. *)
Definition mean_sq (x : list float) : float :=
  fdiv (fold_left (fun s xi => fadd s (fmul xi xi)) x f_0)
       (of_int (Z.of_nat (length x))).

(** rms = 1 / sqrt(mean(x_i^2) + 1e-6). *)
Definition rms (x : list float) : float :=
  fdiv f_1 (sqrtf (fadd (mean_sq x) f_1e_6)).

(** normalized_i = x_i * rms * w_i. *)
Definition normalized (x w : list float) : list float :=
  zip_with (fun xi wi => fmul (fmul xi (rms x)) wi) x w.

(** max_i |v_i|, from 0 on; a NaN entry is never the maximum. *)
Definition max_abs (v : list float) : float :=
  fold_left (fun m vi => if fgt (fabsf vi) m then fabsf vi else m) v f_0.

(** scale = 127 / (max_i |normalized_i| + 1e-5). *)
Definition scale (x w : list float) : float :=
  fdiv f_127 (fadd (max_abs (normalized x w)) f_1e_5).

(** round: the integer nearest to [(-1)^s * m * 2^e], halves away from
    zero. *)
Definition round (s : bool) (m : positive) (e : Z) : Z :=
  SpecFloat.cond_Zopp s
    (if 0 <=? e then Z.pos m * 2 ^ e
     else (2 * Z.pos m + 2 ^ (- e)) / 2 ^ (- e + 1)).

(** clamp(round(v), -128, 127); an infinity is clamped to the bound on its
    side, and NaN has no rounded value. *)
Definition quantized (v : float) : option Z :=
  match v with
  | SpecFloat.S754_nan => None
  | SpecFloat.S754_infinity s => Some (if s then -128 else 127)
  | SpecFloat.S754_zero _ => Some 0
  | SpecFloat.S754_finite s m e => Some (clamp (-128) 127 (round s m e))
  end.

(** normalized_i * scale, for every i. *)
Definition scaled (x w : list float) : list float :=
  map (fun n => fmul n (scale x w)) (normalized x w).

(** One finite entry and a large finite weight. *)
Definition overflow_x : list float := [f_1; f_0; f_0; f_0].
Definition overflow_w : list float := [FLT_MAX; f_1; f_1; f_1].

(** The vector (3, -2, 1, 0) with unit weights. *)
Definition sample_x : list float := [of_int 3; of_int (-2); of_int 1; of_int 0].
Definition sample_w : list float := [f_1; f_1; f_1; f_1].

End QuantSpec.

(** * Properties *)

(** ** Fixed-width integers *)

Lemma to_int32_id z : is_int32 z -> to_int32 z = z.
Proof.
  unfold is_int32, to_int32. intros H.
  rewrite Z.mod_small; lia.
Qed.

Lemma to_int32_range z : is_int32 (to_int32 z).
Proof.
  unfold is_int32, to_int32.
  pose proof (Z.mod_pos_bound (z + 2 ^ 31) (2 ^ 32) ltac:(lia)). lia.
Qed.

Lemma to_uint32_id z : is_uint32 z -> to_uint32 z = z.
Proof. unfold is_uint32, to_uint32. intros H. apply Z.mod_small; lia. Qed.

Lemma to_uint32_range z : is_uint32 (to_uint32 z).
Proof. unfold is_uint32, to_uint32. apply Z.mod_pos_bound. lia. Qed.

Lemma to_int8_id z : is_int8 z -> to_int8 z = z.
Proof.
  unfold is_int8, to_int8. intros H.
  rewrite Z.mod_small; lia.
Qed.

Lemma to_uint8_range z : is_uint8 (to_uint8 z).
Proof.
  unfold is_uint8, to_uint8.
  pose proof (Z.mod_pos_bound z (2 ^ 8) ltac:(lia)). lia.
Qed.

(** A wrapped summand can be unwrapped inside a wrapped sum. *)
Lemma to_int32_add_l x y : to_int32 (to_int32 x + y) = to_int32 (x + y).
Proof.
  unfold to_int32.
  replace ((x + 2 ^ 31) mod 2 ^ 32 - 2 ^ 31 + y + 2 ^ 31)
    with ((x + 2 ^ 31) mod 2 ^ 32 + y) by lia.
  rewrite Zplus_mod_idemp_l. f_equal. f_equal. lia.
Qed.

Lemma to_uint32_add_l x y : to_uint32 (to_uint32 x + y) = to_uint32 (x + y).
Proof. unfold to_uint32. apply Zplus_mod_idemp_l. Qed.

Lemma to_uint32_add_r x y : to_uint32 (x + to_uint32 y) = to_uint32 (x + y).
Proof. unfold to_uint32. apply Zplus_mod_idemp_r. Qed.

Lemma to_uint32_mul_l x y : to_uint32 (to_uint32 x * y) = to_uint32 (x * y).
Proof. unfold to_uint32. apply Zmult_mod_idemp_l. Qed.

Lemma to_uint32_mul_r x y : to_uint32 (x * to_uint32 y) = to_uint32 (x * y).
Proof. unfold to_uint32. apply Zmult_mod_idemp_r. Qed.

(** Discharges the side conditions of the [_id] lemmas. *)
Ltac int_range :=
  unfold is_int32, is_uint32, is_int8, is_uint8 in *; lia.

(** ** Loops and arrays *)

Lemma iter_from_ind {S : Type} (P : Z -> S -> Prop) (body : Z -> S -> S) (n : nat) :
  forall (i : Z) (s : S),
    P i s ->
    (forall j t, i <= j < i + Z.of_nat n -> P j t -> P (j + 1) (body j t)) ->
    P (i + Z.of_nat n) (iter_from n i body s).
Proof.
  induction n as [|n IH]; intros i s H0 Hstep; simpl iter_from.
  - replace (i + Z.of_nat 0) with i by lia. exact H0.
  - replace (i + Z.of_nat (Datatypes.S n)) with ((i + 1) + Z.of_nat n) by lia.
    apply IH.
    + apply Hstep; [lia | exact H0].
    + intros j t Hj. apply Hstep. lia.
Qed.

(** The invariant rule of a counting loop. *)
Lemma for_range_ind {S : Type} (P : Z -> S -> Prop) (lo hi : Z) (body : Z -> S -> S) (s : S) :
  lo <= hi ->
  P lo s ->
  (forall j t, lo <= j < hi -> P j t -> P (j + 1) (body j t)) ->
  P hi (for_range lo hi body s).
Proof.
  intros Hle H0 Hstep. unfold for_range.
  replace hi with (lo + Z.of_nat (Z.to_nat (hi - lo))) at 1 by lia.
  apply iter_from_ind; [exact H0 |].
  intros j t Hj. apply Hstep. lia.
Qed.

Lemma for_range_empty {S : Type} (lo hi : Z) (body : Z -> S -> S) (s : S) :
  hi <= lo -> for_range lo hi body s = s.
Proof.
  intros H. unfold for_range.
  replace (Z.to_nat (hi - lo)) with O by lia. reflexivity.
Qed.



Lemma aget_nth (a : list Z) (i : Z) : 0 <= i -> aget a i = nth (Z.to_nat i) a 0.
Proof. intros H. unfold aget. destruct (Z.ltb_spec i 0); [lia | reflexivity]. Qed.

Lemma aget_aset_eq (a : list Z) (i v : Z) :
  0 <= i < Z.of_nat (length a) -> aget (aset a i v) i = v.
Proof.
  intros H. unfold aget, aset. destruct (Z.ltb_spec i 0); [lia |].
  apply nth_lookup_Some with (d := 0).
  apply list_lookup_insert_eq. lia.
Qed.

Lemma aget_aset_ne (a : list Z) (i j v : Z) :
  0 <= i -> 0 <= j -> i <> j -> aget (aset a i v) j = aget a j.
Proof.
  intros Hi Hj Hne. unfold aget, aset.
  destruct (Z.ltb_spec i 0); [lia |]. destruct (Z.ltb_spec j 0); [lia |].
  rewrite !nth_lookup. rewrite list_lookup_insert_ne; [reflexivity | lia].
Qed.

Lemma length_aset (a : list Z) (i v : Z) : length (aset a i v) = length a.
Proof. unfold aset. destruct (i <? 0); [reflexivity | apply length_insert]. Qed.

(** ** Reference model *)

Lemma dot_nil_r (w : list Z) : dot w [] = 0.
Proof. destruct w; reflexivity. Qed.

(** One more term of the dot product. *)
Lemma dot_take_succ (w a : list Z) :
  forall n : nat,
    (n < length w)%nat -> (n < length a)%nat ->
    dot (take (Datatypes.S n) w) (take (Datatypes.S n) a)
    = dot (take n w) (take n a) + nth n w 0 * nth n a 0.
Proof.
  revert a. induction w as [|x w IH]; intros a n Hw Ha; simpl in Hw; [lia |].
  destruct a as [|y a]; simpl in Ha; [lia |].
  destruct n as [|n].
  - simpl. rewrite ?take_0. simpl. lia.
  - change (take (Datatypes.S (Datatypes.S n)) (x :: w)) with (x :: take (Datatypes.S n) w).
    change (take (Datatypes.S (Datatypes.S n)) (y :: a)) with (y :: take (Datatypes.S n) a).
    change (take (Datatypes.S n) (x :: w)) with (x :: take n w).
    change (take (Datatypes.S n) (y :: a)) with (y :: take n a).
    simpl dot. simpl nth. rewrite IH by lia. lia.
Qed.

(** Ternary weights and int8 activations keep every term within 128. *)
Lemma dot_bound (w a : list Z) :
  Forall is_ternary w -> Forall is_int8 a ->
  - 128 * Z.of_nat (length w) <= dot w a <= 128 * Z.of_nat (length w).
Proof.
  intros Hw. revert a. induction Hw as [|x w Hx Hw IH]; intros a Ha.
  - simpl. lia.
  - destruct Ha as [|y a Hy Ha]; [simpl; lia |].
    specialize (IH a Ha). simpl dot. simpl length.
    unfold is_ternary in Hx. unfold is_int8 in Hy. nia.
Qed.

(** The accumulator of [compute_expected_row] after the loop. *)
Lemma accumulate_dot (w a : list Z) (K : Z) :
  Z.of_nat (length w) = K -> Z.of_nat (length a) = K ->
  Forall is_ternary w -> Forall is_int8 a ->
  for_range 0 K
    (fun i acc => add32 acc (mul32 (to_int32 (aget w i)) (to_int32 (aget a i)))) 0
  = to_int32 (dot w a).
Proof.
  intros Hlw Hla Hw Ha.
  pose (P := fun (i : Z) (acc : Z) =>
               acc = to_int32 (dot (take (Z.to_nat i) w) (take (Z.to_nat i) a))).
  assert (HP : P K (for_range 0 K
    (fun i acc => add32 acc (mul32 (to_int32 (aget w i)) (to_int32 (aget a i)))) 0)).
  { apply for_range_ind; [lia | |].
    - unfold P. reflexivity.
    - intros j acc Hj Hacc. unfold P in *.
      replace (Z.to_nat (j + 1)) with (Datatypes.S (Z.to_nat j)) by lia.
      rewrite dot_take_succ by lia.
      rewrite !aget_nth by lia.
      assert (Hwj : is_ternary (nth (Z.to_nat j) w 0)).
      { eapply Forall_nth; [exact Hw | lia]. }
      assert (Haj : is_int8 (nth (Z.to_nat j) a 0)).
      { eapply Forall_nth; [exact Ha | lia]. }
      unfold is_ternary in Hwj. unfold is_int8 in Haj.
      unfold add32, mul32.
      rewrite (to_int32_id (nth (Z.to_nat j) w 0)) by int_range.
      rewrite (to_int32_id (nth (Z.to_nat j) a 0)) by int_range.
      rewrite (to_int32_id (_ * _)) by (unfold is_int32; nia).
      rewrite Hacc. apply to_int32_add_l. }
  unfold P in HP. rewrite HP.
  rewrite !firstn_all2 by lia. reflexivity.
Qed.

(** The two conditional assignments are the clamp. *)
Lemma if_clamp (z : Z) :
  (let acc := if z >? 127 then 127 else z in
   if acc <? -128 then -128 else acc) = clamp (-128) 127 z.
Proof.
  unfold clamp. cbv zeta.
  destruct (Z.gtb_spec z 127).
  - destruct (Z.ltb_spec 127 (-128)); lia.
  - destruct (Z.ltb_spec z (-128)); lia.
Qed.

Lemma clamp_int8 (z : Z) : is_int8 (clamp (-128) 127 z).
Proof. unfold clamp, is_int8. lia. Qed.

(** C1. For ternary weights [w] and int8 activations [a] of length [K]
    and a shift [s] in [0,9], [compute_expected_row] returns the dot
    product, accumulated as a 32-bit signed integer, shifted right
    arithmetically by [s] and then clamped to [-128,127]; below 2^24
    terms the 32-bit accumulator is the exact sum. *)
Theorem compute_expected_row_spec (w a : list Z) (K s : Z) :
  Z.of_nat (length w) = K -> Z.of_nat (length a) = K ->
  Forall is_ternary w -> Forall is_int8 a ->
  0 <= s <= 9 ->
  compute_expected_row w a K s = clamp (-128) 127 (Z.shiftr (to_int32 (dot w a)) s)
  /\ (K < 2 ^ 24 ->
      compute_expected_row w a K s = clamp (-128) 127 (Z.shiftr (dot w a) s)).
Proof.
  intros Hlw Hla Hw Ha Hs.
  assert (Hrow : compute_expected_row w a K s
                 = clamp (-128) 127 (Z.shiftr (to_int32 (dot w a)) s)).
  { unfold compute_expected_row. cbv zeta.
    rewrite (accumulate_dot w a K Hlw Hla Hw Ha).
    pose proof (if_clamp (Z.shiftr (to_int32 (dot w a)) s)) as Hc.
    cbv zeta in Hc. rewrite Hc.
    apply to_int8_id. apply clamp_int8. }
  split; [exact Hrow |].
  intros HK. rewrite Hrow. do 2 f_equal.
  apply to_int32_id.
  pose proof (dot_bound w a Hw Ha) as Hb. unfold is_int32. lia.
Qed.

Lemma compute_expected_row_spec_witness :
  compute_expected_row [1; -1; 0; 1] [100; -128; 5; 127] 4 1
  = clamp (-128) 127 (Z.shiftr (dot [1; -1; 0; 1] [100; -128; 5; 127]) 1).
Proof.
  apply (compute_expected_row_spec [1; -1; 0; 1] [100; -128; 5; 127] 4 1).
  - reflexivity.
  - reflexivity.
  - repeat constructor; unfold is_ternary; lia.
  - repeat constructor; unfold is_int8; lia.
  - lia.
  - lia.
Defined.

(** The order matters: on an accumulator of 254 and a shift of 1 the
    code gives 127, clamping before the shift would give 63. *)
Example shift_before_clamp :
  compute_expected_row [1; 1] [127; 127] 2 1 = 127
  /\ clamp_then_shift (dot [1; 1] [127; 127]) 1 = 63.
Proof. split; reflexivity. Qed.

(** The shift is arithmetic: a negative accumulator stays negative and
    is rounded toward minus infinity. *)
Example shift_is_arithmetic :
  compute_expected_row [-1; 0] [3; 0] 2 1 = -2.
Proof. reflexivity. Qed.

(** ** Arg-max *)


Lemma first_max_step (buf : list Z) (i best : Z) :
  1 <= i ->
  first_max_upto buf i best ->
  first_max_upto buf (i + 1) (if aget buf i >? aget buf best then i else best).
Proof.
  intros Hi (Hb & Hmax & Hfirst). unfold first_max_upto.
  destruct (Z.gtb_spec (aget buf i) (aget buf best)) as [Hgt | Hle].
  - split; [lia |]. split.
    + intros j Hj. destruct (Z.eq_dec j i) as [-> | Hne]; [lia |].
      specialize (Hmax j ltac:(lia)). lia.
    + intros j Hj. specialize (Hmax j ltac:(lia)). lia.
  - split; [lia |]. split.
    + intros j Hj. destruct (Z.eq_dec j i) as [-> | Hne]; [lia |].
      apply Hmax. lia.
    + exact Hfirst.
Qed.


(** C8. For [n >= 1] and a vector [buf] of [n] int8 values,
    [argmax_int8 buf n] is an index in [0, n) that holds the maximum of
    [buf], and every earlier index holds a strictly smaller value: it is
    the smallest index of the maximum. *)
Theorem argmax_int8_first_max (buf : list Z) (n : Z) :
  1 <= n -> Z.of_nat (length buf) = n -> Forall is_int8 buf ->
  0 <= argmax_int8 buf n < n
  /\ (forall j, 0 <= j < n -> aget buf j <= aget buf (argmax_int8 buf n))
  /\ (forall j, 0 <= j < argmax_int8 buf n -> aget buf j < aget buf (argmax_int8 buf n)).
Proof.
  intros Hn _ _. unfold argmax_int8. cbv zeta.
  change (first_max_upto buf n
            (for_range 1 n (fun i best => if aget buf i >? aget buf best then i else best) 0)).
  apply for_range_ind with (P := first_max_upto buf); [lia | |].
  - unfold first_max_upto. split; [lia |]. split; intros j Hj; [| lia].
    replace j with 0 by lia. lia.
  - intros j best Hj HP. apply first_max_step; [lia | exact HP].
Qed.

Lemma argmax_int8_first_max_witness :
  argmax_int8 [3; 17; -5; 17; 2] 5 = 1
  /\ 0 <= argmax_int8 [3; 17; -5; 17; 2] 5 < 5.
Proof.
  split; [reflexivity |].
  apply (argmax_int8_first_max [3; 17; -5; 17; 2] 5).
  - lia.
  - reflexivity.
  - repeat constructor; unfold is_int8; lia.
Defined.

(** ** Weight codec: one tile *)

Lemma testbit_above_code (e n : Z) : 0 <= e < 4 -> 2 <= n -> Z.testbit e n = false.
Proof.
  intros He Hn.
  rewrite <- (Z.mod_small e (2 ^ 2)) by lia.
  apply Z.mod_pow2_bits_high. lia.
Qed.

Lemma testbit_three (n : Z) : 0 <= n -> Z.testbit 3 n = (n <? 2).
Proof.
  intros Hn. change 3 with (Z.ones 2).
  destruct (Z.ltb_spec n 2).
  - apply Z.ones_spec_low. lia.
  - apply Z.ones_spec_high. lia.
Qed.

(** Or-ing a 2-bit code into field [p] of a word changes field [p] only. *)
Lemma field_lor_shiftl (x e p q : Z) :
  0 <= p -> 0 <= q -> 0 <= e < 4 ->
  Z.land (Z.shiftr (Z.lor x (Z.shiftl e (2 * p))) (2 * q)) 3
  = if q =? p then Z.lor (Z.land (Z.shiftr x (2 * q)) 3) e
    else Z.land (Z.shiftr x (2 * q)) 3.
Proof.
  intros Hp Hq He. apply Z.bits_inj'. intros n Hn.
  rewrite Z.land_spec, Z.shiftr_spec, Z.lor_spec, testbit_three by lia.
  destruct (Z.eqb_spec q p) as [-> | Hne].
  - rewrite Z.lor_spec, Z.land_spec, Z.shiftr_spec, testbit_three by lia.
    rewrite Z.shiftl_spec by lia.
    replace (n + 2 * p - 2 * p) with n by lia.
    destruct (Z.ltb_spec n 2).
    + rewrite !andb_true_r. reflexivity.
    + rewrite !andb_false_r. simpl. symmetry. apply testbit_above_code; lia.
  - rewrite Z.land_spec, Z.shiftr_spec, testbit_three by lia.
    rewrite Z.shiftl_spec by lia.
    destruct (Z.ltb_spec n 2); [| rewrite !andb_false_r; reflexivity].
    rewrite !andb_true_r.
    assert (Hz : Z.testbit e (n + 2 * q - 2 * p) = false).
    { destruct (Z.lt_ge_cases q p).
      - apply Z.testbit_neg_r. lia.
      - apply testbit_above_code; lia. }
    rewrite Hz. apply orb_false_r.
Qed.

Lemma lor_uint32 (a b : Z) : is_uint32 a -> is_uint32 b -> is_uint32 (Z.lor a b).
Proof.
  intros Ha Hb.
  assert (E : Z.lor a b = (Z.lor a b) mod 2 ^ 32).
  { rewrite <- Z.land_ones by lia. rewrite Z.land_lor_distr_l.
    rewrite !Z.land_ones by lia.
    unfold is_uint32 in *. rewrite !Z.mod_small by lia. reflexivity. }
  rewrite E. unfold is_uint32. apply Z.mod_pos_bound. lia.
Qed.

Lemma encode_range (w : Z) : 0 <= encode w < 3.
Proof.
  unfold encode. destruct (w =? 1); [lia |]. destruct (w =? -1); lia.
Qed.

Lemma shifted_code_uint32 (e p : Z) :
  0 <= e < 4 -> 0 <= p < 16 -> is_uint32 (Z.shiftl e (2 * p)).
Proof.
  intros He Hp. unfold is_uint32. rewrite Z.shiftl_mul_pow2 by lia.
  assert (0 < 2 ^ (2 * p)) by (apply Z.pow_pos_nonneg; lia).
  assert (2 ^ (2 * p) <= 2 ^ 30) by (apply Z.pow_le_mono_r; lia).
  nia.
Qed.

Lemma Forall_aset (P : Z -> Prop) (a : list Z) (i v : Z) :
  Forall P a -> P v -> Forall P (aset a i v).
Proof.
  intros Ha Hv. unfold aset. destruct (i <? 0); [exact Ha |].
  apply Forall_insert; assumption.
Qed.

Lemma Forall_aget (P : Z -> Prop) (a : list Z) (i : Z) :
  Forall P a -> P 0 -> P (aget a i).
Proof.
  intros Ha H0. unfold aget. destruct (i <? 0); [exact H0 |].
  destruct (Nat.lt_ge_cases (Z.to_nat i) (length a)) as [Hlt | Hge].
  - apply Forall_nth; assumption.
  - rewrite nth_overflow by lia. exact H0.
Qed.

(** One turn of the loop of [pack_weights]. *)
Lemma packed_step (weights : list Z) (i : Z) (out : list Z) :
  0 <= i < 64 ->
  packed_upto weights i out ->
  packed_upto weights (i + 1)
    (aset out (Z.quot i 16)
       (Z.lor (aget out (Z.quot i 16))
          (shlu32 (encode (aget weights i)) (mul32 (Z.rem i 16) 2)))).
Proof.
  intros Hi (Hlen & Hwords & Hfields).
  pose proof (encode_range (aget weights i)) as He.
  rewrite Z.quot_div_nonneg, Z.rem_mod_nonneg by lia.
  assert (Hq : 0 <= i / 16 < 4).
  { split; [apply Z.div_pos; lia | apply Z.div_lt_upper_bound; lia]. }
  assert (Hr : 0 <= i mod 16 < 16) by (apply Z.mod_pos_bound; lia).
  unfold mul32, shlu32. rewrite (to_int32_id (i mod 16 * 2)) by int_range.
  replace (i mod 16 * 2) with (2 * (i mod 16)) by lia.
  rewrite to_uint32_id by (apply shifted_code_uint32; lia).
  split; [rewrite length_aset; exact Hlen |].
  split.
  { apply Forall_aset; [exact Hwords |].
    apply lor_uint32.
    - apply Forall_aget; [exact Hwords | int_range].
    - apply shifted_code_uint32; lia. }
  intros j Hj.
  assert (Hjq : 0 <= j / 16 < 4).
  { split; [apply Z.div_pos; lia | apply Z.div_lt_upper_bound; lia]. }
  assert (Hjr : 0 <= j mod 16 < 16) by (apply Z.mod_pos_bound; lia).
  specialize (Hfields j Hj). unfold CodecSpec.field in *.
  destruct (Z.eq_dec (j / 16) (i / 16)) as [Heq | Hne].
  - rewrite Heq. rewrite aget_aset_eq by lia.
    rewrite field_lor_shiftl by lia.
    rewrite Heq in Hfields.
    destruct (Z.eqb_spec (j mod 16) (i mod 16)) as [Hm | Hm].
    + assert (j = i).
      { rewrite (Z.div_mod j 16), (Z.div_mod i 16) by lia. lia. }
      subst j. rewrite Hfields.
      destruct (Z.ltb_spec i i); [lia |].
      destruct (Z.ltb_spec i (i + 1)); [| lia].
      apply Z.lor_0_l.
    + rewrite Hfields.
      assert (j <> i) by (intros ->; lia).
      destruct (Z.ltb_spec j i); destruct (Z.ltb_spec j (i + 1)); try lia; reflexivity.
  - rewrite aget_aset_ne by lia. rewrite Hfields.
    assert (j <> i) by (intros ->; lia).
    destruct (Z.ltb_spec j i); destruct (Z.ltb_spec j (i + 1)); try lia; reflexivity.
Qed.

Lemma pack_weights_packed (weights : list Z) :
  packed_upto weights 64 (pack_weights weights).
Proof.
  unfold pack_weights. cbv zeta.
  apply for_range_ind with (P := packed_upto weights); [lia | |].
  - split; [reflexivity |]. split.
    + repeat constructor; unfold is_uint32; lia.
    + intros j Hj. destruct (Z.ltb_spec j 0); [lia |].
      unfold CodecSpec.field.
      assert (Hjq : 0 <= j / 16 < 4).
      { split; [apply Z.div_pos; lia | apply Z.div_lt_upper_bound; lia]. }
      assert (Hz : aget [0; 0; 0; 0] (j / 16) = 0).
      { assert (j / 16 = 0 \/ j / 16 = 1 \/ j / 16 = 2 \/ j / 16 = 3) as H4 by lia.
        destruct H4 as [-> | [-> | [-> | ->]]]; reflexivity. }
      rewrite Hz. rewrite Z.shiftr_0_l. reflexivity.
  - intros i out Hi HP. apply (packed_step weights i out Hi HP).
Qed.

(** Field [j] of a packed tile is the code of weight [j]. *)
Lemma pack_weights_field (weights : list Z) (j : Z) :
  0 <= j < 64 ->
  CodecSpec.field (pack_weights weights) j = encode (aget weights j).
Proof.
  intros Hj. destruct (pack_weights_packed weights) as (_ & _ & Hf).
  rewrite (Hf j Hj). destruct (Z.ltb_spec j 64); [reflexivity | lia].
Qed.

Lemma pack_weights_length (weights : list Z) : length (pack_weights weights) = 4%nat.
Proof. apply (pack_weights_packed weights). Qed.

Lemma decode_encode (w : Z) : is_ternary w -> CodecSpec.decode (encode w) = Some w.
Proof. intros [-> | [-> | ->]]; reflexivity. Qed.

(** C9. For every vector of 64 int8 values [pack_weights] returns four
    32-bit words in which weight +1 is coded 01, weight -1 is coded 10
    and every other value, out-of-range ones included, is coded 00; the
    code 11 appears in no field. *)
Theorem pack_weights_any_int8 (weights : list Z) :
  Z.of_nat (length weights) = 64 -> Forall is_int8 weights ->
  length (pack_weights weights) = 4%nat
  /\ Forall is_uint32 (pack_weights weights)
  /\ forall j, 0 <= j < 64 ->
       (aget weights j = 1 -> CodecSpec.field (pack_weights weights) j = 1)
       /\ (aget weights j = -1 -> CodecSpec.field (pack_weights weights) j = 2)
       /\ (aget weights j <> 1 -> aget weights j <> -1 ->
           CodecSpec.field (pack_weights weights) j = 0)
       /\ CodecSpec.field (pack_weights weights) j <> 3.
Proof.
  intros _ _.
  destruct (pack_weights_packed weights) as (Hlen & Hwords & _).
  split; [exact Hlen |]. split; [exact Hwords |].
  intros j Hj. rewrite (pack_weights_field weights j Hj). unfold encode.
  repeat split.
  - intros ->. reflexivity.
  - intros ->. reflexivity.
  - intros H1 H2.
    destruct (Z.eqb_spec (aget weights j) 1); [contradiction |].
    destruct (Z.eqb_spec (aget weights j) (-1)); [contradiction | reflexivity].
  - destruct (aget weights j =? 1); [lia |].
    destruct (aget weights j =? -1); lia.
Qed.

Lemma pack_weights_any_int8_witness :
  CodecSpec.field (pack_weights (2 :: -3 :: 1 :: -1 :: replicate 60 0)) 0 = 0
  /\ CodecSpec.field (pack_weights (2 :: -3 :: 1 :: -1 :: replicate 60 0)) 1 <> 3.
Proof.
  assert (Hlen : Z.of_nat (length (2 :: -3 :: 1 :: -1 :: replicate 60 0)) = 64)
    by reflexivity.
  assert (Hi8 : Forall is_int8 (2 :: -3 :: 1 :: -1 :: replicate 60 0)).
  { repeat first [apply Forall_nil_2 | apply Forall_cons_2; [unfold is_int8; lia |]]. }
  destruct (pack_weights_any_int8 _ Hlen Hi8) as (_ & _ & Hf).
  split.
  - destruct (Hf 0 ltac:(lia)) as (_ & _ & H0 & _).
    apply H0; vm_compute; discriminate.
  - destruct (Hf 1 ltac:(lia)) as (_ & _ & _ & H3). exact H3.
Defined.

(** The two words of the tests' tiles: all +1 and all -1. *)
Example pack_all_plus_one :
  pack_weights (replicate 64 1) = [0x55555555; 0x55555555; 0x55555555; 0x55555555].
Proof. reflexivity. Qed.

Example pack_all_minus_one :
  pack_weights (replicate 64 (-1)) = [0xAAAAAAAA; 0xAAAAAAAA; 0xAAAAAAAA; 0xAAAAAAAA].
Proof. reflexivity. Qed.

(** ** Weight codec: the layout of a matrix *)

Lemma tiles_per_row_pos (K : Z) : 1 <= K -> 1 <= CodecSpec.tiles_per_row K.
Proof.
  intros HK. unfold CodecSpec.tiles_per_row, CodecSpec.tile_width.
  apply Z.div_le_lower_bound; lia.
Qed.

Lemma tiles_per_row_cover (K : Z) :
  1 <= K -> K <= CodecSpec.tiles_per_row K * 64 < K + 64.
Proof.
  intros HK. unfold CodecSpec.tiles_per_row, CodecSpec.tile_width.
  pose proof (Z.div_mod (K + 64 - 1) 64 ltac:(lia)).
  pose proof (Z.mod_pos_bound (K + 64 - 1) 64 ltac:(lia)). lia.
Qed.

(** Inside the window no [int] of [write_weight_matrix] overflows. *)
Lemma fits_bounds (M K : Z) :
  1 <= M -> 1 <= K -> fits_window M K ->
  CodecSpec.tiles_per_row K <= 2 ^ 16 /\ K <= 2 ^ 22
  /\ M * CodecSpec.tiles_per_row K <= 2 ^ 16 /\ M <= 2 ^ 16.
Proof.
  intros HM HK Hfit. unfold fits_window, CodecSpec.byte_stride,
    CodecSpec.bytes_per_tile, DDR3_SPAN in Hfit.
  pose proof (tiles_per_row_pos K HK). pose proof (tiles_per_row_cover K HK).
  change (2 ^ 16) with 65536. change (2 ^ 22) with 4194304.
  assert (M * CodecSpec.tiles_per_row K <= 65536) by lia.
  repeat split; nia.
Qed.

Lemma tiles_per_row_code (K : Z) :
  1 <= K <= 2 ^ 22 ->
  div32 (sub32 (add32 K NUM_PES) 1) NUM_PES = CodecSpec.tiles_per_row K.
Proof.
  intros HK. unfold div32, sub32, add32, NUM_PES, CodecSpec.tiles_per_row,
    CodecSpec.tile_width.
  change (2 ^ 22) with 4194304 in HK.
  rewrite (to_int32_id (K + 64)) by int_range.
  rewrite (to_int32_id (K + 64 - 1)) by int_range.
  rewrite Z.quot_div_nonneg by lia.
  apply to_int32_id.
  assert (0 <= (K + 64 - 1) / 64) by (apply Z.div_pos; lia).
  assert ((K + 64 - 1) / 64 < 2 ^ 31) by (apply Z.div_lt_upper_bound; lia).
  int_range.
Qed.

(** The 64 weights handed to [pack_weights] for one tile. *)
Lemma tile_chunk_spec (wmat : list Z) (K row tile : Z) :
  0 <= row -> 0 <= tile -> row * K <= 2 ^ 23 -> tile * 64 <= 2 ^ 23 -> 0 <= K ->
  length (tile_chunk wmat K row tile) = 64%nat
  /\ forall i, 0 <= i < 64 ->
       aget (tile_chunk wmat K row tile) i = padded_weight wmat K row (tile * 64 + i).
Proof.
  intros Hrow Htile HrK Ht64 HK. change (2 ^ 23) with 8388608 in *.
  unfold tile_chunk. cbv zeta.
  pose (P := fun (n : Z) (chunk : list Z) =>
               length chunk = 64%nat
               /\ forall i, 0 <= i < n ->
                    aget chunk i = padded_weight wmat K row (tile * 64 + i)).
  apply for_range_ind with (P := P); [lia | |].
  - split; [reflexivity | intros i Hi; lia].
  - intros j chunk Hj (Hlen & Hc).
    unfold mul32, add32, NUM_PES.
    rewrite (to_int32_id (tile * 64)) by int_range.
    rewrite (to_int32_id (tile * 64 + j)) by int_range.
    rewrite (to_int32_id (row * K)) by int_range.
    assert (Hstep : forall v, v = padded_weight wmat K row (tile * 64 + j) ->
                    P (j + 1) (aset chunk j v)).
    { intros v Hv. split; [rewrite length_aset; exact Hlen |].
      intros i Hi. destruct (Z.eq_dec i j) as [-> | Hne].
      - rewrite aget_aset_eq by lia. exact Hv.
      - rewrite aget_aset_ne by lia. apply Hc. lia. }
    destruct (tile * 64 + j <? K) eqn:E.
    + apply Z.ltb_lt in E as Hlt.
      apply Hstep. unfold padded_weight. rewrite E.
      rewrite (to_int32_id (row * K + (tile * 64 + j))) by int_range.
      reflexivity.
    + apply Hstep. unfold padded_weight. rewrite E. reflexivity.
Qed.

Lemma written_insert (wmat : list Z) (K : Z) (before ddr3 : gmap Z Z) (n : Z) :
  0 <= n ->
  written_upto wmat K before n ddr3 ->
  written_upto wmat K before (n + 1) (<[n := layout_word wmat K n]> ddr3).
Proof.
  intros Hn Hw idx. destruct (Z.eq_dec idx n) as [-> | Hne].
  - rewrite lookup_insert_eq.
    destruct (Z.leb_spec 0 n); [| lia]. destruct (Z.ltb_spec n (n + 1)); [| lia].
    reflexivity.
  - rewrite lookup_insert_ne by congruence. rewrite (Hw idx).
    destruct (Z.leb_spec 0 idx); simpl; [| reflexivity].
    destruct (Z.ltb_spec idx n); destruct (Z.ltb_spec idx (n + 1)); try lia; reflexivity.
Qed.

(** The four stores of one tile. *)
Lemma written_tile (wmat : list Z) (K : Z) (before ddr3 : gmap Z Z) (row tile : Z) :
  1 <= K ->
  0 <= row -> 0 <= tile < CodecSpec.tiles_per_row K ->
  (row * CodecSpec.tiles_per_row K + tile) * 4 + 4 <= 2 ^ 30 ->
  written_upto wmat K before ((row * CodecSpec.tiles_per_row K + tile) * 4) ddr3 ->
  written_upto wmat K before ((row * CodecSpec.tiles_per_row K + (tile + 1)) * 4)
    (for_range 0 4
       (fun i g_ddr3 =>
          <[addu32 (to_uint32 (mul32 (add32 (mul32 row (CodecSpec.tiles_per_row K)) tile) 4)) i
            := aget (pack_weights (tile_chunk wmat K row tile)) i]> g_ddr3)
       ddr3).
Proof.
  intros HK Hrow Htile Hsmall Hw. change (2 ^ 30) with 1073741824 in Hsmall.
  set (tpr := CodecSpec.tiles_per_row K) in *.
  assert (Hrt : 0 <= row * tpr) by nia.
  replace ((row * tpr + (tile + 1)) * 4) with ((row * tpr + tile) * 4 + 4) by lia.
  apply for_range_ind
    with (P := fun i m => written_upto wmat K before ((row * tpr + tile) * 4 + i) m);
    [lia | | ].
  - replace ((row * tpr + tile) * 4 + 0) with ((row * tpr + tile) * 4) by lia. exact Hw.
  - intros i m Hi Hm.
    unfold addu32, mul32, add32.
    rewrite (to_int32_id (row * tpr)) by int_range.
    rewrite (to_int32_id (row * tpr + tile)) by int_range.
    rewrite (to_int32_id ((row * tpr + tile) * 4)) by int_range.
    rewrite (to_uint32_id ((row * tpr + tile) * 4)) by int_range.
    rewrite (to_uint32_id ((row * tpr + tile) * 4 + i)) by int_range.
    replace ((row * tpr + tile) * 4 + (i + 1)) with ((row * tpr + tile) * 4 + i + 1) by lia.
    assert (Hword : aget (pack_weights (tile_chunk wmat K row tile)) i
                    = layout_word wmat K ((row * tpr + tile) * 4 + i)).
    { unfold layout_word. fold tpr.
      replace (((row * tpr + tile) * 4 + i) / 4) with (row * tpr + tile)
        by (apply Z.div_unique with (r := i); lia).
      replace ((row * tpr + tile) / tpr) with row
        by (apply Z.div_unique with (r := tile); lia).
      replace ((row * tpr + tile) mod tpr) with tile
        by (apply Z.mod_unique with (q := row); lia).
      replace (((row * tpr + tile) * 4 + i) mod 4) with i
        by (apply Z.mod_unique with (q := row * tpr + tile); lia).
      reflexivity. }
    rewrite Hword. apply written_insert; [lia | exact Hm].
Qed.

(** The window after [write_weight_matrix]: the first
    [M * tiles_per_row * 4] words hold the layout, the others are as before. *)
Lemma write_weight_matrix_written (wmat : list Z) (M K : Z) (before : gmap Z Z) :
  1 <= M -> 1 <= K -> fits_window M K ->
  written_upto wmat K before (M * CodecSpec.tiles_per_row K * 4)
    (write_weight_matrix wmat M K before).
Proof.
  intros HM HK Hfit.
  destruct (fits_bounds M K HM HK Hfit) as (Ht & HK' & HMt & HM').
  pose proof (tiles_per_row_pos K HK) as Htpos.
  unfold write_weight_matrix. cbv zeta.
  rewrite tiles_per_row_code by lia.
  set (tpr := CodecSpec.tiles_per_row K) in *.
  change (2 ^ 16) with 65536 in *.
  apply for_range_ind
    with (P := fun row m => written_upto wmat K before (row * tpr * 4) m); [lia | |].
  - intros idx. destruct (Z.leb_spec 0 idx); simpl; [| reflexivity].
    destruct (Z.ltb_spec idx (0 * tpr * 4)); [lia | reflexivity].
  - intros row m Hrow Hm.
    replace ((row + 1) * tpr * 4) with ((row * tpr + tpr) * 4) by lia.
    apply for_range_ind
      with (P := fun tile m' => written_upto wmat K before ((row * tpr + tile) * 4) m');
      [lia | |].
    + replace ((row * tpr + 0) * 4) with (row * tpr * 4) by lia. exact Hm.
    + intros tile m' Htile Hm'.
      apply written_tile; try lia; [| exact Hm'].
      change (2 ^ 30) with 1073741824. nia.
Qed.

Lemma four_words (p : list Z) :
  length p = 4%nat -> [aget p 0; aget p 1; aget p 2; aget p 3] = p.
Proof.
  intros H. destruct p as [|a [|b [|c [|d [|e p]]]]]; simpl in H; try lia.
  reflexivity.
Qed.

(** Word [i] of tile ([row], [tile]) lies at the byte offset of the
    specification. *)
Lemma tile_word_lookup (wmat : list Z) (M K : Z) (before : gmap Z Z) (row tile i : Z) :
  1 <= M -> 1 <= K -> fits_window M K ->
  0 <= row < M -> 0 <= tile < CodecSpec.tiles_per_row K -> 0 <= i < 4 ->
  write_weight_matrix wmat M K before !! (CodecSpec.tile_offset K row tile / 4 + i)
  = Some (aget (pack_weights (tile_chunk wmat K row tile)) i).
Proof.
  intros HM HK Hfit Hrow Htile Hi.
  pose proof (write_weight_matrix_written wmat M K before HM HK Hfit) as Hw.
  unfold CodecSpec.tile_offset, CodecSpec.bytes_per_tile.
  set (tpr := CodecSpec.tiles_per_row K) in *.
  assert (Hrt : 0 <= row * tpr) by nia.
  replace ((row * tpr * 16 + tile * 16) / 4) with ((row * tpr + tile) * 4)
    by (apply Z.div_unique with (r := 0); lia).
  rewrite (Hw ((row * tpr + tile) * 4 + i)).
  destruct (Z.leb_spec 0 ((row * tpr + tile) * 4 + i)); [| lia].
  destruct (Z.ltb_spec ((row * tpr + tile) * 4 + i) (M * tpr * 4)); [| nia].
  simpl. f_equal. unfold layout_word. fold tpr.
  replace (((row * tpr + tile) * 4 + i) / 4) with (row * tpr + tile)
    by (apply Z.div_unique with (r := i); lia).
  replace ((row * tpr + tile) / tpr) with row
    by (apply Z.div_unique with (r := tile); lia).
  replace ((row * tpr + tile) mod tpr) with tile
    by (apply Z.mod_unique with (q := row); lia).
  replace (((row * tpr + tile) * 4 + i) mod 4) with i
    by (apply Z.mod_unique with (q := row * tpr + tile); lia).
  reflexivity.
Qed.

Lemma stored_tile_written (wmat : list Z) (M K : Z) (before : gmap Z Z) (row tile : Z) :
  1 <= M -> 1 <= K -> fits_window M K ->
  0 <= row < M -> 0 <= tile < CodecSpec.tiles_per_row K ->
  CodecSpec.stored_tile (write_weight_matrix wmat M K before) K row tile
  = Some (pack_weights (tile_chunk wmat K row tile)).
Proof.
  intros HM HK Hfit Hrow Htile. unfold CodecSpec.stored_tile.
  cbn [mapM].
  rewrite !(tile_word_lookup wmat M K before row tile) by (assumption || lia).
  cbn [mbind option_bind mret option_ret].
  rewrite four_words by apply pack_weights_length. reflexivity.
Qed.

(** Field [j] of a stored tile codes the padded weight of its column. *)
Lemma stored_field (wmat : list Z) (M K row tile j : Z) :
  1 <= M -> 1 <= K -> fits_window M K ->
  0 <= row < M -> 0 <= tile < CodecSpec.tiles_per_row K -> 0 <= j < 64 ->
  CodecSpec.field (pack_weights (tile_chunk wmat K row tile)) j
  = encode (padded_weight wmat K row (tile * 64 + j)).
Proof.
  intros HM HK Hfit Hrow Htile Hj.
  destruct (fits_bounds M K HM HK Hfit) as (Ht & HK' & HMt & HM').
  change (2 ^ 16) with 65536 in *. change (2 ^ 22) with 4194304 in *.
  pose proof (tiles_per_row_cover K HK) as Hcover.
  rewrite pack_weights_field by lia. f_equal.
  apply tile_chunk_spec; try lia; change (2 ^ 23) with 8388608; nia.
Qed.

(** C3. Decoding a field of a tile packed by [pack_weights] from ternary
    weights gives back the weight.  For an M x K matrix with entries in
    {-1,0,+1}, written by [write_weight_matrix] (which packs every tile
    with [pack_weights]), decoding the 2-bit field of any position
    (row, col) gives back the entry of the matrix, and no field of any
    stored tile, the padded positions at or beyond column K included,
    holds the code 11. *)
Theorem pack_unpack_roundtrip (wmat : list Z) (M K : Z) (before : gmap Z Z) :
  1 <= M -> 1 <= K -> fits_window M K ->
  Z.of_nat (length wmat) = M * K -> Forall is_ternary wmat ->
  (forall weights j,
     Z.of_nat (length weights) = 64 -> Forall is_ternary weights -> 0 <= j < 64 ->
     CodecSpec.decode (CodecSpec.field (pack_weights weights) j) = Some (aget weights j))
  /\ (forall row col, 0 <= row < M -> 0 <= col < K ->
        CodecSpec.unpack (write_weight_matrix wmat M K before) K row col
        = Some (aget wmat (row * K + col)))
  /\ (forall row tile j,
        0 <= row < M -> 0 <= tile < CodecSpec.tiles_per_row K -> 0 <= j < 64 ->
        exists packed,
          CodecSpec.stored_tile (write_weight_matrix wmat M K before) K row tile
          = Some packed
          /\ CodecSpec.field packed j <> 3
          /\ (K <= tile * 64 + j -> CodecSpec.field packed j = 0)).
Proof.
  intros HM HK Hfit Hlen Hter.
  pose proof (tiles_per_row_cover K HK) as Hcover.
  split; [| split].
  - intros weights j Hl64 Hw Hj. rewrite pack_weights_field by exact Hj.
    apply decode_encode. rewrite aget_nth by lia.
    apply Forall_nth; [exact Hw | lia].
  - intros row col Hrow Hcol. unfold CodecSpec.unpack, CodecSpec.tile_width.
    assert (Htile : 0 <= col / 64 < CodecSpec.tiles_per_row K).
    { split; [apply Z.div_pos; lia |].
      apply Z.div_lt_upper_bound; lia. }
    assert (Hj : 0 <= col mod 64 < 64) by (apply Z.mod_pos_bound; lia).
    rewrite (stored_tile_written wmat M K before row (col / 64)) by assumption.
    rewrite (stored_field wmat M K row (col / 64) (col mod 64)) by assumption.
    replace (col / 64 * 64 + col mod 64) with col
      by (rewrite (Z.div_mod col 64) at 1; lia).
    unfold padded_weight. destruct (Z.ltb_spec col K); [| lia].
    apply decode_encode.
    rewrite aget_nth by nia.
    apply Forall_nth; [exact Hter | nia].
  - intros row tile j Hrow Htile Hj.
    exists (pack_weights (tile_chunk wmat K row tile)).
    split; [apply stored_tile_written; assumption |].
    rewrite (stored_field wmat M K row tile j) by assumption.
    split.
    + pose proof (encode_range (padded_weight wmat K row (tile * 64 + j))). lia.
    + intros Hpad. unfold padded_weight.
      destruct (Z.ltb_spec (tile * 64 + j) K); [lia | reflexivity].
Qed.

Lemma pack_unpack_roundtrip_witness :
  CodecSpec.unpack
    (write_weight_matrix (replicate 70 1 ++ replicate 70 (-1)) 2 70 ∅) 70 1 69
  = Some (aget (replicate 70 1 ++ replicate 70 (-1)) (1 * 70 + 69)).
Proof.
  assert (Hter : Forall is_ternary (replicate 70 1 ++ replicate 70 (-1))).
  { apply Forall_app. split; apply Forall_replicate; unfold is_ternary; lia. }
  refine (proj1 (proj2 (pack_unpack_roundtrip (replicate 70 1 ++ replicate 70 (-1)) 2 70 ∅
                          _ _ _ _ Hter)) 1 69 _ _).
  - lia.
  - lia.
  - unfold fits_window. vm_compute. discriminate.
  - reflexivity.
  - lia.
  - lia.
Defined.

(** C4. For [M >= 1] and [K >= 1], [write_weight_matrix] stores the packed
    tile of (row, tile) at byte offset
    [row * tiles_per_row * 16 + tile * 16], with [tiles_per_row] the
    ceiling of [K / 64] and the columns at or beyond [K] coded as weight
    0; row [row] therefore fills the bytes from [row * byte_stride K] up
    to [(row + 1) * byte_stride K], a size that depends on [K] only,
    also when the last tile is partial; no other word is written. *)
Theorem layout_row_stride (wmat : list Z) (M K : Z) (before : gmap Z Z) :
  1 <= M -> 1 <= K -> fits_window M K ->
  (K <= CodecSpec.tiles_per_row K * 64 < K + 64)
  /\ (forall row tile i,
        0 <= row < M -> 0 <= tile < CodecSpec.tiles_per_row K -> 0 <= i < 4 ->
        write_weight_matrix wmat M K before
          !! ((row * CodecSpec.tiles_per_row K * 16 + tile * 16) / 4 + i)
        = Some (aget (pack_weights (tile_chunk wmat K row tile)) i))
  /\ (forall row tile j,
        0 <= row < M -> 0 <= tile < CodecSpec.tiles_per_row K -> 0 <= j < 64 ->
        CodecSpec.field (pack_weights (tile_chunk wmat K row tile)) j
        = encode (if tile * 64 + j <? K then aget wmat (row * K + (tile * 64 + j)) else 0))
  /\ (forall row, 0 <= row < M ->
        CodecSpec.tile_offset K row 0 = row * CodecSpec.byte_stride K
        /\ CodecSpec.tile_offset K row (CodecSpec.tiles_per_row K - 1) + 16
           = (row + 1) * CodecSpec.byte_stride K)
  /\ (forall idx, ~ (0 <= idx * 4 < M * CodecSpec.byte_stride K) ->
        write_weight_matrix wmat M K before !! idx = before !! idx).
Proof.
  intros HM HK Hfit.
  split; [apply tiles_per_row_cover; exact HK |].
  split.
  { intros row tile i Hrow Htile Hi.
    apply (tile_word_lookup wmat M K before row tile i); assumption. }
  split.
  { intros row tile j Hrow Htile Hj.
    apply (stored_field wmat M K row tile j); assumption. }
  split.
  { intros row Hrow.
    unfold CodecSpec.tile_offset, CodecSpec.byte_stride, CodecSpec.bytes_per_tile.
    lia. }
  intros idx Hout.
  rewrite (write_weight_matrix_written wmat M K before HM HK Hfit idx).
  unfold CodecSpec.byte_stride, CodecSpec.bytes_per_tile in Hout.
  destruct (Z.leb_spec 0 idx); simpl; [| reflexivity].
  destruct (Z.ltb_spec idx (M * CodecSpec.tiles_per_row K * 4)); [lia | reflexivity].
Qed.

Lemma layout_row_stride_witness :
  write_weight_matrix (replicate 140 1) 2 70 ∅
    !! ((1 * CodecSpec.tiles_per_row 70 * 16 + 1 * 16) / 4 + 0)
  = Some (aget (pack_weights (tile_chunk (replicate 140 1) 70 1 1)) 0).
Proof.
  refine (proj1 (proj2 (layout_row_stride (replicate 140 1) 2 70 ∅ _ _ _)) 1 1 0 _ _ _).
  - lia.
  - lia.
  - unfold fits_window. vm_compute. discriminate.
  - lia.
  - vm_compute. split; [discriminate | reflexivity].
  - lia.
Defined.

(** A row of 70 columns takes two tiles, 32 bytes; the second tile holds
    six weights and 58 padded fields. *)
Example partial_tile_stride :
  CodecSpec.byte_stride 70 = 32
  /\ pack_weights (tile_chunk (replicate 140 1) 70 1 1) = [0x555; 0; 0; 0].
Proof. split; reflexivity. Qed.

(** ** The register bank *)

Module FpgaFacts.

Import Fpga Tiling.

(** A write to any register but CTRL changes that register only. *)
Lemma reg_write_plain (offset val : Z) (d : fpga) :
  4 <= offset < 2 ^ 32 ->
  fpga_reg_write offset val d
  = {| regs := <[offset / 4 := val]> (regs d); runs := runs d; polls := polls d |}.
Proof.
  intros Ho. unfold fpga_reg_write. cbv zeta.
  rewrite to_uint32_id by int_range.
  assert (Hidx : 1 <= offset / 4) by (apply Z.div_le_lower_bound; lia).
  change (REG_CTRL / 4) with 0.
  destruct (Z.eqb_spec (offset / 4) 0); [lia | reflexivity].
Qed.

(** The START pulse latches the registers and restarts the poll count. *)
Lemma reg_write_start (d : fpga) :
  fpga_reg_write REG_CTRL 1 d
  = {| regs := <[0 := 1]> (regs d);
       runs := runs d ++ [<[0 := 1]> (regs d)];
       polls := O |}.
Proof. reflexivity. Qed.

Lemma reg_of_insert_eq (r : gmap Z Z) (offset v : Z) :
  reg_of (<[offset / 4 := v]> r) offset = v.
Proof. unfold reg_of. rewrite lookup_insert_eq. reflexivity. Qed.

Lemma reg_of_insert_ne (r : gmap Z Z) (idx offset v : Z) :
  idx <> offset / 4 -> reg_of (<[idx := v]> r) offset = reg_of r offset.
Proof. intros H. unfold reg_of. rewrite lookup_insert_ne by exact H. reflexivity. Qed.

(** A read of a RESULT register leaves the bank as it is. *)
Lemma reg_read_result (hw : accelerator) (i : Z) (d : fpga) :
  0 <= i < 2 ^ 16 ->
  fpga_reg_read hw (add32 REG_RES_BASE (mul32 i 4)) d
  = (result_reg hw (List.last (runs d) ∅) i, d).
Proof.
  intros Hi. change (2 ^ 16) with 65536 in Hi.
  unfold fpga_reg_read, add32, mul32, REG_RES_BASE. cbv zeta.
  rewrite (to_int32_id (i * 4)) by int_range.
  rewrite (to_int32_id (16384 + i * 4)) by int_range.
  rewrite (to_uint32_id (16384 + i * 4)) by int_range.
  replace ((16384 + i * 4) / 4) with (4096 + i)
    by (apply Z.div_unique with (r := 0); lia).
  change (REG_STATUS / 4) with 1. change (16384 / 4) with 4096.
  destruct (Z.eqb_spec (4096 + i) 1); [lia |].
  destruct (Z.leb_spec 4096 (4096 + i)); [| lia].
  replace (4096 + i - 4096) with i by lia. reflexivity.
Qed.

(** The polls of one wait: [wait_loop] answers 0 exactly when STATUS shows
    done at one of the reads the time-out allows, and touches neither the
    registers nor the latched runs. *)
Lemma wait_loop_spec (hw : accelerator) (fuel : nat) :
  forall (timeout_us : Z) (d : fpga),
    (Z.to_nat ((timeout_us + 9) / 10) <= fuel)%nat ->
    timeout_us < 2 ^ 31 ->
    regs (snd (wait_loop hw fuel timeout_us d)) = regs d
    /\ runs (snd (wait_loop hw fuel timeout_us d)) = runs d
    /\ fst (wait_loop hw fuel timeout_us d)
       = if existsb (fun p => negb (Z.land (hw_status hw (length (runs d)) p) 2 =? 0))
               (seq (polls d) (Z.to_nat ((timeout_us + 9) / 10)))
         then 0 else -1.
Proof.
  induction fuel as [|fuel IH]; intros t d Hfuel Ht.
  - simpl wait_loop. replace (Z.to_nat ((t + 9) / 10)) with O by lia.
    simpl. repeat split; reflexivity.
  - simpl wait_loop. destruct (Z.gtb_spec t 0) as [Hpos | Hneg].
    + assert (Hdiv : (t + 9) / 10 = (t - 10 + 9) / 10 + 1).
      { replace (t + 9) with (t - 10 + 9 + 1 * 10) by lia.
        rewrite Z.div_add by lia. reflexivity. }
      assert (Hnn : 0 <= (t - 10 + 9) / 10) by (apply Z.div_pos; lia).
      assert (Hiter : Z.to_nat ((t + 9) / 10)
                      = Datatypes.S (Z.to_nat ((t - 10 + 9) / 10))) by lia.
      rewrite Hiter. cbn [seq existsb].
      unfold fpga_reg_read. cbv zeta.
      change (to_uint32 REG_STATUS / 4 =? REG_STATUS / 4) with true. cbv iota.
      destruct (Z.eqb_spec (Z.land (hw_status hw (length (runs d)) (polls d)) 2) 0)
        as [Hbusy | Hdone].
      * cbn [negb orb].
        unfold sub32. rewrite (to_int32_id (t - 10)) by (change (2 ^ 31) with 2147483648 in Ht; int_range).
        specialize (IH (t - 10)
          {| regs := regs d; runs := runs d; polls := Datatypes.S (polls d) |}
          ltac:(lia) ltac:(lia)).
        cbn [regs runs polls] in IH. exact IH.
      * cbn [negb orb fst snd regs runs]. repeat split; reflexivity.
    + assert (Hz : (t + 9) / 10 <= 0).
      { apply Z.lt_succ_r. apply Z.div_lt_upper_bound; lia. }
      replace (Z.to_nat ((t + 9) / 10)) with O by lia.
      simpl. repeat split; reflexivity.
Qed.

(** The wait of one chunk, right after its START pulse. *)
Lemma wait_done_spec (hw : accelerator) (d : fpga) :
  polls d = O ->
  regs (snd (fpga_wait_done hw 1000000 d)) = regs d
  /\ runs (snd (fpga_wait_done hw 1000000 d)) = runs d
  /\ fst (fpga_wait_done hw 1000000 d)
     = if done_within hw (length (runs d)) polls_per_wait then 0 else -1.
Proof.
  intros Hp. unfold fpga_wait_done, done_within, polls_per_wait.
  pose proof (wait_loop_spec hw (Z.to_nat 1000000) 1000000 d) as H.
  change ((1000000 + 9) / 10) with 100000 in H. rewrite Hp in H.
  apply H; [lia | reflexivity].
Qed.

End FpgaFacts.

(** ** The tiling driver *)

Module DriverFacts.

Import Fpga Tiling FpgaFacts.

(** The first loop of [fpga_bitlinear]: activation [i] lands in
    ACTIVATION[i]; nothing is launched. *)
Lemma load_activations (activations : list Z) (K : Z) (d : fpga) :
  0 <= K <= FPGA_MAX_DIM_K ->
  let d' :=
    for_range 0 K
      (fun i d =>
         fpga_reg_write (add32 REG_ACT_BASE (mul32 i 4)) (to_uint8 (aget activations i)) d)
      d in
  runs d' = runs d /\ polls d' = polls d
  /\ forall i, 0 <= i < K ->
       reg_of (regs d') (REG_ACT_BASE + i * 4) = to_uint8 (aget activations i).
Proof.
  intros HK. unfold FPGA_MAX_DIM_K in HK. cbv zeta.
  apply for_range_ind
    with (P := fun n d' =>
                 runs d' = runs d /\ polls d' = polls d
                 /\ forall i, 0 <= i < n ->
                      reg_of (regs d') (REG_ACT_BASE + i * 4)
                      = to_uint8 (aget activations i)); [lia | |].
  - repeat split; try reflexivity. intros i Hi. lia.
  - intros j d' Hj (Hr & Hp & Ha).
    unfold add32, mul32, REG_ACT_BASE in *.
    rewrite (to_int32_id (j * 4)) by int_range.
    rewrite (to_int32_id (128 + j * 4)) by int_range.
    rewrite reg_write_plain by lia. cbn [regs runs polls].
    split; [exact Hr |]. split; [exact Hp |].
    intros i Hi. destruct (Z.eq_dec i j) as [-> | Hne].
    + apply reg_of_insert_eq.
    + rewrite reg_of_insert_ne; [apply Ha; lia |].
      replace ((128 + j * 4) / 4) with (32 + j)
        by (apply Z.div_unique with (r := 0); lia).
      replace ((128 + i * 4) / 4) with (32 + i)
        by (apply Z.div_unique with (r := 0); lia).
      lia.
Qed.

(** The registers when the tile loop is entered. *)
Lemma setup_configured (activations : list Z) (K : Z) (d : fpga) :
  0 <= K <= FPGA_MAX_DIM_K ->
  let d' :=
    fpga_reg_write REG_SHIFT_AMT 0
      (fpga_reg_write REG_DIM_K (to_uint32 K)
         (for_range 0 K
            (fun i d =>
               fpga_reg_write (add32 REG_ACT_BASE (mul32 i 4))
                 (to_uint8 (aget activations i)) d)
            d)) in
  runs d' = runs d /\ configured activations K (regs d').
Proof.
  intros HK. cbv zeta.
  destruct (load_activations activations K d HK) as (Hr & _ & Ha).
  rewrite !reg_write_plain by (unfold REG_SHIFT_AMT, REG_DIM_K; lia).
  cbn [regs runs polls]. split; [exact Hr |].
  unfold configured. split; [| split].
  - rewrite reg_of_insert_ne by (vm_compute; discriminate).
    apply reg_of_insert_eq.
  - apply reg_of_insert_eq.
  - intros i Hi. unfold FPGA_MAX_DIM_K in HK.
    assert (Hidx : (REG_ACT_BASE + i * 4) / 4 = 32 + i).
    { unfold REG_ACT_BASE. symmetry. apply Z.div_unique with (r := 0); lia. }
    rewrite !reg_of_insert_ne by (rewrite Hidx; vm_compute (_ / 4); lia).
    apply Ha. exact Hi.
Qed.

(** The registers written for each chunk leave the set-up in place. *)
Lemma configured_launch (activations : list Z) (K b m : Z) (r : gmap Z Z) :
  0 <= K ->
  configured activations K r ->
  configured activations K
    (<[0 := 1]> (<[REG_DIM_M / 4 := m]> (<[REG_WEIGHT_BASE / 4 := b]> r))).
Proof.
  intros HK (Hk & Hs & Ha). unfold configured.
  split; [| split].
  - rewrite !reg_of_insert_ne by (vm_compute; discriminate). exact Hk.
  - rewrite !reg_of_insert_ne by (vm_compute; discriminate). exact Hs.
  - intros i Hi.
    assert (Hidx : (REG_ACT_BASE + i * 4) / 4 = 32 + i).
    { unfold REG_ACT_BASE. symmetry. apply Z.div_unique with (r := 0); lia. }
    rewrite !reg_of_insert_ne by (rewrite Hidx; vm_compute (_ / 4); lia).
    apply Ha. exact Hi.
Qed.

Lemma act_buffer_loaded (activations : list Z) (K : Z) (r : gmap Z Z) :
  configured activations K r -> act_buffer r K = loaded_acts activations K.
Proof.
  intros (_ & _ & Ha). unfold act_buffer, loaded_acts.
  apply map_ext_in. intros i Hi.
  apply list_elem_of_In in Hi. apply elem_of_seqZ in Hi.
  apply Ha. lia.
Qed.

(** RESULT[i] of the run latched for one chunk. *)
Lemma chunk_result (hw : accelerator) (activations : list Z) (K b m i : Z)
    (r : gmap Z Z) :
  0 <= K <= FPGA_MAX_DIM_K ->
  configured activations K r ->
  0 <= i < m -> m <= hw_max_dim_m hw ->
  result_reg hw (<[0 := 1]> (<[REG_DIM_M / 4 := m]> (<[REG_WEIGHT_BASE / 4 := b]> r))) i
  = hw_row hw (to_uint32 (b + i * hw_row_bytes K)) K 0 (loaded_acts activations K).
Proof.
  intros HK Hcfg Hi Hm.
  pose proof (configured_launch activations K b m r ltac:(lia) Hcfg) as Hc.
  pose proof (act_buffer_loaded _ _ _ Hc) as Hbuf.
  destruct Hc as (Hk & Hs & _).
  unfold result_reg. cbv zeta.
  assert (HM : reg_of (<[0 := 1]> (<[REG_DIM_M / 4 := m]> (<[REG_WEIGHT_BASE / 4 := b]> r)))
                 REG_DIM_M = m).
  { rewrite reg_of_insert_ne by (vm_compute; discriminate). apply reg_of_insert_eq. }
  assert (HB : reg_of (<[0 := 1]> (<[REG_DIM_M / 4 := m]> (<[REG_WEIGHT_BASE / 4 := b]> r)))
                 REG_WEIGHT_BASE = b).
  { rewrite !reg_of_insert_ne by (vm_compute; discriminate). apply reg_of_insert_eq. }
  rewrite HM, HB, Hk, Hs.
  unfold FPGA_MAX_DIM_K in *.
  rewrite !(to_uint32_id K) by int_range.
  rewrite Hbuf.
  destruct (Z.leb_spec 0 i); [| lia]. destruct (Z.ltb_spec i m); [| lia].
  destruct (Z.leb_spec m (hw_max_dim_m hw)); [| lia].
  destruct (Z.leb_spec K 2048); [| lia].
  reflexivity.
Qed.

(** The read-back loop of one chunk. *)
Lemma read_back (hw : accelerator) (start n : Z) (res0 : list Z) (d : fpga) :
  0 <= start -> 0 <= n <= 2 ^ 16 -> start + n <= Z.of_nat (length res0) < 2 ^ 31 ->
  let out :=
    for_range 0 n
      (fun i '(res, d) =>
         let '(v, d) := fpga_reg_read hw (add32 REG_RES_BASE (mul32 i 4)) d in
         (aset res (add32 start i) (to_int32 v), d))
      (res0, d) in
  snd out = d
  /\ length (fst out) = length res0
  /\ (forall i, 0 <= i < n ->
        aget (fst out) (start + i) = to_int32 (result_reg hw (List.last (runs d) ∅) i))
  /\ (forall j, 0 <= j -> ~ (start <= j < start + n) -> aget (fst out) j = aget res0 j).
Proof.
  intros Hs Hn Hlen. change (2 ^ 16) with 65536 in Hn.
  change (2 ^ 31) with 2147483648 in Hlen. cbv zeta.
  apply for_range_ind
    with (P := fun k (out : list Z * fpga) =>
                 snd out = d
                 /\ length (fst out) = length res0
                 /\ (forall i, 0 <= i < k ->
                       aget (fst out) (start + i)
                       = to_int32 (result_reg hw (List.last (runs d) ∅) i))
                 /\ (forall j, 0 <= j -> ~ (start <= j < start + k) ->
                       aget (fst out) j = aget res0 j)); [lia | |].
  - cbn [fst snd]. repeat split; try reflexivity. intros i Hi. lia.
  - intros k [res d'] Hk (Hd & Hl & Hin & Hout). cbn [fst snd] in *. subst d'.
    rewrite reg_read_result by (change (2 ^ 16) with 65536; lia).
    unfold add32. rewrite (to_int32_id (start + k)) by int_range.
    cbn [fst snd]. split; [reflexivity |].
    split; [rewrite length_aset; exact Hl |].
    split.
    + intros i Hi. destruct (Z.eq_dec i k) as [-> | Hne].
      * apply aget_aset_eq. lia.
      * rewrite aget_aset_ne by lia. apply Hin. lia.
    + intros j Hj Hnot. rewrite aget_aset_ne by lia. apply Hout; lia.
Qed.

(** The zero-fill of a timed-out chunk. *)
Lemma memset0_spec (res0 : list Z) (start n : Z) :
  0 <= start -> 0 <= n -> start + n <= Z.of_nat (length res0) ->
  length (memset0 res0 start n) = length res0
  /\ (forall i, 0 <= i < n -> aget (memset0 res0 start n) (start + i) = 0)
  /\ (forall j, 0 <= j -> ~ (start <= j < start + n) ->
        aget (memset0 res0 start n) j = aget res0 j).
Proof.
  intros Hs Hn Hlen. unfold memset0.
  apply for_range_ind
    with (P := fun k out =>
                 length out = length res0
                 /\ (forall i, 0 <= i < k -> aget out (start + i) = 0)
                 /\ (forall j, 0 <= j -> ~ (start <= j < start + k) ->
                       aget out j = aget res0 j)); [lia | |].
  - repeat split; try reflexivity. intros i Hi. lia.
  - intros k out Hk (Hl & Hin & Hout).
    split; [rewrite length_aset; exact Hl |].
    split.
    + intros i Hi. destruct (Z.eq_dec i k) as [-> | Hne].
      * apply aget_aset_eq. lia.
      * rewrite aget_aset_ne by lia. apply Hin. lia.
    + intros j Hj Hnot. rewrite aget_aset_ne by lia. apply Hout; lia.
Qed.

End DriverFacts.

Module TileLoop.

Import Fpga Tiling FpgaFacts DriverFacts.

(** The tile loop, one turn at a time. *)
Lemma tile_loop_unfold (hw : accelerator) (fuel : nat) (weight_base M stride rows_done : Z)
    (s : driver) :
  tile_loop hw (Datatypes.S fuel) weight_base M stride rows_done s
  = if rows_done <? M then
      tile_loop hw fuel weight_base M stride
        (add32 rows_done
           (if sub32 M rows_done >? FPGA_MAX_DIM_M then FPGA_MAX_DIM_M
            else sub32 M rows_done))
        (chunk_step hw weight_base M stride rows_done s)
    else s.
Proof.
  cbn [tile_loop]. unfold chunk_step. cbv zeta.
  destruct (rows_done <? M); [| reflexivity].
  destruct (fpga_wait_done hw 1000000 _) as [rc d].
  destruct (rc <? 0); [reflexivity |].
  destruct (for_range 0 _ _ _) as [res d']. reflexivity.
Qed.

Lemma num_chunks_bound (M c : Z) :
  0 <= M -> 0 <= c -> (c * FPGA_MAX_DIM_M < M <-> c < num_chunks M).
Proof.
  intros HM Hc. unfold num_chunks, FPGA_MAX_DIM_M.
  pose proof (Z.div_mod (M + 1024 - 1) 1024 ltac:(lia)).
  pose proof (Z.mod_pos_bound (M + 1024 - 1) 1024 ltac:(lia)).
  lia.
Qed.

Lemma starts_from_cons (M c : Z) :
  c < num_chunks M ->
  starts_from M c = c * FPGA_MAX_DIM_M :: starts_from M (c + 1).
Proof.
  intros Hc. unfold starts_from.
  rewrite (seqZ_cons c (num_chunks M - c)) by lia. cbn [map].
  replace (Z.succ c) with (c + 1) by lia.
  replace (Z.pred (num_chunks M - c)) with (num_chunks M - (c + 1)) by lia.
  reflexivity.
Qed.

Lemma starts_from_nil (M c : Z) : num_chunks M <= c -> starts_from M c = [].
Proof.
  intros Hc. unfold starts_from, seqZ.
  replace (Z.to_nat (num_chunks M - c)) with O by lia. reflexivity.
Qed.

Section OneCall.

Variable hw : accelerator.
Variable activations : list Z.
Variables K weight_base M stride : Z.
Variable n0 : nat.

Hypothesis HK : 0 <= K <= FPGA_MAX_DIM_K.
Hypothesis HM : 0 <= M < 2 ^ 31.
Hypothesis Hmax : FPGA_MAX_DIM_M <= hw_max_dim_m hw.

(** One chunk: its rows are read back or zeroed, the others are kept;
    a timeout adds one line to stderr; one run is launched with the
    chunk's WEIGHT_BASE and DIM_M. *)
Lemma chunk_step_spec (c : Z) (s : driver) :
  0 <= c -> c * FPGA_MAX_DIM_M < M ->
  Z.of_nat (length (results s)) = M ->
  configured activations K (regs (dev s)) ->
  length (runs (dev s)) = (n0 + Z.to_nat c)%nat ->
  let r := c * FPGA_MAX_DIM_M in
  let s' := chunk_step hw weight_base M stride r s in
  length (results s') = length (results s)
  /\ configured activations K (regs (dev s'))
  /\ (exists cfg, runs (dev s') = runs (dev s) ++ [cfg]
                  /\ launch_args cfg = (tile_base weight_base stride r, chunk_rows M r))
  /\ stderr s' = stderr s ++ (if chunk_ok hw n0 c then [] else [r])
  /\ (forall j, r <= j < r + chunk_rows M r ->
        aget (results s') j = tiled_row hw n0 activations K weight_base stride j)
  /\ (forall j, 0 <= j -> ~ (r <= j < r + chunk_rows M r) ->
        aget (results s') j = aget (results s) j).
Proof.
  intros Hc Hlt Hlen Hcfg Hruns. cbv zeta.
  change (2 ^ 31) with 2147483648 in HM. unfold FPGA_MAX_DIM_K in HK.
  unfold FPGA_MAX_DIM_M in *.
  set (r := c * 1024) in *.
  assert (Htm : (if sub32 M r >? 1024 then 1024 else sub32 M r) = chunk_rows M r).
  { unfold sub32, chunk_rows, FPGA_MAX_DIM_M. rewrite to_int32_id by int_range.
    destruct (Z.gtb_spec (M - r) 1024); lia. }
  assert (Hrows : 0 < chunk_rows M r <= 1024).
  { unfold chunk_rows, FPGA_MAX_DIM_M. lia. }
  assert (Hend : r + chunk_rows M r <= M).
  { unfold chunk_rows, FPGA_MAX_DIM_M. lia. }
  unfold chunk_step. cbv zeta. unfold FPGA_MAX_DIM_M. rewrite Htm.
  fold (tile_base weight_base stride r).
  rewrite (to_uint32_id (chunk_rows M r)) by int_range.
  rewrite (reg_write_plain REG_WEIGHT_BASE) by (unfold REG_WEIGHT_BASE; lia).
  rewrite (reg_write_plain REG_DIM_M) by (unfold REG_DIM_M; lia).
  rewrite reg_write_start. cbn [regs runs polls].
  set (cfg := <[0 := 1]> (<[REG_DIM_M / 4 := chunk_rows M r]>
                (<[REG_WEIGHT_BASE / 4 := tile_base weight_base stride r]> (regs (dev s))))).
  set (d3 := {| regs := cfg; runs := runs (dev s) ++ [cfg]; polls := O |}).
  destruct (wait_done_spec hw d3 eq_refl) as (Hregs & Hrn & Hrc).
  assert (Hok : done_within hw (length (runs d3)) polls_per_wait = chunk_ok hw n0 c).
  { unfold chunk_ok.
    replace (length (runs d3)) with (n0 + 1 + Z.to_nat c)%nat; [reflexivity |].
    unfold d3. cbn [runs]. rewrite length_app. cbn [length]. lia. }
  rewrite Hok in Hrc.
  assert (Hcfg' : configured activations K cfg).
  { apply configured_launch; [lia | exact Hcfg]. }
  assert (Hargs : launch_args cfg = (tile_base weight_base stride r, chunk_rows M r)).
  { unfold launch_args, cfg.
    rewrite (reg_of_insert_ne _ 0 REG_DIM_M) by (vm_compute; discriminate).
    rewrite (reg_of_insert_eq _ REG_DIM_M).
    rewrite (reg_of_insert_ne _ 0 REG_WEIGHT_BASE) by (vm_compute; discriminate).
    rewrite (reg_of_insert_ne _ (REG_DIM_M / 4) REG_WEIGHT_BASE)
      by (vm_compute; discriminate).
    rewrite (reg_of_insert_eq _ REG_WEIGHT_BASE). reflexivity. }
  assert (Hdiv : forall j, r <= j < r + chunk_rows M r -> j / 1024 = c).
  { intros j Hj. symmetry. apply Z.div_unique with (r := j - r); lia. }
  destruct (fpga_wait_done hw 1000000 d3) as [rc d4].
  cbn [fst snd] in Hregs, Hrn, Hrc.
  destruct (chunk_ok hw n0 c) eqn:Hchunk; subst rc.
  - (* the chunk completes *)
    change (0 <? 0) with false. cbv iota.
    pose proof (read_back hw r (chunk_rows M r) (results s) d4
                  ltac:(lia) ltac:(change (2 ^ 16) with 65536; lia)
                  ltac:(change (2 ^ 31) with 2147483648; lia)) as Hread.
    cbv zeta in Hread.
    destruct (for_range 0 (chunk_rows M r) _ (results s, d4)) as [res d5].
    cbn [fst snd] in Hread. destruct Hread as (Hd5 & Hl & Hin & Hout). subst d5.
    cbn [dev results stderr].
    split; [exact Hl |]. split; [rewrite Hregs; exact Hcfg' |].
    split; [exists cfg; split; [rewrite Hrn; reflexivity | exact Hargs] |].
    split; [rewrite app_nil_r; reflexivity |].
    split; [| exact Hout].
    intros j Hj. replace j with (r + (j - r)) at 1 by lia.
    rewrite Hin by lia. rewrite Hrn. unfold d3. cbn [runs].
    rewrite last_last. unfold cfg.
    rewrite (chunk_result hw activations K) by (try assumption; unfold FPGA_MAX_DIM_K; lia).
    unfold tiled_row, readback, FPGA_MAX_DIM_M. cbv zeta.
    rewrite (Hdiv j Hj). rewrite Hchunk. fold r. reflexivity.
  - (* the wait times out *)
    change (-1 <? 0) with true. cbv iota. cbn [dev results stderr].
    destruct (memset0_spec (results s) r (chunk_rows M r)
                ltac:(lia) ltac:(lia) ltac:(lia)) as (Hl & Hin & Hout).
    split; [exact Hl |]. split; [rewrite Hregs; exact Hcfg' |].
    split; [exists cfg; split; [rewrite Hrn; reflexivity | exact Hargs] |].
    split; [reflexivity |].
    split; [| exact Hout].
    intros j Hj. replace j with (r + (j - r)) at 1 by lia.
    rewrite Hin by lia.
    unfold tiled_row, FPGA_MAX_DIM_M. rewrite (Hdiv j Hj). rewrite Hchunk. reflexivity.
Qed.

Lemma tile_loop_done (fuel : nat) (rows_done : Z) (s : driver) :
  M <= rows_done -> tile_loop hw fuel weight_base M stride rows_done s = s.
Proof.
  intros H. destruct fuel as [|fuel]; [reflexivity |].
  rewrite tile_loop_unfold. destruct (Z.ltb_spec rows_done M); [lia | reflexivity].
Qed.

(** The tile loop from chunk [c] on: the rows before it are kept, every
    later row is read back or zeroed, stderr gets one line per timed-out
    chunk, and one run is launched per chunk. *)
Lemma tile_loop_spec (fuel : nat) :
  forall (c : Z) (s : driver),
    0 <= c <= num_chunks M ->
    (Z.to_nat (M - Z.min (c * FPGA_MAX_DIM_M) M) <= fuel)%nat ->
    Z.of_nat (length (results s)) = M ->
    configured activations K (regs (dev s)) ->
    length (runs (dev s)) = (n0 + Z.to_nat c)%nat ->
    let final :=
      tile_loop hw fuel weight_base M stride (Z.min (c * FPGA_MAX_DIM_M) M) s in
    length (results final) = length (results s)
    /\ (forall j, 0 <= j < Z.min (c * FPGA_MAX_DIM_M) M ->
          aget (results final) j = aget (results s) j)
    /\ (forall j, Z.min (c * FPGA_MAX_DIM_M) M <= j < M ->
          aget (results final) j = tiled_row hw n0 activations K weight_base stride j)
    /\ stderr final
       = stderr s
         ++ List.filter (fun r => negb (chunk_ok hw n0 (r / FPGA_MAX_DIM_M)))
              (starts_from M c)
    /\ exists new,
         runs (dev final) = runs (dev s) ++ new
         /\ map launch_args new
            = map (fun r => (tile_base weight_base stride r, chunk_rows M r))
                (starts_from M c).
Proof.
  induction fuel as [|fuel IH]; intros c s Hc Hfuel Hlen Hcfg Hruns; cbv zeta.
  - assert (Hge : M <= c * FPGA_MAX_DIM_M) by lia.
    pose proof (num_chunks_bound M c ltac:(lia) ltac:(lia)) as Hb.
    rewrite starts_from_nil by lia. rewrite Z.min_r by lia.
    cbn [tile_loop List.filter map]. rewrite app_nil_r.
    repeat split; try reflexivity.
    + intros j Hj. lia.
    + exists []. rewrite app_nil_r. split; reflexivity.
  - destruct (Z.lt_ge_cases (c * FPGA_MAX_DIM_M) M) as [Hlt | Hge].
    + pose proof (num_chunks_bound M c ltac:(lia) ltac:(lia)) as Hb.
      assert (Hcn : c < num_chunks M) by (apply Hb; exact Hlt).
      rewrite Z.min_l by lia. rewrite tile_loop_unfold.
      destruct (Z.ltb_spec (c * FPGA_MAX_DIM_M) M) as [_ | Hno]; [| lia].
      assert (Hnext : add32 (c * FPGA_MAX_DIM_M)
                        (if sub32 M (c * FPGA_MAX_DIM_M) >? FPGA_MAX_DIM_M
                         then FPGA_MAX_DIM_M else sub32 M (c * FPGA_MAX_DIM_M))
                      = Z.min ((c + 1) * FPGA_MAX_DIM_M) M).
      { unfold add32, sub32, FPGA_MAX_DIM_M in *.
        change (2 ^ 31) with 2147483648 in HM.
        rewrite (to_int32_id (M - c * 1024)) by int_range.
        destruct (Z.gtb_spec (M - c * 1024) 1024); rewrite to_int32_id by int_range; lia. }
      rewrite Hnext.
      destruct (chunk_step_spec c s ltac:(lia) Hlt Hlen Hcfg Hruns)
        as (Hl1 & Hcfg1 & (cfg & Hruns1 & Hargs) & Herr1 & Hin1 & Hout1).
      set (s1 := chunk_step hw weight_base M stride (c * FPGA_MAX_DIM_M) s) in *.
      assert (Hrows : c * FPGA_MAX_DIM_M + chunk_rows M (c * FPGA_MAX_DIM_M)
                      = Z.min ((c + 1) * FPGA_MAX_DIM_M) M).
      { unfold chunk_rows, FPGA_MAX_DIM_M in *. lia. }
      rewrite Hrows in Hin1, Hout1.
      destruct (IH (c + 1) s1) as (Hl2 & Hkeep2 & Hnew2 & Herr2 & (new & Hruns2 & Hmap2)).
      * lia.
      * unfold FPGA_MAX_DIM_M in *. lia.
      * rewrite Hl1. exact Hlen.
      * exact Hcfg1.
      * rewrite Hruns1, length_app, Hruns. cbn [length]. lia.
      * rewrite (starts_from_cons M c Hcn).
        split; [rewrite Hl2; exact Hl1 |].
        split; [| split; [| split]].
        -- intros j Hj. rewrite Hkeep2 by (unfold FPGA_MAX_DIM_M in *; lia).
           apply Hout1; [lia |]. unfold FPGA_MAX_DIM_M in *. lia.
        -- intros j Hj.
           destruct (Z.lt_ge_cases j (Z.min ((c + 1) * FPGA_MAX_DIM_M) M)) as [Hin | Hlater].
           ++ rewrite Hkeep2 by (unfold FPGA_MAX_DIM_M in *; lia).
              apply Hin1. lia.
           ++ apply Hnew2. lia.
        -- rewrite Herr2, Herr1. cbn [List.filter].
           replace (c * FPGA_MAX_DIM_M / FPGA_MAX_DIM_M) with c
             by (symmetry; apply Z.div_mul; unfold FPGA_MAX_DIM_M; lia).
           destruct (chunk_ok hw n0 c); cbn [negb].
           ** rewrite app_nil_r. reflexivity.
           ** rewrite <- app_assoc. reflexivity.
        -- exists (cfg :: new). split.
           ++ rewrite Hruns2, Hruns1, <- app_assoc. reflexivity.
           ++ cbn [map]. rewrite Hargs, Hmap2. reflexivity.
    + pose proof (num_chunks_bound M c ltac:(lia) ltac:(lia)) as Hb.
      rewrite starts_from_nil by lia. rewrite Z.min_r by lia.
      rewrite tile_loop_done by lia.
      cbn [List.filter map]. rewrite app_nil_r.
      repeat split; try reflexivity.
      * intros j Hj. lia.
      * exists []. rewrite app_nil_r. split; reflexivity.
Qed.

End OneCall.

End TileLoop.

Module DriverSpec.

Import Fpga Tiling FpgaFacts DriverFacts TileLoop.

Lemma chunk_starts_from (M : Z) : chunk_starts M = starts_from M 0.
Proof.
  unfold chunk_starts, starts_from, num_chunks. rewrite Z.sub_0_r. reflexivity.
Qed.

(** WEIGHT_BASE of a chunk is [weight_base + r * stride] as a 32-bit word. *)
Lemma tile_base_wrap (weight_base stride r : Z) :
  tile_base weight_base stride r = to_uint32 (weight_base + r * stride).
Proof.
  unfold tile_base, addu32, mulu32.
  rewrite to_uint32_mul_l, to_uint32_mul_r, to_uint32_add_r. reflexivity.
Qed.

(** Everything a call of [fpga_bitlinear] leaves behind. *)
Lemma fpga_bitlinear_spec (hw : accelerator) (activations : list Z)
    (K weight_base M stride : Z) (s : driver) :
  0 <= K <= FPGA_MAX_DIM_K -> 0 <= M < 2 ^ 31 ->
  FPGA_MAX_DIM_M <= hw_max_dim_m hw ->
  Z.of_nat (length (results s)) = M ->
  let final := fpga_bitlinear hw activations K weight_base M stride s in
  length (results final) = length (results s)
  /\ (forall j, 0 <= j < M ->
        aget (results final) j
        = tiled_row hw (length (runs (dev s))) activations K weight_base stride j)
  /\ stderr final
     = stderr s
       ++ List.filter
            (fun r => negb (chunk_ok hw (length (runs (dev s))) (r / FPGA_MAX_DIM_M)))
            (chunk_starts M)
  /\ exists new,
       runs (dev final) = runs (dev s) ++ new
       /\ map launch_args new
          = map (fun r => (tile_base weight_base stride r, chunk_rows M r))
              (chunk_starts M).
Proof.
  intros HK HM Hmax Hlen. cbv zeta. unfold fpga_bitlinear. cbv zeta.
  destruct (setup_configured activations K (dev s) HK) as (Hruns & Hcfg).
  cbv zeta in Hruns, Hcfg.
  set (d := fpga_reg_write REG_SHIFT_AMT 0 _) in *.
  pose proof (tile_loop_spec hw activations K weight_base M stride
                (length (runs (dev s))) HK HM Hmax (Z.to_nat M) 0
                {| dev := d; results := results s; stderr := stderr s |}) as H.
  cbv zeta in H. cbn [dev results stderr] in H.
  replace (Z.min (0 * FPGA_MAX_DIM_M) M) with 0 in H by lia.
  rewrite chunk_starts_from.
  destruct H as (Hl & _ & Hrows & Herr & Hnew).
  - unfold num_chunks, FPGA_MAX_DIM_M. split; [lia |]. apply Z.div_pos; lia.
  - lia.
  - exact Hlen.
  - exact Hcfg.
  - rewrite Hruns. cbn. lia.
  - rewrite Hruns in Hnew. repeat split; assumption.
Qed.

Lemma aget_map_seqZ (f : Z -> Z) (n j : Z) :
  0 <= j < n -> aget (map f (seqZ 0 n)) j = f j.
Proof.
  intros Hj. rewrite aget_nth by lia.
  change (map f (seqZ 0 n)) with (f <$> seqZ 0 n).
  apply nth_lookup_Some with (d := 0).
  rewrite list_lookup_fmap. rewrite lookup_seqZ_lt by lia.
  cbn. f_equal. f_equal. lia.
Qed.

Lemma list_eq_aget (l1 l2 : list Z) :
  length l1 = length l2 ->
  (forall j, 0 <= j < Z.of_nat (length l1) -> aget l1 j = aget l2 j) ->
  l1 = l2.
Proof.
  intros Hlen Hget. apply (nth_ext l1 l2 0 0 Hlen).
  intros n Hn. specialize (Hget (Z.of_nat n) ltac:(lia)).
  rewrite !aget_nth in Hget by lia. rewrite Nat2Z.id in Hget. exact Hget.
Qed.

(** Row [j] of the single invocation on an accelerator whose RESULT
    array holds all [M] rows. *)
Lemma single_invocation_row (hw : accelerator) (activations : list Z)
    (K weight_base M : Z) (d : fpga) (j : Z) :
  0 <= K <= FPGA_MAX_DIM_K -> 0 <= M < 2 ^ 31 -> 0 <= j < M ->
  aget (single_invocation (unlimited hw M) activations K weight_base M d) j
  = to_int32 (hw_row hw (to_uint32 (weight_base + j * hw_row_bytes K)) K 0
                (loaded_acts activations K)).
Proof.
  intros HK HM Hj. unfold single_invocation. cbv zeta.
  rewrite aget_map_seqZ by lia.
  destruct (setup_configured activations K d HK) as (_ & Hcfg). cbv zeta in Hcfg.
  set (d2 := fpga_reg_write REG_SHIFT_AMT 0 _) in *.
  rewrite (reg_write_plain REG_WEIGHT_BASE) by (unfold REG_WEIGHT_BASE; lia).
  rewrite (reg_write_plain REG_DIM_M) by (unfold REG_DIM_M; lia).
  rewrite reg_write_start. cbn [regs runs polls]. rewrite last_last.
  change (2 ^ 31) with 2147483648 in HM.
  rewrite (to_uint32_id M) by int_range.
  rewrite (chunk_result (unlimited hw M) activations K weight_base M j (regs d2) HK Hcfg)
    by (cbn [hw_max_dim_m unlimited]; lia).
  reflexivity.
Qed.

End DriverSpec.

(** ** Tiling transparency and timeouts *)

Module DriverClaims.

Import Fpga Tiling FpgaFacts DriverFacts TileLoop DriverSpec.

(** The chunk of a row. *)
Lemma row_chunk (M j : Z) :
  0 <= j < M ->
  0 <= j / FPGA_MAX_DIM_M < num_chunks M
  /\ j / FPGA_MAX_DIM_M * FPGA_MAX_DIM_M <= j
     < j / FPGA_MAX_DIM_M * FPGA_MAX_DIM_M + chunk_rows M (j / FPGA_MAX_DIM_M * FPGA_MAX_DIM_M).
Proof.
  intros Hj. unfold chunk_rows, FPGA_MAX_DIM_M.
  pose proof (Z.div_mod j 1024 ltac:(lia)).
  pose proof (Z.mod_pos_bound j 1024 ltac:(lia)).
  assert (Hq : 0 <= j / 1024) by (apply Z.div_pos; lia).
  split; [| lia].
  split; [exact Hq |].
  apply (num_chunks_bound M (j / 1024)); unfold FPGA_MAX_DIM_M; lia.
Qed.

(** With the documented stride the address of row [j] does not depend on
    the chunk the row falls in. *)
Lemma readback_untiled (hw : accelerator) (activations : list Z) (K weight_base j : Z) :
  readback hw activations K weight_base (hw_row_bytes K) j
  = to_int32 (hw_row hw (to_uint32 (weight_base + j * hw_row_bytes K)) K 0
                (loaded_acts activations K)).
Proof.
  unfold readback. cbv zeta. rewrite tile_base_wrap.
  rewrite to_uint32_add_l. do 3 f_equal. lia.
Qed.

Lemma existsb_const (b : bool) (n : nat) :
  existsb (fun _ : nat => b) (seq 0 (Datatypes.S n)) = b.
Proof.
  destruct b; [reflexivity |].
  generalize (seq 0 (Datatypes.S n)) as l. intros l.
  induction l as [|x l IH]; [reflexivity | exact IH].
Qed.

Lemma polls_per_wait_succ : polls_per_wait = Datatypes.S (Z.to_nat 99999).
Proof.
  unfold polls_per_wait. change 100000 with (Z.succ 99999).
  apply Z2Nat.inj_succ. lia.
Qed.

(** On the small accelerator a chunk completes unless its launch is stuck. *)
Lemma demo_chunk_ok (stuck : list nat) (n0 : nat) (c : Z) :
  chunk_ok (demo_hw stuck) n0 c
  = negb (existsb (Nat.eqb (n0 + 1 + Z.to_nat c)) stuck).
Proof.
  unfold chunk_ok, done_within, demo_hw. cbn [hw_status].
  rewrite polls_per_wait_succ.
  destruct (existsb (Nat.eqb (n0 + 1 + Z.to_nat c)) stuck).
  - apply (existsb_const false).
  - apply (existsb_const true).
Qed.

Lemma demo_zero_rows_chunk_ok (zero_from : Z) (n0 : nat) (c : Z) :
  chunk_ok (demo_hw_zero_rows zero_from) n0 c = true.
Proof.
  unfold chunk_ok, done_within, demo_hw_zero_rows. cbn [hw_status].
  rewrite polls_per_wait_succ. apply (existsb_const true).
Qed.

(** C2. For [K <= 2048] and [M > 1024], when the wait of every chunk
    succeeds and [stride] is the byte size of a weight row, the result
    vector of the tiled [fpga_bitlinear] is, row by row, the one a single
    invocation gives on an accelerator whose result buffer holds all [M]
    rows; the chunk that starts at row [r] is launched with
    WEIGHT_BASE = [weight_base + r * stride] and
    DIM_M = [min (M - r) 1024]. *)
Theorem tiling_transparent (hw : accelerator) (activations : list Z)
    (K weight_base M stride : Z) (s : driver) :
  hw_max_dim_m hw = FPGA_MAX_DIM_M ->
  Z.of_nat (length activations) = K -> K <= FPGA_MAX_DIM_K ->
  FPGA_MAX_DIM_M < M < 2 ^ 31 ->
  Z.of_nat (length (results s)) = M ->
  stride = hw_row_bytes K ->
  (forall c, 0 <= c < num_chunks M -> chunk_ok hw (length (runs (dev s))) c = true) ->
  results (fpga_bitlinear hw activations K weight_base M stride s)
  = single_invocation (unlimited hw M) activations K weight_base M (dev s)
  /\ exists new,
       runs (dev (fpga_bitlinear hw activations K weight_base M stride s))
       = runs (dev s) ++ new
       /\ map launch_args new
          = map (fun r => (to_uint32 (weight_base + r * stride),
                           Z.min (M - r) FPGA_MAX_DIM_M))
              (chunk_starts M).
Proof.
  intros Hmax Hacts HK HM Hlen Hstride Hok.
  assert (HK' : 0 <= K <= FPGA_MAX_DIM_K) by lia.
  assert (HM' : 0 <= M < 2 ^ 31) by (unfold FPGA_MAX_DIM_M in HM; lia).
  destruct (fpga_bitlinear_spec hw activations K weight_base M stride s
              HK' HM' ltac:(lia) Hlen) as (Hl & Hrows & _ & (new & Hruns & Hmap)).
  split.
  - apply list_eq_aget.
    + rewrite Hl. unfold single_invocation. cbv zeta.
      rewrite length_map, length_seqZ. lia.
    + intros j Hj. rewrite Hl in Hj.
      rewrite Hrows by lia.
      rewrite single_invocation_row by lia.
      unfold tiled_row. rewrite Hok by (apply row_chunk; lia).
      subst stride. apply readback_untiled.
  - exists new. split; [exact Hruns |]. rewrite Hmap.
    apply map_ext. intros r. rewrite tile_base_wrap. reflexivity.
Qed.

Lemma tiling_transparent_witness :
  results (fpga_bitlinear (demo_hw []) demo_acts 128 0x30000000 1030 32 (demo_start 1030))
  = single_invocation (unlimited (demo_hw []) 1030) demo_acts 128 0x30000000 1030
      (dev (demo_start 1030)).
Proof.
  refine (proj1 (tiling_transparent (demo_hw []) demo_acts 128 0x30000000 1030 32
                   (demo_start 1030) _ _ _ _ _ _ _)).
  - reflexivity.
  - reflexivity.
  - vm_compute. discriminate.
  - split; reflexivity.
  - vm_compute. reflexivity.
  - reflexivity.
  - intros c Hc. rewrite demo_chunk_ok. reflexivity.
Defined.

(** C5, as the code has it.  In a call of [fpga_bitlinear], the rows of
    a chunk whose wait times out ([chunk_ok] false: STATUS never shows
    done within the wait) are zero afterwards and the rows of every other
    chunk hold what was read back for them; stderr gets one line per
    timed-out chunk, with the chunk's row offset, in order; all chunks
    are launched, the ones after a timeout as well.  The result vector
    and the stderr lines are all the call leaves: it returns no status. *)
Theorem timeout_zero_fill (hw : accelerator) (activations : list Z)
    (K weight_base M stride : Z) (s : driver) :
  FPGA_MAX_DIM_M <= hw_max_dim_m hw ->
  0 <= K <= FPGA_MAX_DIM_K -> 0 <= M < 2 ^ 31 ->
  Z.of_nat (length (results s)) = M ->
  (forall c j,
     0 <= c < num_chunks M ->
     c * FPGA_MAX_DIM_M <= j < c * FPGA_MAX_DIM_M + chunk_rows M (c * FPGA_MAX_DIM_M) ->
     aget (results (fpga_bitlinear hw activations K weight_base M stride s)) j
     = if chunk_ok hw (length (runs (dev s))) c
       then readback hw activations K weight_base stride j
       else 0)
  /\ length (results (fpga_bitlinear hw activations K weight_base M stride s))
     = length (results s)
  /\ stderr (fpga_bitlinear hw activations K weight_base M stride s)
     = stderr s
       ++ List.filter
            (fun r => negb (chunk_ok hw (length (runs (dev s))) (r / FPGA_MAX_DIM_M)))
            (chunk_starts M)
  /\ exists new,
       runs (dev (fpga_bitlinear hw activations K weight_base M stride s))
       = runs (dev s) ++ new
       /\ map launch_args new
          = map (fun r => (to_uint32 (weight_base + r * stride), chunk_rows M r))
              (chunk_starts M).
Proof.
  intros Hmax HK HM Hlen.
  destruct (fpga_bitlinear_spec hw activations K weight_base M stride s
              HK HM Hmax Hlen) as (Hl & Hrows & Herr & (new & Hruns & Hmap)).
  split; [| split; [exact Hl | split; [exact Herr |]]].
  - intros c j Hc Hj.
    assert (Hjc : j / FPGA_MAX_DIM_M = c).
    { unfold chunk_rows, FPGA_MAX_DIM_M in *. symmetry.
      apply Z.div_unique with (r := j - c * 1024); lia. }
    rewrite Hrows by (unfold chunk_rows, FPGA_MAX_DIM_M in *; lia).
    unfold tiled_row. rewrite Hjc. reflexivity.
  - exists new. split; [exact Hruns |]. rewrite Hmap.
    apply map_ext. intros r. rewrite tile_base_wrap. reflexivity.
Qed.

(** A run of 1030 rows whose second chunk never completes: the six rows
    of that chunk are zero, the first chunk holds its values, stderr names
    offset 1024. *)
Lemma timeout_zero_fill_witness :
  aget (results (fpga_bitlinear (demo_hw [2%nat]) demo_acts 128 0x30000000 1030 32
                   (demo_start 1030))) 1027
  = 0
  /\ stderr (fpga_bitlinear (demo_hw [2%nat]) demo_acts 128 0x30000000 1030 32
               (demo_start 1030))
     = [1024].
Proof.
  destruct (timeout_zero_fill (demo_hw [2%nat]) demo_acts 128 0x30000000 1030 32
              (demo_start 1030)) as (Hrows & _ & Herr & _).
  - vm_compute. discriminate.
  - split; vm_compute; discriminate.
  - split; [vm_compute; discriminate | reflexivity].
  - vm_compute. reflexivity.
  - split.
    + rewrite (Hrows 1 1027).
      * rewrite demo_chunk_ok. reflexivity.
      * vm_compute. split; [discriminate | reflexivity].
      * vm_compute. split; [discriminate | reflexivity].
    + rewrite Herr. change (chunk_starts 1030) with [0; 1024].
      cbn [List.filter]. rewrite !demo_chunk_ok. reflexivity.
Defined.

(** A run of 1030 rows without timeout, evaluated: rows 0, 1023 and 1029,
    the two launches, and an empty stderr. *)
Example tiled_run_evaluated :
  let final := fpga_bitlinear (demo_hw []) demo_acts 128 0x30000000 1030 32
                 (demo_start 1030) in
  aget (results final) 0 = to_int32 (0x30000000 + 128)
  /\ aget (results final) 1023 = to_int32 (0x30000000 + 1023 * 32 + 128)
  /\ aget (results final) 1029 = to_int32 (0x30000000 + 1029 * 32 + 128)
  /\ map launch_args (runs (dev final))
     = [(0x30000000, 1024); (0x30000000 + 1024 * 32, 6)]
  /\ stderr final = [].
Proof. vm_compute. repeat split; reflexivity. Qed.

(** Row [j] of the two runs compared below. *)
Lemma stuck_and_zero_rows_agree (j : Z) :
  0 <= j < 1030 ->
  tiled_row (demo_hw [2%nat]) 0 demo_acts 128 0x30000000 32 j
  = tiled_row (demo_hw_zero_rows (0x30000000 + 1024 * 32)) 0 demo_acts 128 0x30000000 32 j.
Proof.
  intros Hj. unfold tiled_row, FPGA_MAX_DIM_M.
  rewrite demo_chunk_ok, demo_zero_rows_chunk_ok.
  unfold readback, FPGA_MAX_DIM_M. cbv zeta.
  rewrite !tile_base_wrap. rewrite !to_uint32_add_l.
  change (hw_row_bytes 128) with 32.
  replace (805306368 + j / 1024 * 1024 * 32 + (j - j / 1024 * 1024) * 32)
    with (805306368 + j * 32) by lia.
  rewrite (to_uint32_id (805306368 + j * 32)) by int_range.
  destruct (Z.lt_ge_cases j 1024) as [Hlow | Hhigh].
  - replace (j / 1024) with 0 by (apply Z.div_unique with (r := j); lia).
    cbn [Z.to_nat Nat.add existsb Nat.eqb orb negb].
    cbn [hw_row demo_hw demo_hw_zero_rows].
    destruct (Z.ltb_spec (805306368 + j * 32) (805306368 + 1024 * 32)); [reflexivity | lia].
  - replace (j / 1024) with 1 by (apply Z.div_unique with (r := j - 1024); lia).
    change (negb (existsb (Nat.eqb (0 + 1 + Z.to_nat 1)) [2%nat])) with false.
    cbv iota. cbn [hw_row demo_hw_zero_rows].
    destruct (Z.ltb_spec (805306368 + j * 32) (805306368 + 1024 * 32)); [lia | reflexivity].
Qed.

(** C5 as stated fails in its last part: the call whose second chunk
    times out and the call on an accelerator that completes every chunk
    and computes 0 for the rows of the second chunk hand the same result
    vector back to the caller, and [fpga_bitlinear] returns nothing else;
    only stderr tells the two apart. *)
Lemma timeout_not_signalled_counterexample :
  results (fpga_bitlinear (demo_hw [2%nat]) demo_acts 128 0x30000000 1030 32 (demo_start 1030))
  = results (fpga_bitlinear (demo_hw_zero_rows (0x30000000 + 1024 * 32)) demo_acts 128
               0x30000000 1030 32 (demo_start 1030))
  /\ stderr (fpga_bitlinear (demo_hw [2%nat]) demo_acts 128 0x30000000 1030 32
               (demo_start 1030)) = [1024]
  /\ stderr (fpga_bitlinear (demo_hw_zero_rows (0x30000000 + 1024 * 32)) demo_acts 128
               0x30000000 1030 32 (demo_start 1030)) = [].
Proof.
  assert (HK : 0 <= 128 <= FPGA_MAX_DIM_K) by (unfold FPGA_MAX_DIM_K; lia).
  assert (HM : 0 <= 1030 < 2 ^ 31) by (split; [lia | reflexivity]).
  assert (Hlen : Z.of_nat (length (results (demo_start 1030))) = 1030).
  { unfold demo_start. cbn [results]. rewrite length_replicate. lia. }
  destruct (fpga_bitlinear_spec (demo_hw [2%nat]) demo_acts 128 0x30000000 1030 32
              (demo_start 1030) HK HM ltac:(cbn; lia) Hlen) as (HlA & HrA & HeA & _).
  destruct (fpga_bitlinear_spec (demo_hw_zero_rows (0x30000000 + 1024 * 32)) demo_acts 128
              0x30000000 1030 32 (demo_start 1030) HK HM ltac:(cbn; lia) Hlen)
    as (HlB & HrB & HeB & _).
  change (length (runs (dev (demo_start 1030)))) with O in *.
  split; [| split].
  - apply list_eq_aget; [congruence |].
    intros j Hj. rewrite HlA, Hlen in Hj.
    rewrite HrA, HrB by lia. apply stuck_and_zero_rows_agree. lia.
  - rewrite HeA. change (chunk_starts 1030) with [0; 1024].
    cbn [List.filter]. rewrite !demo_chunk_ok. reflexivity.
  - rewrite HeB. change (chunk_starts 1030) with [0; 1024].
    cbn [List.filter]. rewrite !demo_zero_rows_chunk_ok. reflexivity.
Qed.

End DriverClaims.

(** ** Image preprocessing *)

Module ImageFacts.

Import Image.

(** A loop whose body keeps a property of the state keeps it. *)
Lemma for_range_keeps {S : Type} (P : S -> Prop) (lo hi : Z) (body : Z -> S -> S) (s : S) :
  P s -> (forall j t, lo <= j < hi -> P t -> P (body j t)) -> P (for_range lo hi body s).
Proof.
  intros H0 Hstep. destruct (Z.le_gt_cases lo hi) as [Hle | Hgt].
  - apply for_range_ind with (P := fun _ t => P t); [exact Hle | exact H0 |].
    intros j t Hj Ht. apply Hstep; assumption.
  - rewrite for_range_empty by lia. exact H0.
Qed.

Lemma uint8_zero : is_uint8 0.
Proof. unfold is_uint8. lia. Qed.

Lemma fgets_bytes_rest (P : Z -> Prop) (n : nat) :
  forall fp line rest,
    fgets_bytes n fp = (line, rest) ->
    Forall P fp -> Forall P rest /\ (length rest <= length fp)%nat
                   /\ (n <> O -> fp <> [] -> length rest < length fp)%nat.
Proof.
  induction n as [|n IH]; intros fp line rest Hg Hfp.
  - simpl in Hg. destruct fp; inversion Hg; subst;
      repeat split; first [assumption | lia | intros; congruence].
  - destruct fp as [|c fp]; simpl in Hg.
    + inversion Hg; subst.
      repeat split; first [assumption | lia | intros; congruence].
    + apply Forall_cons in Hfp as [Hc Hfp].
      destruct (c =? 10).
      * inversion Hg; subst. cbn [length].
        repeat split; first [assumption | lia].
      * destruct (fgets_bytes n fp) as [line' rest'] eqn:E.
        inversion Hg; subst.
        destruct (IH fp line' rest E Hfp) as (Hr & Hlen & _).
        cbn [length]. repeat split; first [assumption | lia].
Qed.

Lemma fgets_rest (P : Z -> Prop) (fp line rest : list Z) :
  fgets 256 fp = Some (line, rest) ->
  Forall P fp -> Forall P rest /\ (length rest < length fp)%nat.
Proof.
  intros Hg Hfp. unfold fgets in Hg. destruct fp as [|c fp]; [discriminate |].
  remember (Z.to_nat (256 - 1)) as n eqn:Hn.
  apply (inj Some) in Hg.
  destruct (fgets_bytes_rest P _ _ _ _ Hg Hfp) as (Hr & _ & Hlt).
  split; [exact Hr |]. apply Hlt; [| discriminate].
  subst n. change (256 - 1) with 255. lia.
Qed.

(** The header loop hands on a suffix of the stream. *)
Lemma pgm_header_rest (P : Z -> Prop) (scan : scanner) (fuel : nat) :
  forall fp hf w h mv fp' w' h' mv',
    pgm_header scan fuel fp hf w h mv = Some (fp', w', h', mv') ->
    Forall P fp -> Forall P fp'.
Proof.
  induction fuel as [|fuel IH]; intros fp hf w h mv fp' w' h' mv' Hh Hfp;
    [discriminate |].
  cbn [pgm_header] in Hh.
  destruct (hf <? 3); [| inversion Hh; subst; exact Hfp].
  destruct (fgets 256 fp) as [[line rest] |] eqn:Hg; [| discriminate].
  destruct (fgets_rest P _ _ _ Hg Hfp) as (Hrest & _).
  repeat match type of Hh with
         | (if ?b then _ else _) = _ => destruct b
         | (let '(_, _) := ?x in _) = _ => destruct x
         end;
    eapply IH; eassumption.
Qed.

(** More fuel than the stream has bytes never changes the header loop. *)
Lemma pgm_header_fuel (scan : scanner) (fuel : nat) :
  forall fp hf w h mv extra,
    (length fp < fuel)%nat ->
    pgm_header scan (fuel + extra) fp hf w h mv = pgm_header scan fuel fp hf w h mv.
Proof.
  induction fuel as [|fuel IH]; intros fp hf w h mv extra Hlen; [lia |].
  cbn [pgm_header Nat.add].
  destruct (hf <? 3); [| reflexivity].
  destruct (fgets 256 fp) as [[line rest] |] eqn:Hg; [| reflexivity].
  destruct (fgets_rest (fun _ => True) fp line rest Hg) as (_ & Hlt).
  { apply Forall_forall. intros; exact I. }
  assert (Hr : (length rest < fuel)%nat) by lia.
  repeat match goal with
         | |- (if ?b then _ else _) = _ => destruct b
         | |- (let '(_, _) := ?x in _) = _ => destruct x
         end;
    apply IH; exact Hr.
Qed.

Lemma fread_bytes (P : Z -> Prop) (buf fp : list Z) (n : Z) :
  Forall P buf -> Forall P fp ->
  Forall P (snd (fst (fread buf n fp)))
  /\ (Z.of_nat (length buf) <= Z.of_nat (length (snd (fst (fread buf n fp)))))
  /\ (fst (fst (fread buf n fp)) <= Z.of_nat (length buf) ->
      length (snd (fst (fread buf n fp))) = length buf).
Proof.
  intros Hbuf Hfp. unfold fread. cbn [fst snd].
  split; [| split].
  - apply Forall_app. split; [apply Forall_take; exact Hfp | apply Forall_drop; exact Hbuf].
  - rewrite length_app, length_drop. lia.
  - intros Hle. rewrite length_app, length_drop. lia.
Qed.

Lemma load_pgm_bytes (scan : scanner) (file : option (list Z)) (buf : list Z)
    (buf_size : Z) (buf' : list Z) (w h : Z) :
  load_pgm scan file buf buf_size = Some (buf', w, h) ->
  Forall is_uint8 buf ->
  match file with Some fp => Forall is_uint8 fp | None => True end ->
  Forall is_uint8 buf'.
Proof.
  intros Hl Hbuf Hfile. unfold load_pgm in Hl.
  destruct file as [fp |]; [| discriminate].
  destruct (fgets 256 fp) as [[line rest] |] eqn:Hg; [| discriminate].
  destruct (fgets_rest is_uint8 _ _ _ Hg Hfile) as (Hrest & _).
  destruct (negb (aget line 0 =? 80) || negb (aget line 1 =? 53)); [discriminate |].
  destruct (pgm_header scan _ rest 0 0 0 0) as [[[[fp' w'] h'] mv'] |] eqn:Hh;
    [| discriminate].
  pose proof (pgm_header_rest is_uint8 _ _ _ _ _ _ _ _ _ _ _ Hh Hrest) as Hfp'.
  destruct ((w' <=? 0) || (h' <=? 0) || (mv' <=? 0) || (mv' >? 255)); [discriminate |].
  destruct (mul32 w' h' >? buf_size); [discriminate |].
  pose proof (fread_bytes is_uint8 buf fp' (mul32 w' h') Hbuf Hfp') as (Hb & _).
  destruct (fread buf (mul32 w' h') fp') as [[got b] r]. cbn [fst snd] in Hb.
  destruct (negb (to_int32 got =? mul32 w' h')); [discriminate |].
  inversion Hl; subst. exact Hb.
Qed.

Lemma memcpy_bytes (dst src : list Z) (n : Z) :
  Forall is_uint8 dst -> Forall is_uint8 src ->
  Forall is_uint8 (memcpy dst src n) /\ length (memcpy dst src n) = length dst.
Proof.
  intros Hd Hs. unfold memcpy.
  apply for_range_keeps
    with (P := fun t => Forall is_uint8 t /\ length t = length dst).
  - split; [exact Hd | reflexivity].
  - intros j t _ (Ht & Hl). split.
    + apply Forall_aset; [exact Ht |]. apply Forall_aget; [exact Hs | exact uint8_zero].
    + rewrite length_aset. exact Hl.
Qed.

Lemma resize_nearest_bytes (src : list Z) (src_w src_h : Z) (dst : list Z) (dst_w dst_h : Z) :
  Forall is_uint8 dst -> Forall is_uint8 src ->
  Forall is_uint8 (resize_nearest src src_w src_h dst dst_w dst_h)
  /\ length (resize_nearest src src_w src_h dst dst_w dst_h) = length dst.
Proof.
  intros Hd Hs. unfold resize_nearest.
  apply for_range_keeps
    with (P := fun t => Forall is_uint8 t /\ length t = length dst).
  - split; [exact Hd | reflexivity].
  - intros y t _ Ht.
    apply for_range_keeps
      with (P := fun t => Forall is_uint8 t /\ length t = length dst); [exact Ht |].
    intros x t' _ (Ht' & Hl). split.
    + apply Forall_aset; [exact Ht' |]. apply Forall_aget; [exact Hs | exact uint8_zero].
    + rewrite length_aset. exact Hl.
Qed.

(** Whatever the format, the 28x28 image is 784 bytes. *)
Lemma load_image28_bytes (scan : scanner) (file : option (list Z)) (raw_buf img28 : list Z)
    (img : list Z) (w h r : Z) :
  load_image28 scan file raw_buf img28 = Some (img, w, h, r) ->
  Forall is_uint8 raw_buf -> Forall is_uint8 img28 ->
  match file with Some fp => Forall is_uint8 fp | None => True end ->
  Forall is_uint8 img /\ (length img28 = 784%nat -> length img = 784%nat).
Proof.
  intros Hl Hraw Himg Hfile. unfold load_image28 in Hl.
  destruct file as [fp |]; [| discriminate].
  destruct (fread [0; 0] 2 fp) as [[got magic] rest0].
  destruct (negb (got =? 2)); [discriminate |].
  destruct ((aget magic 0 =? 80) && (aget magic 1 =? 53)).
  - destruct (load_pgm scan (Some fp) raw_buf (MAX_IMG_DIM * MAX_IMG_DIM))
      as [[[raw' w'] h'] |] eqn:Hp; [| discriminate].
    pose proof (load_pgm_bytes _ _ _ _ _ _ _ Hp Hraw Hfile) as Hraw'.
    destruct ((w' =? MNIST_DIM) && (h' =? MNIST_DIM));
      apply (inj Some) in Hl;
      repeat (apply pair_equal_spec in Hl; destruct Hl as [Hl ?]); subst.
    + destruct (memcpy_bytes img28 raw' MNIST_PIXELS Himg Hraw') as (Hb & Hlen).
      split; [exact Hb | intros H; rewrite Hlen; exact H].
    + destruct (resize_nearest_bytes raw' w h img28 MNIST_DIM MNIST_DIM Himg Hraw')
        as (Hb & Hlen).
      split; [exact Hb | intros H; rewrite Hlen; exact H].
  - destruct (negb (Z.of_nat (length fp) =? MNIST_PIXELS)); [discriminate |].
    pose proof (fread_bytes is_uint8 img28 fp MNIST_PIXELS Himg Hfile) as (Hb & _ & Hlen).
    destruct (fread img28 MNIST_PIXELS fp) as [[got' img'] rest'] eqn:Hf.
    cbn [fst snd] in Hb, Hlen.
    destruct (Z.eqb_spec (to_int32 got') MNIST_PIXELS) as [Hgot | Hgot];
      cbn [negb] in Hl; [| discriminate].
    apply (inj Some) in Hl.
    repeat (apply pair_equal_spec in Hl; destruct Hl as [Hl ?]); subst.
    split; [exact Hb |].
    intros H784. rewrite <- H784. apply Hlen.
    assert (Hg : got' = Z.of_nat (length (take (Z.to_nat (to_uint32 MNIST_PIXELS)) fp))).
    { unfold fread in Hf. inversion Hf. reflexivity. }
    rewrite Hg, length_take. rewrite H784. change (to_uint32 MNIST_PIXELS) with 784. lia.
Qed.

(** The conversion of one pixel. *)
Lemma pixel_activation (p : Z) :
  is_uint8 p ->
  to_int8 (div32 (mul32 p 127) 255) = p * 127 / 255
  /\ 0 <= p * 127 / 255 <= 127.
Proof.
  intros Hp. unfold is_uint8 in Hp. unfold div32, mul32.
  rewrite (to_int32_id (p * 127)) by int_range.
  rewrite Z.quot_div_nonneg by lia.
  assert (Hr : 0 <= p * 127 / 255 <= 127).
  { split; [apply Z.div_pos; lia |].
    apply Z.lt_succ_r. apply Z.div_lt_upper_bound; lia. }
  rewrite to_int32_id by int_range.
  rewrite to_int8_id by int_range. split; [reflexivity | exact Hr].
Qed.

Lemma to_activations_spec (img28 output : list Z) :
  length output = 784%nat ->
  length (to_activations img28 output) = 784%nat
  /\ forall i, 0 <= i < 784 ->
       aget (to_activations img28 output) i
       = to_int8 (div32 (mul32 (aget img28 i) 127) 255).
Proof.
  intros Hlen. unfold to_activations. change MNIST_PIXELS with 784.
  apply for_range_ind
    with (P := fun n out =>
                 length out = 784%nat
                 /\ forall i, 0 <= i < n ->
                      aget out i = to_int8 (div32 (mul32 (aget img28 i) 127) 255));
    [lia | |].
  - split; [exact Hlen | intros i Hi; lia].
  - intros j out Hj (Hl & Hout). split; [rewrite length_aset; exact Hl |].
    intros i Hi. destruct (Z.eq_dec i j) as [-> | Hne].
    + apply aget_aset_eq. lia.
    + rewrite aget_aset_ne by lia. apply Hout. lia.
Qed.

(** C10. For every file that [preprocess_image] accepts, PGM or raw, the
    output has 784 activations, each equal to [pixel * 127 / 255] for the
    byte [pixel] of the 28x28 image at the same index, and each within
    [0, 127]: no activation is negative. *)
Theorem preprocess_image_range (scan : scanner) (file : option (list Z))
    (raw_buf img28 output0 : list Z) (out : preprocessed) :
  Forall is_uint8 raw_buf -> Forall is_uint8 img28 ->
  match file with Some fp => Forall is_uint8 fp | None => True end ->
  length img28 = 784%nat -> length output0 = 784%nat ->
  preprocess_image scan file raw_buf img28 output0 = Some out ->
  length (output out) = 784%nat
  /\ exists img w h r,
       load_image28 scan file raw_buf img28 = Some (img, w, h, r)
       /\ length img = 784%nat
       /\ forall i, 0 <= i < 784 ->
            0 <= aget img i <= 255
            /\ aget (output out) i = aget img i * 127 / 255
            /\ 0 <= aget (output out) i <= 127.
Proof.
  intros Hraw Himg Hfile Hl28 Hlout Hpre. unfold preprocess_image in Hpre.
  destruct (load_image28 scan file raw_buf img28) as [[[[img w] h] r] |] eqn:Hload;
    [| discriminate].
  inversion Hpre; subst out. cbn [output].
  destruct (load_image28_bytes _ _ _ _ _ _ _ _ Hload Hraw Himg Hfile) as (Hbytes & Hlen).
  destruct (to_activations_spec img output0 Hlout) as (Hl & Hout).
  split; [exact Hl |].
  exists img, w, h, r. split; [reflexivity |]. split; [apply Hlen; exact Hl28 |].
  intros i Hi.
  assert (Hp : is_uint8 (aget img i)) by (apply Forall_aget; [exact Hbytes | exact uint8_zero]).
  destruct (pixel_activation (aget img i) Hp) as (Hconv & Hrange).
  rewrite (Hout i Hi), Hconv.
  split; [exact Hp |]. split; [reflexivity | exact Hrange].
Qed.

Lemma preprocess_image_range_witness :
  exists out,
    preprocess_image scan_decimal (Some (replicate 784 200)) [] (replicate 784 0)
      (replicate 784 0) = Some out
    /\ length (output out) = 784%nat.
Proof.
  eexists. split; [vm_compute; reflexivity |].
  refine (proj1 (preprocess_image_range scan_decimal (Some (replicate 784 200)) []
                   (replicate 784 0) (replicate 784 0) _ _ _ _ _ _ _)).
  - constructor.
  - apply Forall_replicate. unfold is_uint8. lia.
  - apply Forall_replicate. unfold is_uint8. lia.
  - reflexivity.
  - reflexivity.
  - vm_compute. reflexivity.
Defined.

(** A raw file of 784 bytes of value 200 gives 784 activations of 99. *)
Example raw_file_activations :
  output <$> preprocess_image scan_decimal (Some (replicate 784 200)) []
               (replicate 784 0) (replicate 784 0)
  = Some (replicate 784 99).
Proof. vm_compute. reflexivity. Qed.

(** A 2x2 PGM is resized to 28x28: the corners of the output are the four
    pixels 0, 255, 128, 64 scaled to 0, 127, 63, 31. *)
Example pgm_file_activations :
  match preprocess_image scan_decimal (Some demo_pgm) [] (replicate 784 0)
          (replicate 784 0) with
  | Some out =>
      (orig_w out, orig_h out, resized out) = (2, 2, 1)
      /\ (aget (output out) 0, aget (output out) 27,
          aget (output out) 756, aget (output out) 783) = (0, 127, 63, 31)
  | None => False
  end.
Proof. vm_compute. split; reflexivity. Qed.

(** A file that is neither PGM nor 784 bytes long is refused. *)
Example short_file_refused :
  preprocess_image scan_decimal (Some [1; 2; 3]) [] (replicate 784 0) (replicate 784 0)
  = None.
Proof. vm_compute. reflexivity. Qed.

End ImageFacts.

(** ** Exit codes *)

Module ExitFacts.

Import Exit ExitSpec.








(** In the shape of test W1 a timed-out run is one more failed check. *)
Lemma timeout_is_failed_check (c : counters) :
  g_tests_failed (test_W1_all_plus_one None c) = g_tests_failed c + 1.
Proof. reflexivity. Qed.









(** Extensions are compared without regard to case, from the last dot. *)
Example image_extensions :
  has_image_ext "digit.PGM" = true
  /\ has_image_ext "a.b.raw" = true
  /\ has_image_ext "notes.txt" = false
  /\ has_image_ext "pgm" = false.
Proof. repeat split; reflexivity. Qed.

End ExitFacts.

(** ** The activation quantizer [rms_norm_int8] *)

Module QuantFacts.
Import SpecFloat F32 Quant QuantSpec.

(** *** Mantissa sizes *)

Lemma digits2_log2 (p : positive) : Z.pos (digits2_pos p) = Z.log2 (Z.pos p) + 1.
Proof.
  assert (H : forall q, digits2_pos q = Pos.size q).
  { induction q as [q IH | q IH |]; simpl; congruence. }
  rewrite H. destruct p; simpl; lia.
Qed.

Lemma Zdigits2_log2 (m : Z) : 0 < m -> Zdigits2 m = Z.log2 m + 1.
Proof. destruct m as [|p|p]; try lia. intros _. apply digits2_log2. Qed.

Lemma Zdigits2_nonneg (m : Z) : 0 <= Zdigits2 m.
Proof. destruct m; simpl; lia. Qed.

Lemma Zdigits2_mono (a b : Z) : 0 <= a <= b -> Zdigits2 a <= Zdigits2 b.
Proof.
  intros H. destruct (Z.eq_dec a 0) as [-> | Ha].
  - apply Zdigits2_nonneg.
  - rewrite !Zdigits2_log2 by lia.
    pose proof (Z.log2_le_mono a b). lia.
Qed.

Lemma digits2_bounds (p : positive) :
  2 ^ (Z.pos (digits2_pos p) - 1) <= Z.pos p < 2 ^ Z.pos (digits2_pos p).
Proof.
  rewrite digits2_log2.
  replace (Z.log2 (Z.pos p) + 1 - 1) with (Z.log2 (Z.pos p)) by lia.
  apply Z.log2_spec. lia.
Qed.

(** A valid finite value: the exponent is the one its mantissa size
    calls for, and it is below the exponent of the infinities. *)
Lemma valid_finite (s : bool) (m : positive) (e : Z) :
  valid (S754_finite s m e) = true <->
  Z.max (Z.pos (digits2_pos m) + e - 24) (-149) = e /\ e <= 104.
Proof.
  unfold valid, valid_binary, bounded, canonical_mantissa, fexp, emin.
  rewrite andb_true_iff, Z.eqb_eq, Z.leb_le. reflexivity.
Qed.

(** The literals are the correctly rounded decimal values. *)
Lemma literals_rounded :
  fdiv (of_int 1) (of_int 1000000) = f_1e_6
  /\ fdiv (of_int 1) (of_int 100000) = f_1e_5
  /\ of_int 0 = f_0 /\ of_int 1 = f_1 /\ of_int 127 = f_127 /\ of_int (-128) = f_m128
  /\ SFmax_float 24 128 = FLT_MAX.
Proof. repeat split; vm_compute; reflexivity. Qed.

(** *** Saturation, rounding and conversion of one value *)

Lemma small_int_exact (n : Z) (s : bool) :
  1 <= n <= 128 ->
  int8_of_float (binary_normalize 24 128 n 0 s)
  = (if n <=? 127 then Some n else None)
  /\ int8_of_float (binary_normalize 24 128 (- n) 0 s) = Some (- n).
Proof.
  intros Hn.
  set (ok := fun k : Z =>
    match int8_of_float (binary_normalize 24 128 k 0 false),
          int8_of_float (binary_normalize 24 128 (- k) 0 false) with
    | Some a, Some b => (k <=? 127) && (a =? k) && (b =? - k)
    | None, Some b => negb (k <=? 127) && (b =? - k)
    | _, _ => false
    end).
  assert (Hall : forallb ok (seqZ 1 128) = true) by (vm_compute; reflexivity).
  assert (Hk : ok n = true).
  { apply (proj1 (forallb_forall ok (seqZ 1 128)) Hall).
    apply list_elem_of_In, elem_of_seqZ. lia. }
  assert (Hs : forall k, k <> 0 ->
            binary_normalize 24 128 k 0 s = binary_normalize 24 128 k 0 false).
  { intros k Hk0. destruct k; [lia | reflexivity | reflexivity]. }
  rewrite !Hs by lia. unfold ok in Hk.
  destruct (int8_of_float (binary_normalize 24 128 n 0 false)) as [a|],
           (int8_of_float (binary_normalize 24 128 (- n) 0 false)) as [b|];
    try discriminate Hk.
  - apply andb_true_iff in Hk as [Hk Hb]. apply andb_true_iff in Hk as [Hle Ha].
    rewrite Hle. apply Z.eqb_eq in Ha, Hb. subst. split; reflexivity.
  - apply andb_true_iff in Hk as [Hle Hb]. apply negb_true_iff in Hle.
    rewrite Hle. apply Z.eqb_eq in Hb. subst. split; reflexivity.
Qed.

Lemma compare_cont_Z (a b : positive) :
  Pos.compare_cont Eq a b = Z.compare (Z.pos a) (Z.pos b).
Proof. reflexivity. Qed.

Lemma fgt_127 (s : bool) (m : positive) (e : Z) :
  fgt (S754_finite s m e) f_127
  = negb s && ((-17 <? e) || ((e =? -17) && (16646144 <? Z.pos m))).
Proof.
  unfold fgt, SFltb, SFcompare, f_127. destruct s; [reflexivity |].
  cbn [negb andb].
  destruct (Z.compare_spec (-17) e) as [<- | H | H].
  - rewrite Z.ltb_irrefl, Z.eqb_refl. cbn [orb andb].
    rewrite (compare_cont_Z 16646144 m).
    destruct (Z.compare_spec 16646144 (Z.pos m)) as [Hm | Hm | Hm];
      destruct (Z.ltb_spec 16646144 (Z.pos m)) as [Hlt | Hge].
    + exfalso. lia.
    + reflexivity.
    + reflexivity.
    + exfalso. lia.
    + exfalso. lia.
    + reflexivity.
  - destruct (Z.ltb_spec (-17) e); [reflexivity | lia].
  - destruct (Z.ltb_spec (-17) e); [lia |].
    destruct (Z.eqb_spec e (-17)); [lia | reflexivity].
Qed.

Lemma flt_m128 (s : bool) (m : positive) (e : Z) :
  flt (S754_finite s m e) f_m128
  = s && ((-16 <? e) || ((e =? -16) && (8388608 <? Z.pos m))).
Proof.
  unfold flt, SFltb, SFcompare, f_m128. destruct s; [| reflexivity].
  cbn [andb].
  destruct (Z.compare_spec e (-16)) as [-> | H | H].
  - rewrite Z.ltb_irrefl, Z.eqb_refl. cbn [orb andb].
    rewrite (compare_cont_Z m 8388608).
    destruct (Z.compare_spec (Z.pos m) 8388608) as [Hm | Hm | Hm];
      destruct (Z.ltb_spec 8388608 (Z.pos m)) as [Hlt | Hge].
    + exfalso. lia.
    + reflexivity.
    + exfalso. lia.
    + reflexivity.
    + reflexivity.
    + exfalso. lia.
  - destruct (Z.ltb_spec (-16) e); [lia |].
    destruct (Z.eqb_spec e (-16)); [lia | reflexivity].
  - destruct (Z.ltb_spec (-16) e); [reflexivity | lia].
Qed.


Lemma pow2_double (k : Z) : 1 <= k -> 2 ^ k = 2 * 2 ^ (k - 1).
Proof.
  intros H. replace k with (Z.succ (k - 1)) at 1 by lia.
  apply Z.pow_succ_r. lia.
Qed.

(** The two ways of writing the rounded magnitude agree. *)
Lemma round_magnitude (m : positive) (e : Z) :
  e < 0 ->
  (2 * Z.pos m + 2 ^ (- e)) / 2 ^ (- e + 1) = (Z.pos m + 2 ^ (- e - 1)) / 2 ^ (- e).
Proof.
  intros He.
  assert (HP : 0 < 2 ^ (- e - 1)) by (apply Z.pow_pos_nonneg; lia).
  rewrite (pow2_double (- e + 1)) by lia.
  replace (- e + 1 - 1) with (- e) by lia.
  rewrite (pow2_double (- e)) by lia.
  replace (2 * Z.pos m + 2 * 2 ^ (- e - 1)) with (2 * (Z.pos m + 2 ^ (- e - 1))) by lia.
  apply Z.div_mul_cancel_l; lia.
Qed.

Lemma roundf_fraction (s : bool) (m : positive) (e : Z) :
  e < 0 ->
  (Z.pos m + 2 ^ (- e - 1)) / 2 ^ (- e) <= 128 ->
  int8_of_float (roundf (S754_finite s m e))
  = (let n := cond_Zopp s ((Z.pos m + 2 ^ (- e - 1)) / 2 ^ (- e)) in
     if n <=? 127 then Some n else None).
Proof.
  intros He Hn.
  assert (HP : 0 < 2 ^ (- e - 1)) by (apply Z.pow_pos_nonneg; lia).
  assert (Hn0 : 0 <= (Z.pos m + 2 ^ (- e - 1)) / 2 ^ (- e)).
  { apply Z.div_pos; [lia |]. apply Z.pow_pos_nonneg; lia. }
  unfold roundf. destruct (Z.leb_spec 0 e) as [H | _]; [lia |].
  cbv zeta.
  destruct (Z.eqb_spec ((Z.pos m + 2 ^ (- e - 1)) / 2 ^ (- e)) 0) as [-> | Hne].
  - destruct s; reflexivity.
  - destruct (small_int_exact ((Z.pos m + 2 ^ (- e - 1)) / 2 ^ (- e)) s
                ltac:(lia)) as [Hpos Hneg].
    destruct s; cbn [cond_Zopp].
    + rewrite Hneg.
      destruct (Z.leb_spec (- ((Z.pos m + 2 ^ (- e - 1)) / 2 ^ (- e))) 127);
        [reflexivity | lia].
    + exact Hpos.
Qed.

Lemma saturated_127 : int8_of_float (roundf f_127) = Some 127.
Proof. vm_compute. reflexivity. Qed.

Lemma saturated_m128 : int8_of_float (roundf f_m128) = Some (-128).
Proof. vm_compute. reflexivity. Qed.

Lemma magnitude_ge (m : positive) (e c : Z) :
  e < 0 -> (2 * c - 1) * 2 ^ (- e - 1) <= Z.pos m ->
  c <= (Z.pos m + 2 ^ (- e - 1)) / 2 ^ (- e).
Proof.
  intros He H. apply Z.div_le_lower_bound; [apply Z.pow_pos_nonneg; lia |].
  rewrite (pow2_double (- e)) by lia. lia.
Qed.

Lemma magnitude_le (m : positive) (e c : Z) :
  e < 0 -> Z.pos m < (2 * c + 1) * 2 ^ (- e - 1) ->
  (Z.pos m + 2 ^ (- e - 1)) / 2 ^ (- e) <= c.
Proof.
  intros He H. apply Z.lt_succ_r.
  apply Z.div_lt_upper_bound; [apply Z.pow_pos_nonneg; lia |].
  rewrite (pow2_double (- e)) by lia. lia.
Qed.

Lemma magnitude_nonneg (m : positive) (e : Z) :
  e < 0 -> 0 <= (Z.pos m + 2 ^ (- e - 1)) / 2 ^ (- e).
Proof.
  intros He. apply Z.div_pos; [| apply Z.pow_pos_nonneg; lia].
  assert (0 < 2 ^ (- e - 1)) by (apply Z.pow_pos_nonneg; lia). lia.
Qed.

(** The size of [2^(-e-1)] on either side of an exponent [e0]. *)
Lemma half_ulp_cases (e e0 : Z) :
  e < 0 -> e0 < 0 ->
  (e0 < e -> 0 < 2 ^ (- e - 1) /\ 2 * 2 ^ (- e - 1) <= 2 ^ (- e0 - 1))
  /\ (e = e0 -> 2 ^ (- e - 1) = 2 ^ (- e0 - 1))
  /\ (e < e0 -> 2 * 2 ^ (- e0 - 1) <= 2 ^ (- e - 1)).
Proof.
  intros He He0. split; [| split].
  - intros H. split; [apply Z.pow_pos_nonneg; lia |].
    rewrite <- (pow2_double (- e)) by lia. apply Z.pow_le_mono_r; lia.
  - intros ->. reflexivity.
  - intros H. rewrite <- (pow2_double (- e0)) by lia. apply Z.pow_le_mono_r; lia.
Qed.

(** On every value a [float] can hold, saturating at the two bounds
    before rounding gives the clamped rounded value; the conversion is
    undefined exactly on NaN. *)
Lemma saturate_round_spec (v : float) :
  valid v = true -> saturate_round v = quantized v.
Proof.
  intros Hv. destruct v as [s | s | | s m e].
  - destruct s; reflexivity.
  - destruct s; vm_compute; reflexivity.
  - reflexivity.
  - apply valid_finite in Hv as [Hcan He].
    pose proof (digits2_bounds m) as Hd.
    assert (Hm24 : Z.pos m < 2 ^ 24).
    { eapply Z.lt_le_trans; [apply Hd |]. apply Z.pow_le_mono_r; lia. }
    assert (Hnorm : -149 < e -> 2 ^ 23 <= Z.pos m).
    { intros H. replace (Z.pos (digits2_pos m)) with 24 in Hd by lia. apply Hd. }
    change (2 ^ 24) with 16777216 in Hm24. change (2 ^ 23) with 8388608 in Hnorm.
    clear Hd Hcan.
    pose proof (magnitude_nonneg m e) as Hn0.
    unfold saturate_round, quantized. rewrite fgt_127.
    destruct s; cbn [negb andb]; cbv zeta.
    + rewrite flt_m128. cbn [andb].
      assert (Hsat : (-16 < e \/ e = -16 /\ 8388608 < Z.pos m) ->
                     round true m e <= -128).
      { intros HB. unfold round. cbn [cond_Zopp].
        destruct (Z.leb_spec 0 e) as [H0 | H0].
        - assert (0 < 2 ^ e) by (apply Z.pow_pos_nonneg; lia). nia.
        - rewrite round_magnitude by lia.
          destruct (half_ulp_cases e (-16) H0 ltac:(lia)) as (Hhi & Heq & _).
          change (2 ^ (- -16 - 1)) with 32768 in Hhi, Heq.
          pose proof (magnitude_ge m e 128 H0). lia. }
      assert (Hin : (e < -16 \/ e = -16 /\ Z.pos m <= 8388608) ->
                    e < 0 /\ (Z.pos m + 2 ^ (- e - 1)) / 2 ^ (- e) <= 128).
      { intros HB. split; [lia |].
        destruct (half_ulp_cases e (-16) ltac:(lia) ltac:(lia)) as (_ & Heq & Hlo).
        change (2 ^ (- -16 - 1)) with 32768 in Hlo, Heq.
        apply magnitude_le; lia. }
      destruct (Z.ltb_spec (-16) e) as [Hlt | Hge]; cbn [orb].
      * rewrite saturated_m128. f_equal. unfold clamp. specialize (Hsat ltac:(lia)). lia.
      * destruct (Z.eqb_spec e (-16)) as [Heq | Hne]; cbn [andb];
          [destruct (Z.ltb_spec 8388608 (Z.pos m)) as [Hm | Hm] |].
        -- rewrite saturated_m128. f_equal. unfold clamp.
           specialize (Hsat ltac:(lia)). lia.
        -- destruct (Hin ltac:(lia)) as [H0 Hn].
           rewrite roundf_fraction by assumption. cbv zeta.
           unfold clamp, round. cbn [cond_Zopp].
           destruct (Z.leb_spec 0 e) as [H0' | _]; [lia |].
           rewrite round_magnitude by lia.
           destruct (Z.leb_spec (- ((Z.pos m + 2 ^ (- e - 1)) / 2 ^ (- e))) 127);
             [f_equal; lia | lia].
        -- destruct (Hin ltac:(lia)) as [H0 Hn].
           rewrite roundf_fraction by assumption. cbv zeta.
           unfold clamp, round. cbn [cond_Zopp].
           destruct (Z.leb_spec 0 e) as [H0' | _]; [lia |].
           rewrite round_magnitude by lia.
           destruct (Z.leb_spec (- ((Z.pos m + 2 ^ (- e - 1)) / 2 ^ (- e))) 127);
             [f_equal; lia | lia].
    + assert (Hneg : flt (S754_finite false m e) f_m128 = false)
        by (rewrite flt_m128; reflexivity).
      assert (Hsat : (-17 < e \/ e = -17 /\ 16646144 < Z.pos m) ->
                     127 <= round false m e).
      { intros HB. unfold round. cbn [cond_Zopp].
        destruct (Z.leb_spec 0 e) as [H0 | H0].
        - assert (0 < 2 ^ e) by (apply Z.pow_pos_nonneg; lia). nia.
        - rewrite round_magnitude by lia.
          destruct (half_ulp_cases e (-17) H0 ltac:(lia)) as (Hhi & Heq & _).
          change (2 ^ (- -17 - 1)) with 65536 in Hhi, Heq.
          pose proof (magnitude_ge m e 127 H0). lia. }
      assert (Hin : (e < -17 \/ e = -17 /\ Z.pos m <= 16646144) ->
                    e < 0 /\ (Z.pos m + 2 ^ (- e - 1)) / 2 ^ (- e) <= 127).
      { intros HB. split; [lia |].
        destruct (half_ulp_cases e (-17) ltac:(lia) ltac:(lia)) as (_ & Heq & Hlo).
        change (2 ^ (- -17 - 1)) with 65536 in Hlo, Heq.
        apply magnitude_le; lia. }
      assert (Hsat127 : (if flt f_127 f_m128 then f_m128 else f_127) = f_127)
        by reflexivity.
      destruct (Z.ltb_spec (-17) e) as [Hlt | Hge]; cbn [orb].
      * rewrite Hsat127, saturated_127. f_equal. unfold clamp.
        specialize (Hsat ltac:(lia)). lia.
      * destruct (Z.eqb_spec e (-17)) as [Heq | Hne]; cbn [andb];
          [destruct (Z.ltb_spec 16646144 (Z.pos m)) as [Hm | Hm] |].
        -- rewrite Hsat127, saturated_127. f_equal. unfold clamp.
           specialize (Hsat ltac:(lia)). lia.
        -- destruct (Hin ltac:(lia)) as [H0 Hn].
           rewrite Hneg, roundf_fraction by lia. cbv zeta.
           unfold clamp, round. cbn [cond_Zopp].
           destruct (Z.leb_spec 0 e) as [H0' | _]; [lia |].
           rewrite round_magnitude by lia.
           destruct (Z.leb_spec ((Z.pos m + 2 ^ (- e - 1)) / 2 ^ (- e)) 127);
             [f_equal; lia | lia].
        -- destruct (Hin ltac:(lia)) as [H0 Hn].
           rewrite Hneg, roundf_fraction by lia. cbv zeta.
           unfold clamp, round. cbn [cond_Zopp].
           destruct (Z.leb_spec 0 e) as [H0' | _]; [lia |].
           rewrite round_magnitude by lia.
           destruct (Z.leb_spec ((Z.pos m + 2 ^ (- e - 1)) / 2 ^ (- e)) 127);
             [f_equal; lia | lia].
Qed.

(** *** Results of the arithmetic are values a [float] can hold *)

Lemma shr_1_m (r : shr_record) :
  0 <= shr_m r -> shr_m (shr_1 r) = Z.shiftr (shr_m r) 1.
Proof.
  destruct r as [m rb sb]. cbn [shr_m]. intros Hm.
  rewrite Z.shiftr_div_pow2 by lia.
  change (2 ^ 1) with 2. rewrite <- Z.div2_div.
  destruct m as [| [p | p |] | p]; try reflexivity. lia.
Qed.

Lemma iter_shr_1_m (p : positive) :
  forall r : shr_record,
    0 <= shr_m r -> shr_m (iter_pos shr_1 p r) = Z.shiftr (shr_m r) (Z.pos p).
Proof.
  induction p as [p IH | p IH |]; intros r Hr; cbn [iter_pos].
  - assert (H1 : 0 <= shr_m (shr_1 r)).
    { rewrite shr_1_m by exact Hr. apply Z.shiftr_nonneg. exact Hr. }
    assert (H2 : 0 <= shr_m (iter_pos shr_1 p (shr_1 r))).
    { rewrite IH by exact H1. apply Z.shiftr_nonneg. exact H1. }
    rewrite IH by exact H2. rewrite IH by exact H1. rewrite shr_1_m by exact Hr.
    rewrite !Z.shiftr_shiftr by lia. f_equal. lia.
  - assert (H2 : 0 <= shr_m (iter_pos shr_1 p r)).
    { rewrite IH by exact Hr. apply Z.shiftr_nonneg. exact Hr. }
    rewrite IH by exact H2. rewrite IH by exact Hr.
    rewrite Z.shiftr_shiftr by lia. f_equal. lia.
  - apply shr_1_m. exact Hr.
Qed.

(** [shr_fexp] on a mantissa that is not too short for its exponent:
    the exponent becomes the one the size calls for, the mantissa is
    shifted accordingly, and a non-zero result is in canonical form. *)
Lemma shr_fexp_spec (m e : Z) (l : location) :
  0 <= m -> e <= fexp 24 128 (Zdigits2 m + e) ->
  snd (shr_fexp 24 128 m e l) = fexp 24 128 (Zdigits2 m + e)
  /\ shr_m (fst (shr_fexp 24 128 m e l))
     = Z.shiftr m (fexp 24 128 (Zdigits2 m + e) - e)
  /\ 0 <= shr_m (fst (shr_fexp 24 128 m e l))
  /\ (0 < shr_m (fst (shr_fexp 24 128 m e l)) ->
      fexp 24 128 (Zdigits2 (shr_m (fst (shr_fexp 24 128 m e l)))
                   + snd (shr_fexp 24 128 m e l))
      = snd (shr_fexp 24 128 m e l))
  /\ (shr_m (fst (shr_fexp 24 128 m e l)) = 0 ->
      snd (shr_fexp 24 128 m e l) = -149).
Proof.
  intros Hm He.
  assert (Hr : forall l', shr_m (shr_record_of_loc m l') = m).
  { intros [| []]; reflexivity. }
  assert (Hshift : snd (shr_fexp 24 128 m e l) = fexp 24 128 (Zdigits2 m + e)
                   /\ shr_m (fst (shr_fexp 24 128 m e l))
                      = Z.shiftr m (fexp 24 128 (Zdigits2 m + e) - e)).
  { unfold shr_fexp, shr.
    destruct (fexp 24 128 (Zdigits2 m + e) - e) as [| p | p] eqn:En.
    - cbn [fst snd]. split; [lia |]. rewrite Hr. rewrite Z.shiftr_0_r. reflexivity.
    - cbn [fst snd]. split; [lia |]. rewrite iter_shr_1_m; rewrite Hr; [reflexivity | lia].
    - lia. }
  destruct Hshift as [He' Hm']. rewrite He', Hm'.
  set (n := fexp 24 128 (Zdigits2 m + e) - e) in *.
  assert (Hn : 0 <= n) by (unfold n; lia).
  split; [reflexivity |]. split; [reflexivity |].
  split; [apply Z.shiftr_nonneg; exact Hm |].
  split.
  - intros Hpos.
    assert (Hm0 : 0 < m).
    { destruct (Z.eq_dec m 0) as [-> | Hne]; [| lia].
      rewrite Z.shiftr_0_l in Hpos. lia. }
    assert (Hlog : n <= Z.log2 m).
    { destruct (Z.le_gt_cases n (Z.log2 m)) as [H | H]; [exact H |].
      rewrite (Z.shiftr_eq_0 m n) in Hpos by lia. lia. }
    rewrite (Zdigits2_log2 (Z.shiftr m n)) by exact Hpos.
    rewrite Z.log2_shiftr by exact Hm0.
    unfold n in *. rewrite (Zdigits2_log2 m) in * by exact Hm0.
    unfold fexp, emin in *. lia.
  - intros Hz.
    destruct (Z.eq_dec m 0) as [-> | Hne].
    + unfold n in *. cbn [Zdigits2] in *. unfold fexp, emin in *. lia.
    + apply Z.shiftr_eq_0_iff in Hz as [Hz | [Hz Hlog]]; [lia |].
      unfold n in *. rewrite (Zdigits2_log2 m) in * by lia.
      unfold fexp, emin in *. lia.
Qed.

Lemma round_nearest_even_range (m : Z) (l : location) :
  m <= round_nearest_even m l <= m + 1.
Proof.
  unfold round_nearest_even. destruct l as [| []]; try lia.
  destruct (Z.even m); lia.
Qed.

(** The common last step of every operation gives a valid value when the
    mantissa it is given is not too short for the exponent. *)
Lemma binary_round_aux_valid (sx : bool) (mx ex : Z) (lx : location) :
  0 <= mx -> ex <= fexp 24 128 (Zdigits2 mx + ex) ->
  valid (binary_round_aux 24 128 sx mx ex lx) = true.
Proof.
  intros Hmx Hex. unfold binary_round_aux.
  destruct (shr_fexp_spec mx ex lx Hmx Hex) as (_ & _ & Hm1 & Hcan1 & Hz1).
  destruct (shr_fexp 24 128 mx ex lx) as [mrs1 e1]. cbn [fst snd] in *.
  pose proof (round_nearest_even_range (shr_m mrs1) (loc_of_shr_record mrs1)) as Hrne.
  set (m1' := round_nearest_even (shr_m mrs1) (loc_of_shr_record mrs1)) in *.
  assert (Hpre : e1 <= fexp 24 128 (Zdigits2 m1' + e1)).
  { destruct (Z.eq_dec (shr_m mrs1) 0) as [H0 | Hne].
    - rewrite (Hz1 H0). unfold fexp, emin. lia.
    - pose proof (Zdigits2_mono (shr_m mrs1) m1' ltac:(lia)) as Hd.
      specialize (Hcan1 ltac:(lia)). unfold fexp, emin in *. lia. }
  destruct (shr_fexp_spec m1' e1 loc_Exact ltac:(lia) Hpre) as (_ & _ & Hm2 & Hcan2 & _).
  destruct (shr_fexp 24 128 m1' e1 loc_Exact) as [mrs2 e2]. cbn [fst snd] in *.
  destruct (shr_m mrs2) as [| m2 | m2]; [reflexivity | | reflexivity].
  destruct (Z.leb_spec e2 (128 - 24)) as [Hle | Hgt]; [| reflexivity].
  apply valid_finite. specialize (Hcan2 ltac:(lia)). cbn [Zdigits2] in Hcan2.
  unfold fexp, emin in Hcan2. lia.
Qed.

Lemma fmul_valid (x y : float) :
  valid x = true -> valid y = true -> valid (fmul x y) = true.
Proof.
  intros Hx Hy.
  destruct x as [sx | sx | | sx mx ex], y as [sy | sy | | sy my ey]; try reflexivity.
  apply valid_finite in Hx as [Hx _], Hy as [Hy _].
  unfold fmul, SFmul. apply binary_round_aux_valid; [lia |].
  cbn [Zdigits2]. rewrite digits2_log2 in *.
  pose proof (Z.log2_mul_below (Z.pos mx) (Z.pos my) ltac:(lia) ltac:(lia)) as Hlog.
  pose proof (Z.log2_nonneg (Z.pos mx)). pose proof (Z.log2_nonneg (Z.pos my)).
  change (Z.pos (mx * my)) with (Z.pos mx * Z.pos my).
  unfold fexp, emin. lia.
Qed.

Lemma fdiv_valid (x y : float) : valid (fdiv x y) = true.
Proof.
  destruct x as [sx | sx | | sx mx ex], y as [sy | sy | | sy my ey]; try reflexivity.
  unfold fdiv, SFdiv, SFdiv_core_binary.
  set (d1 := Zdigits2 (Z.pos mx)). set (d2 := Zdigits2 (Z.pos my)).
  set (e' := Z.min (fexp 24 128 (d1 + ex - (d2 + ey))) (ex - ey)).
  set (s := ex - ey - e').
  assert (Hs : 0 <= s) by (unfold s, e'; lia).
  set (m' := match s with
             | 0 => Z.pos mx
             | Z.pos _ => Z.shiftl (Z.pos mx) s
             | Z.neg _ => 0
             end).
  assert (Hm' : m' = Z.pos mx * 2 ^ s).
  { unfold m'. destruct s as [| p | p] eqn:Es.
    - rewrite Z.mul_1_r. reflexivity.
    - apply Z.shiftl_mul_pow2. lia.
    - lia. }
  clearbody m'.
  assert (Hq : fst (Z.div_eucl m' (Z.pos my)) = m' / Z.pos my) by reflexivity.
  destruct (Z.div_eucl m' (Z.pos my)) as [q r]. cbn [fst] in Hq.
  assert (H2s : 0 < 2 ^ s) by (apply Z.pow_pos_nonneg; lia).
  assert (Hq0 : 0 <= q).
  { rewrite Hq. apply Z.div_pos; [| lia]. rewrite Hm'. lia. }
  apply binary_round_aux_valid; [exact Hq0 |].
  assert (Hdig : d1 + s - d2 <= Zdigits2 q).
  { destruct (Z.le_gt_cases (d1 + s - d2) 0) as [Hle | Hgt].
    - pose proof (Zdigits2_nonneg q). lia.
    - assert (Hlow : 2 ^ (d1 + s - d2 - 1) <= q).
      { rewrite Hq. apply Z.div_le_lower_bound; [lia |].
        pose proof (digits2_bounds mx) as [Hb1 _].
        pose proof (digits2_bounds my) as [_ Hb2].
        fold (Zdigits2 (Z.pos mx)) in Hb1. fold (Zdigits2 (Z.pos my)) in Hb2.
        fold d1 in Hb1. fold d2 in Hb2.
        assert (Hd1 : 1 <= d1) by (unfold d1; cbn [Zdigits2]; lia).
        assert (Hd2 : 1 <= d2) by (unfold d2; cbn [Zdigits2]; lia).
        assert (Hpow : 2 ^ d2 * 2 ^ (d1 + s - d2 - 1) = 2 ^ (d1 - 1) * 2 ^ s).
        { rewrite <- !Z.pow_add_r by lia. f_equal. lia. }
        assert (Ht : 0 < 2 ^ (d1 + s - d2 - 1)) by (apply Z.pow_pos_nonneg; lia).
        rewrite Hm'. nia. }
      assert (Hq1 : 0 < q) by (assert (0 < 2 ^ (d1 + s - d2 - 1))
                                 by (apply Z.pow_pos_nonneg; lia); lia).
      rewrite (Zdigits2_log2 q) by exact Hq1.
      apply (Z.log2_le_pow2 q (d1 + s - d2 - 1) Hq1) in Hlow. lia. }
  unfold fexp, emin in *. lia.
Qed.

(** *** The loops of [rms_norm_int8] *)

Lemma fget_lookup (a : list float) (i : Z) (v : float) :
  0 <= i -> a !! Z.to_nat i = Some v -> fget a i = v.
Proof.
  intros Hi Hv. unfold fget. destruct (Z.ltb_spec i 0); [lia |].
  apply nth_lookup_Some. exact Hv.
Qed.

Lemma lookup_index {A : Type} (a : list A) (i : Z) :
  0 <= i < Z.of_nat (length a) -> exists v, a !! Z.to_nat i = Some v.
Proof. intros Hi. apply lookup_lt_is_Some_2. lia. Qed.

Lemma mapM_snoc {A B : Type} (f : A -> option B) (l : list A) (a : A) :
  mapM f (l ++ [a])
  = match mapM f l, f a with
    | Some k, Some b => Some (k ++ [b])
    | _, _ => None
    end.
Proof.
  induction l as [| c l IH]; cbn.
  - destruct (f a); reflexivity.
  - destruct (f c); cbn; [| reflexivity].
    change (mapM f (l ++ [a])) with (mapM f (l ++ [a])) in IH.
    rewrite IH. destruct (mapM f l); cbn; [| reflexivity].
    destruct (f a); reflexivity.
Qed.

(** The first loop: the squares summed from the first entry on. *)
Lemma sum_sq_loop (x : list float) :
  for_range 0 (Z.of_nat (length x))
    (fun i sum_sq => fadd sum_sq (fmul (fget x i) (fget x i))) f_0
  = fold_left (fun s xi => fadd s (fmul xi xi)) x f_0.
Proof.
  rewrite <- (firstn_all x) at 2.
  assert (H : forall s,
    s = for_range 0 (Z.of_nat (length x))
          (fun i sum_sq => fadd sum_sq (fmul (fget x i) (fget x i))) f_0 ->
    s = fold_left (fun s xi => fadd s (fmul xi xi))
          (take (Z.to_nat (Z.of_nat (length x))) x) f_0).
  { intros s ->.
    apply (for_range_ind
             (fun j s => s = fold_left (fun s xi => fadd s (fmul xi xi))
                               (take (Z.to_nat j) x) f_0)); [lia | reflexivity |].
    intros j t Hj ->.
    destruct (lookup_index x j Hj) as [v Hv].
    replace (Z.to_nat (j + 1)) with (S (Z.to_nat j)) by lia.
    rewrite (take_S_r _ _ _ Hv), fold_left_app. cbn [fold_left].
    rewrite (fget_lookup x j v) by (lia || exact Hv). reflexivity. }
  rewrite Nat2Z.id in H. apply H. reflexivity.
Qed.

(** The second loop: the normalized values and their largest magnitude. *)
Lemma normalize_loop (x w : list float) (size : Z) (r : float) :
  Z.of_nat (length x) = size -> Z.of_nat (length w) = size ->
  for_range 0 size
    (fun i '(max_abs, normalized) =>
       let normalized :=
         fset normalized i (fmul (fmul (fget x i) r) (fget w i)) in
       let a := fabsf (fget normalized i) in
       (if fgt a max_abs then a else max_abs, normalized))
    (f_0, malloc_floats size)
  = (max_abs (zip_with (fun xi wi => fmul (fmul xi r) wi) x w),
     zip_with (fun xi wi => fmul (fmul xi r) wi) x w).
Proof.
  intros Hx Hw.
  set (N := zip_with (fun xi wi => fmul (fmul xi r) wi) x w).
  assert (HN : length N = Z.to_nat size).
  { unfold N. rewrite length_zip_with. lia. }
  assert (Hinit : length (malloc_floats size) = Z.to_nat size).
  { unfold malloc_floats. apply length_replicate. }
  assert (H : forall st,
    st = for_range 0 size
           (fun i '(max_abs, normalized) =>
              let normalized :=
                fset normalized i (fmul (fmul (fget x i) r) (fget w i)) in
              let a := fabsf (fget normalized i) in
              (if fgt a max_abs then a else max_abs, normalized))
           (f_0, malloc_floats size) ->
    st = (max_abs (take (Z.to_nat size) N),
          take (Z.to_nat size) N ++ drop (Z.to_nat size) (malloc_floats size))).
  { intros st ->.
    apply (for_range_ind
             (fun j st => st = (max_abs (take (Z.to_nat j) N),
                                take (Z.to_nat j) N
                                ++ drop (Z.to_nat j) (malloc_floats size))));
      [lia | reflexivity |].
    intros j [m nb] Hj Hst. injection Hst as -> ->.
    destruct (lookup_index x j ltac:(lia)) as [xj Hxj].
    destruct (lookup_index w j ltac:(lia)) as [wj Hwj].
    destruct (lookup_index (malloc_floats size) j ltac:(lia)) as [c Hc].
    assert (HNj : N !! Z.to_nat j = Some (fmul (fmul xj r) wj)).
    { unfold N. rewrite lookup_zip_with, Hxj. cbn. rewrite Hwj. reflexivity. }
    rewrite (fget_lookup x j xj) by (lia || exact Hxj).
    rewrite (fget_lookup w j wj) by (lia || exact Hwj).
    cbv zeta.
    assert (Hnb : fset (take (Z.to_nat j) N ++ drop (Z.to_nat j) (malloc_floats size)) j
                    (fmul (fmul xj r) wj)
                  = take (Z.to_nat (j + 1)) N
                    ++ drop (Z.to_nat (j + 1)) (malloc_floats size)).
    { unfold fset. destruct (Z.ltb_spec j 0); [lia |].
      replace (Z.to_nat (j + 1)) with (S (Z.to_nat j)) by lia.
      rewrite insert_app_r_alt by (rewrite length_take; lia).
      rewrite length_take, Nat.min_l by lia. rewrite Nat.sub_diag.
      rewrite (drop_S _ _ _ Hc). cbn [insert list_insert].
      rewrite (take_S_r _ _ _ HNj), <- app_assoc. reflexivity. }
    rewrite Hnb.
    assert (Hget : fget (take (Z.to_nat (j + 1)) N
                         ++ drop (Z.to_nat (j + 1)) (malloc_floats size)) j
                   = fmul (fmul xj r) wj).
    { apply fget_lookup; [lia |].
      rewrite lookup_app_l by (rewrite length_take; lia).
      rewrite lookup_take_lt by lia. exact HNj. }
    rewrite Hget. f_equal.
    replace (Z.to_nat (j + 1)) with (S (Z.to_nat j)) by lia.
    rewrite (take_S_r _ _ _ HNj). unfold max_abs. rewrite fold_left_app. reflexivity. }
  rewrite (H _ eq_refl).
  rewrite take_ge by lia. rewrite drop_ge by lia. rewrite app_nil_r. reflexivity.
Qed.

(** The third loop: every scaled value saturated, rounded and stored. *)
Lemma quantize_loop (normalized : list float) (scale_x : float) (size : Z) (out : list Z) :
  Z.of_nat (length normalized) = size -> size <= Z.of_nat (length out) ->
  for_range 0 size
    (fun i out =>
       match out with
       | Some out =>
           let val := fmul (fget normalized i) scale_x in
           match saturate_round val with
           | Some q => Some (aset out i q)
           | None => None
           end
       | None => None
       end)
    (Some out)
  = match mapM saturate_round (map (fun n => fmul n scale_x) normalized) with
    | Some q => Some (q ++ drop (Z.to_nat size) out)
    | None => None
    end.
Proof.
  intros HN Hout.
  set (V := map (fun n => fmul n scale_x) normalized).
  assert (HV : length V = Z.to_nat size).
  { unfold V. rewrite length_map. lia. }
  assert (H : forall st,
    st = for_range 0 size
           (fun i out =>
              match out with
              | Some out =>
                  let val := fmul (fget normalized i) scale_x in
                  match saturate_round val with
                  | Some q => Some (aset out i q)
                  | None => None
                  end
              | None => None
              end)
           (Some out) ->
    st = match mapM saturate_round (take (Z.to_nat size) V) with
         | Some q => Some (q ++ drop (Z.to_nat size) out)
         | None => None
         end).
  { intros st ->.
    apply (for_range_ind
             (fun j st => st = match mapM saturate_round (take (Z.to_nat j) V) with
                               | Some q => Some (q ++ drop (Z.to_nat j) out)
                               | None => None
                               end)); [lia | reflexivity |].
    intros j st Hj ->.
    destruct (lookup_index normalized j ltac:(lia)) as [nj Hnj].
    destruct (lookup_index out j ltac:(lia)) as [c Hc].
    assert (HVj : V !! Z.to_nat j = Some (fmul nj scale_x)).
    { unfold V. rewrite list_lookup_fmap, Hnj. reflexivity. }
    replace (Z.to_nat (j + 1)) with (S (Z.to_nat j)) by lia.
    rewrite (take_S_r _ _ _ HVj), mapM_snoc.
    destruct (mapM saturate_round (take (Z.to_nat j) V)) as [q |] eqn:Hq;
      [| reflexivity].
    rewrite (fget_lookup normalized j nj) by (lia || exact Hnj). cbv zeta.
    destruct (saturate_round (fmul nj scale_x)) as [b |]; [| reflexivity].
    f_equal. apply length_mapM in Hq.
    rewrite length_take in Hq.
    unfold aset. destruct (Z.ltb_spec j 0); [lia |].
    rewrite insert_app_r_alt by lia.
    replace (Z.to_nat j - length q)%nat with O by lia.
    rewrite (drop_S _ _ _ Hc). cbn [insert list_insert].
    rewrite <- app_assoc. reflexivity. }
  rewrite (H _ eq_refl). rewrite take_ge by lia. reflexivity.
Qed.

(** *** Conversion of a positive [int] *)

Lemma pos_iter_xO (p k : positive) :
  Z.pos (Pos.iter xO p k) = Z.pos p * 2 ^ Z.pos k.
Proof.
  induction k as [| k IH] using Pos.peano_ind.
  - cbn [Pos.iter]. lia.
  - rewrite Pos.iter_succ, Pos2Z.inj_succ, Z.pow_succ_r by lia.
    rewrite Pos2Z.inj_xO, IH. lia.
Qed.

Lemma shr_fexp_pos (m e : Z) (l : location) :
  0 < m -> e <= fexp 24 128 (Zdigits2 m + e) -> -149 < Zdigits2 m + e ->
  0 < shr_m (fst (shr_fexp 24 128 m e l)).
Proof.
  intros Hm He Hd.
  destruct (shr_fexp_spec m e l ltac:(lia) He) as (_ & Hshift & Hnn & _).
  destruct (Z.eq_dec (shr_m (fst (shr_fexp 24 128 m e l))) 0) as [Hz | Hne]; [| lia].
  rewrite Hshift in Hz.
  apply Z.shiftr_eq_0_iff in Hz as [Hz | [_ Hlog]]; [lia |].
  rewrite (Zdigits2_log2 m) in * by exact Hm.
  unfold fexp, emin in *. lia.
Qed.

(** A positive mantissa above the underflow threshold is rounded to a
    finite value or an infinity of the given sign. *)
Lemma binary_round_aux_sign (sx : bool) (mx ex : Z) (lx : location) :
  0 < mx -> ex <= fexp 24 128 (Zdigits2 mx + ex) -> -149 < Zdigits2 mx + ex ->
  match binary_round_aux 24 128 sx mx ex lx with
  | S754_finite s _ _ | S754_infinity s => s = sx
  | _ => False
  end.
Proof.
  intros Hmx Hex Hd. unfold binary_round_aux.
  pose proof (shr_fexp_pos mx ex lx Hmx Hex Hd) as Hpos1.
  destruct (shr_fexp_spec mx ex lx ltac:(lia) Hex) as (He1 & _ & _ & Hcan1 & _).
  destruct (shr_fexp 24 128 mx ex lx) as [mrs1 e1]. cbn [fst snd] in *.
  pose proof (round_nearest_even_range (shr_m mrs1) (loc_of_shr_record mrs1)) as Hrne.
  set (m1' := round_nearest_even (shr_m mrs1) (loc_of_shr_record mrs1)) in *.
  specialize (Hcan1 Hpos1).
  pose proof (Zdigits2_mono (shr_m mrs1) m1' ltac:(lia)) as Hdm.
  assert (Hd1 : 1 <= Zdigits2 (shr_m mrs1)).
  { rewrite Zdigits2_log2 by exact Hpos1. pose proof (Z.log2_nonneg (shr_m mrs1)). lia. }
  assert (Hpre : e1 <= fexp 24 128 (Zdigits2 m1' + e1)).
  { unfold fexp, emin in *. lia. }
  assert (Hd' : -149 < Zdigits2 m1' + e1).
  { unfold fexp, emin in *. lia. }
  pose proof (shr_fexp_pos m1' e1 loc_Exact ltac:(lia) Hpre Hd') as Hpos2.
  destruct (shr_fexp 24 128 m1' e1 loc_Exact) as [mrs2 e2]. cbn [fst snd] in *.
  destruct (shr_m mrs2) as [| m2 | m2]; [lia | | lia].
  destruct (e2 <=? 128 - 24); reflexivity.
Qed.

Lemma of_int_positive (n : Z) :
  0 < n ->
  match of_int n with
  | S754_finite s _ _ | S754_infinity s => s = false
  | _ => False
  end.
Proof.
  intros Hn. destruct n as [| p | p]; try lia.
  unfold of_int, binary_normalize, binary_round, shl_align.
  pose proof (digits2_log2 p) as Hlog. pose proof (Z.log2_nonneg (Z.pos p)) as Hl0.
  destruct (fexp 24 128 (Z.pos (digits2_pos p) + 0) - 0) as [| d | d] eqn:Ed.
  - apply binary_round_aux_sign; [lia | |]; cbn [Zdigits2]; unfold fexp, emin in *; lia.
  - apply binary_round_aux_sign; [lia | |]; cbn [Zdigits2]; unfold fexp, emin in *; lia.
  - assert (Hdig : Zdigits2 (Z.pos (Pos.iter xO p d))
                   = Z.pos (digits2_pos p) + Z.pos d).
    { rewrite Zdigits2_log2 by lia. rewrite pos_iter_xO.
      rewrite Z.log2_mul_pow2 by lia. lia. }
    apply binary_round_aux_sign; [lia | |]; rewrite Hdig; unfold fexp, emin in *; lia.
Qed.

(** *** The all-zero vector *)

Lemma sum_sq_zero (x : list float) :
  Forall (fun f => is_zero f = true) x ->
  fold_left (fun s xi => fadd s (fmul xi xi)) x f_0 = f_0.
Proof.
  induction 1 as [| xi x Hxi _ IH]; [reflexivity |].
  cbn [fold_left]. destruct xi as [s | | |]; try discriminate Hxi.
  destruct s; exact IH.
Qed.

Lemma mean_sq_zero (x : list float) :
  x <> [] -> Forall (fun f => is_zero f = true) x -> mean_sq x = f_0.
Proof.
  intros Hne Hx. unfold mean_sq. rewrite (sum_sq_zero x Hx).
  assert (Hlen : 0 < Z.of_nat (length x)) by (destruct x; [congruence | cbn; lia]).
  pose proof (of_int_positive _ Hlen) as Hsign.
  destruct (of_int (Z.of_nat (length x))) as [| s | | s m e];
    try contradiction; subst s; reflexivity.
Qed.

Lemma rms_zero (x : list float) :
  x <> [] -> Forall (fun f => is_zero f = true) x ->
  rms x = S754_finite false 16383999 (-14).
Proof.
  intros Hne Hx. unfold rms. rewrite (mean_sq_zero x Hne Hx).
  vm_compute. reflexivity.
Qed.

Lemma normalized_zero (x w : list float) :
  x <> [] ->
  Forall (fun f => is_zero f = true) x -> Forall (fun f => is_finite f = true) w ->
  Forall (fun f => is_zero f = true) (normalized x w).
Proof.
  intros Hne Hx Hw. unfold normalized. rewrite (rms_zero x Hne Hx).
  apply Forall_lookup_2. intros i v Hv.
  apply lookup_zip_with_Some in Hv as (xi & wi & -> & Hxi & Hwi).
  pose proof (Forall_lookup_1 _ _ _ _ Hx Hxi) as Hz. cbv beta in Hz.
  pose proof (Forall_lookup_1 _ _ _ _ Hw Hwi) as Hf. cbv beta in Hf.
  destruct xi as [s | | |]; try discriminate Hz.
  destruct wi as [sw | | | sw mw ew]; try discriminate Hf; reflexivity.
Qed.

Lemma max_abs_zero (v : list float) :
  Forall (fun f => is_zero f = true) v -> max_abs v = f_0.
Proof.
  unfold max_abs. induction 1 as [| vi v Hvi _ IH]; [reflexivity |].
  cbn [fold_left]. destruct vi as [s | | |]; try discriminate Hvi. exact IH.
Qed.

Lemma scaled_zero (x w : list float) :
  x <> [] ->
  Forall (fun f => is_zero f = true) x -> Forall (fun f => is_finite f = true) w ->
  scale x w = S754_finite false 12700000 0
  /\ mapM quantized (scaled x w) = Some (replicate (length (normalized x w)) 0).
Proof.
  intros Hne Hx Hw.
  pose proof (normalized_zero x w Hne Hx Hw) as HN.
  assert (Hscale : scale x w = S754_finite false 12700000 0).
  { unfold scale. rewrite (max_abs_zero _ HN). vm_compute. reflexivity. }
  split; [exact Hscale |].
  unfold scaled. rewrite Hscale.
  induction HN as [| n N Hn _ IH]; [reflexivity |].
  cbn [map length replicate].
  destruct n as [s | | |]; try discriminate Hn.
  change (mapM quantized (fmul (S754_zero s) (S754_finite false 12700000 0)
                          :: map (fun n => fmul n (S754_finite false 12700000 0)) N))
    with (y ← quantized (fmul (S754_zero s) (S754_finite false 12700000 0));
          k ← mapM quantized (map (fun n => fmul n (S754_finite false 12700000 0)) N);
          Some (y :: k)).
  rewrite IH. reflexivity.
Qed.

(** *** The divisors are never zero *)

Lemma binary_round_aux_nonneg (mx ex : Z) (lx : location) :
  sign_bit (binary_round_aux 24 128 false mx ex lx) = false.
Proof.
  unfold binary_round_aux.
  destruct (shr_fexp 24 128 mx ex lx) as [mrs1 e1].
  destruct (shr_fexp 24 128 _ e1 loc_Exact) as [mrs2 e2].
  destruct (shr_m mrs2); [reflexivity | | reflexivity].
  destruct (e2 <=? 128 - 24); reflexivity.
Qed.

Lemma shl_align_value (m : positive) (e ez : Z) :
  ez <= e ->
  Z.pos (fst (shl_align m e ez)) = Z.pos m * 2 ^ (e - ez)
  /\ snd (shl_align m e ez) = ez.
Proof.
  intros H. unfold shl_align.
  destruct (ez - e) as [| d | d] eqn:Ed; cbn [fst snd].
  - replace (e - ez) with 0 by lia. split; lia.
  - lia.
  - rewrite pos_iter_xO. replace (e - ez) with (Z.pos d) by lia. split; reflexivity.
Qed.

Lemma binary_round_finite (sx : bool) (p : positive) (e : Z) :
  -149 < Z.pos (digits2_pos p) + e ->
  match binary_round 24 128 sx p e with
  | S754_finite s _ _ | S754_infinity s => s = sx
  | _ => False
  end.
Proof.
  intros Hd. unfold binary_round, shl_align.
  pose proof (digits2_log2 p) as Hlog. pose proof (Z.log2_nonneg (Z.pos p)) as Hl0.
  destruct (fexp 24 128 (Z.pos (digits2_pos p) + e) - e) as [| d | d] eqn:Ed.
  - apply binary_round_aux_sign; [lia | |]; cbn [Zdigits2]; unfold fexp, emin in *; lia.
  - apply binary_round_aux_sign; [lia | |]; cbn [Zdigits2]; unfold fexp, emin in *; lia.
  - assert (Hdig : Zdigits2 (Z.pos (Pos.iter xO p d))
                   = Z.pos (digits2_pos p) + Z.pos d).
    { rewrite Zdigits2_log2 by lia. rewrite pos_iter_xO.
      rewrite Z.log2_mul_pow2 by lia. lia. }
    apply binary_round_aux_sign; [lia | |]; rewrite Hdig; unfold fexp, emin in *; lia.
Qed.

Lemma binary_round_valid (sx : bool) (p : positive) (e : Z) :
  valid (binary_round 24 128 sx p e) = true.
Proof.
  unfold binary_round, shl_align.
  pose proof (digits2_log2 p) as Hlog. pose proof (Z.log2_nonneg (Z.pos p)) as Hl0.
  destruct (fexp 24 128 (Z.pos (digits2_pos p) + e) - e) as [| d | d] eqn:Ed.
  - apply binary_round_aux_valid; [lia |]; cbn [Zdigits2]; unfold fexp, emin in *; lia.
  - apply binary_round_aux_valid; [lia |]; cbn [Zdigits2]; unfold fexp, emin in *; lia.
  - assert (Hdig : Zdigits2 (Z.pos (Pos.iter xO p d))
                   = Z.pos (digits2_pos p) + Z.pos d).
    { rewrite Zdigits2_log2 by lia. rewrite pos_iter_xO.
      rewrite Z.log2_mul_pow2 by lia. lia. }
    apply binary_round_aux_valid; [lia |]; rewrite Hdig; unfold fexp, emin in *; lia.
Qed.

Lemma fadd_valid (a b : float) :
  valid a = true -> valid b = true -> valid (fadd a b) = true.
Proof.
  intros Ha Hb.
  destruct a as [sa | sa | | sa ma ea], b as [sb | sb | | sb mb eb];
    try reflexivity; try assumption;
    try (destruct sa, sb; reflexivity).
  unfold fadd, SFadd. cbv zeta. unfold binary_normalize.
  destruct (cond_Zopp sa _ + cond_Zopp sb _) as [| p | p];
    [reflexivity | apply binary_round_valid | apply binary_round_valid].
Qed.

Lemma binary_round_nonneg (p : positive) (e : Z) :
  sign_bit (binary_round 24 128 false p e) = false.
Proof.
  unfold binary_round. destruct (shl_align p e _) as [mz ez].
  apply binary_round_aux_nonneg.
Qed.

Lemma fadd_nonneg (a b : float) :
  sign_bit a = false -> sign_bit b = false -> sign_bit (fadd a b) = false.
Proof.
  intros Ha Hb.
  destruct a as [sa | sa | | sa ma ea], b as [sb | sb | | sb mb eb];
    cbn [sign_bit] in Ha, Hb; subst; try reflexivity.
  unfold fadd, SFadd. cbv zeta. cbn [cond_Zopp]. unfold binary_normalize.
  destruct (Z.pos _ + Z.pos _) as [| p | p] eqn:Ep; try lia.
  apply binary_round_nonneg.
Qed.

(** Adding a positive finite value to a value without sign bit never
    gives a zero. *)
Lemma fadd_positive (a : float) (me : positive) (ee : Z) :
  sign_bit a = false -> -149 < Z.pos (digits2_pos me) + ee ->
  is_zero (fadd a (S754_finite false me ee)) = false.
Proof.
  intros Ha Hd.
  destruct a as [sa | sa | | sa ma ea]; cbn [sign_bit] in Ha; subst; try reflexivity.
  unfold fadd, SFadd. cbv zeta. cbn [cond_Zopp]. unfold binary_normalize.
  destruct (shl_align_value ma ea (Z.min ea ee) ltac:(lia)) as [Hva _].
  destruct (shl_align_value me ee (Z.min ea ee) ltac:(lia)) as [Hve _].
  destruct (Z.pos _ + Z.pos _) as [| p | p] eqn:Ep; try lia.
  rewrite Hva, Hve in Ep.
  assert (Hp : -149 < Z.pos (digits2_pos p) + Z.min ea ee).
  { rewrite digits2_log2 in *.
    assert (H2a : 0 < 2 ^ (ea - Z.min ea ee)) by (apply Z.pow_pos_nonneg; lia).
    assert (Hle : Z.pos me * 2 ^ (ee - Z.min ea ee) <= Z.pos p) by nia.
    apply Z.log2_le_mono in Hle.
    rewrite Z.log2_mul_pow2 in Hle by lia. lia. }
  pose proof (binary_round_finite false p (Z.min ea ee) Hp) as Hfin.
  destruct (binary_round 24 128 false p (Z.min ea ee)); first [contradiction | reflexivity].
Qed.

Lemma fmul_square_nonneg (a : float) : sign_bit (fmul a a) = false.
Proof.
  destruct a as [s | s | | s m e]; try (destruct s; reflexivity); try reflexivity.
  unfold fmul, SFmul. rewrite xorb_nilpotent. apply binary_round_aux_nonneg.
Qed.

Lemma sum_sq_nonneg (x : list float) (s0 : float) :
  sign_bit s0 = false ->
  sign_bit (fold_left (fun s xi => fadd s (fmul xi xi)) x s0) = false.
Proof.
  revert s0. induction x as [| xi x IH]; intros s0 Hs0; [exact Hs0 |].
  cbn [fold_left]. apply IH. apply fadd_nonneg; [exact Hs0 | apply fmul_square_nonneg].
Qed.

Lemma fdiv_nonneg (a b : float) :
  sign_bit a = false -> sign_bit b = false -> sign_bit (fdiv a b) = false.
Proof.
  intros Ha Hb.
  destruct a as [sa | sa | | sa ma ea], b as [sb | sb | | sb mb eb];
    cbn [sign_bit] in Ha, Hb; subst; try reflexivity.
  unfold fdiv, SFdiv.
  destruct (SFdiv_core_binary 24 128 (Z.pos ma) ea (Z.pos mb) eb) as [[mz ez] lz].
  apply binary_round_aux_nonneg.
Qed.

Lemma of_int_nonneg (n : Z) : 0 <= n -> sign_bit (of_int n) = false.
Proof.
  intros Hn. destruct n as [| p | p]; [reflexivity | | lia].
  apply binary_round_nonneg.
Qed.

Lemma mean_sq_nonneg (x : list float) : sign_bit (mean_sq x) = false.
Proof.
  unfold mean_sq. apply fdiv_nonneg.
  - apply sum_sq_nonneg. reflexivity.
  - apply of_int_nonneg. lia.
Qed.

Lemma max_abs_nonneg (v : list float) : sign_bit (max_abs v) = false.
Proof.
  unfold max_abs.
  assert (H : forall m, sign_bit m = false ->
            sign_bit (fold_left (fun m vi => if fgt (fabsf vi) m then fabsf vi else m) v m)
            = false).
  { induction v as [| vi v IH]; intros m Hm; [exact Hm |].
    cbn [fold_left]. apply IH.
    destruct (fgt (fabsf vi) m); [| exact Hm].
    destruct vi; reflexivity. }
  apply H. reflexivity.
Qed.

(** The square root of a non-zero value is not zero. *)
Lemma sqrtf_nonzero (v : float) :
  valid v = true -> is_zero v = false -> is_zero (sqrtf v) = false.
Proof.
  intros Hv Hz.
  destruct v as [s | s | | s m e]; try discriminate Hz;
    try (destruct s; reflexivity); try reflexivity.
  destruct s; [reflexivity |].
  apply valid_finite in Hv as [Hcan He].
  unfold sqrtf, SFsqrt, SFsqrt_core_binary.
  set (d := Zdigits2 (Z.pos m)).
  set (e' := Z.min (fexp 24 128 (Z.div2 (d + e + 1))) (Z.div2 e)).
  set (s := e - 2 * e').
  assert (Hdiv2 : forall a, 2 * Z.div2 a <= a <= 2 * Z.div2 a + 1).
  { intros a. rewrite Z.div2_div. pose proof (Z.mod_pos_bound a 2 ltac:(lia)).
    pose proof (Z.div_mod a 2 ltac:(lia)). lia. }
  assert (Hs : 0 <= s).
  { unfold s, e'. pose proof (Hdiv2 e). lia. }
  set (m' := match s with
             | 0 => Z.pos m
             | Z.pos _ => Z.shiftl (Z.pos m) s
             | Z.neg _ => 0
             end).
  assert (Hm' : m' = Z.pos m * 2 ^ s).
  { unfold m'. destruct s as [| p | p] eqn:Es.
    - rewrite Z.mul_1_r. reflexivity.
    - apply Z.shiftl_mul_pow2. lia.
    - lia. }
  clearbody m'.
  assert (Hq : fst (Z.sqrtrem m') = Z.sqrt m') by apply Z.sqrtrem_sqrt.
  destruct (Z.sqrtrem m') as [q r]. cbn [fst] in Hq.
  assert (H2s : 0 < 2 ^ s) by (apply Z.pow_pos_nonneg; lia).
  assert (Hq0 : 0 < q).
  { rewrite Hq. apply Z.sqrt_pos. rewrite Hm'. lia. }
  assert (Hd1 : 1 <= d) by (unfold d; cbn [Zdigits2]; lia).
  pose proof (digits2_bounds m) as [Hb1 _].
  fold (Zdigits2 (Z.pos m)) in Hb1. fold d in Hb1.
  assert (Hdig : Z.div2 (d + e + 1) - e' <= Zdigits2 q).
  { rewrite (Zdigits2_log2 q) by exact Hq0.
    set (k := Z.div2 (d + s - 1)).
    assert (Hk : 0 <= k).
    { unfold k. pose proof (Hdiv2 (d + s - 1)). lia. }
    assert (Hk2 : 2 * k <= d + s - 1) by (unfold k; pose proof (Hdiv2 (d + s - 1)); lia).
    assert (Hlow : 2 ^ k <= q).
    { rewrite Hq. rewrite <- (Z.sqrt_square (2 ^ k)) by (apply Z.pow_nonneg; lia).
      apply Z.sqrt_le_mono. rewrite <- Z.pow_add_r by lia. rewrite Hm'.
      apply Z.le_trans with (2 ^ (d - 1) * 2 ^ s); [| nia].
      rewrite <- Z.pow_add_r by lia. apply Z.pow_le_mono_r; lia. }
    apply (Z.log2_le_pow2 q k Hq0) in Hlow.
    assert (Z.div2 (d + e + 1) - e' <= k + 1).
    { unfold k, s. pose proof (Hdiv2 (d + e + 1)). pose proof (Hdiv2 (d + (e - 2 * e') - 1)).
      lia. }
    lia. }
  assert (Hde : -149 < d + e).
  { unfold d. cbn [Zdigits2]. lia. }
  pose proof (Hdiv2 (d + e + 1)) as Hh.
  pose proof (binary_round_aux_sign false q e'
                (if r =? 0 then loc_Exact else loc_Inexact (if r <=? q then Lt else Gt))
                Hq0) as Hsign.
  destruct (binary_round_aux 24 128 false q e' _);
    first [reflexivity | exfalso; apply Hsign; unfold fexp, emin in *; lia].
Qed.

(** *** The quantizer *)

Lemma scaled_valid (x w : list float) :
  Forall (fun f => valid f = true) x -> Forall (fun f => valid f = true) w ->
  Forall (fun v => valid v = true) (scaled x w).
Proof.
  intros Hx Hw. unfold scaled, normalized.
  apply Forall_lookup_2. intros i v Hv.
  rewrite list_lookup_fmap in Hv.
  destruct (zip_with (fun xi wi => fmul (fmul xi (rms x)) wi) x w !! i) as [n |] eqn:Hn;
    [| discriminate Hv].
  injection Hv as <-.
  apply lookup_zip_with_Some in Hn as (xi & wi & -> & Hxi & Hwi).
  pose proof (Forall_lookup_1 _ _ _ _ Hx Hxi) as Hvx. cbv beta in Hvx.
  pose proof (Forall_lookup_1 _ _ _ _ Hw Hwi) as Hvw. cbv beta in Hvw.
  apply fmul_valid; [apply fmul_valid; [apply fmul_valid |] |].
  - exact Hvx.
  - apply fdiv_valid.
  - exact Hvw.
  - apply fdiv_valid.
Qed.

Lemma quantized_int8 (v : float) (q : Z) : quantized v = Some q -> -128 <= q <= 127.
Proof.
  destruct v as [s | s | | s m e]; cbn [quantized]; intros H;
    try discriminate H; injection H as <-.
  - lia.
  - destruct s; lia.
  - unfold clamp. lia.
Qed.

Lemma quantized_nan (v : float) : quantized v = None <-> v = S754_nan.
Proof.
  destruct v as [s | s | | s m e]; cbn [quantized]; split; intros H;
    first [discriminate H | reflexivity].
Qed.

Lemma rms_norm_int8_eq (x w : list float) (size : Z) (out : list Z) :
  Z.of_nat (length x) = size -> Z.of_nat (length w) = size ->
  size <= Z.of_nat (length out) ->
  Forall (fun f => valid f = true) x -> Forall (fun f => valid f = true) w ->
  rms_norm_int8 x w size out
  = match mapM quantized (scaled x w) with
    | Some q => Some (scale x w, q ++ drop (Z.to_nat size) out)
    | None => None
    end.
Proof.
  intros Hx Hw Hout Hvx Hvw. subst size.
  unfold rms_norm_int8. cbv zeta.
  rewrite sum_sq_loop.
  fold (mean_sq x). fold (rms x).
  pose proof (normalize_loop x w _ (rms x) eq_refl Hw) as Hloop2.
  cbv zeta in Hloop2. rewrite Hloop2. clear Hloop2.
  fold (normalized x w). fold (scale x w).
  assert (HN : Z.of_nat (length (normalized x w)) = Z.of_nat (length x)).
  { unfold normalized. rewrite length_zip_with. lia. }
  pose proof (quantize_loop (normalized x w) (scale x w) _ out HN Hout) as Hloop3.
  cbv zeta in Hloop3. rewrite Hloop3. clear Hloop3.
  fold (scaled x w).
  rewrite (Forall_mapM_ext saturate_round quantized (scaled x w)).
  - destruct (mapM quantized (scaled x w)); reflexivity.
  - eapply Forall_impl; [apply (scaled_valid x w Hvx Hvw) |].
    intros v Hv. apply saturate_round_spec. exact Hv.
Qed.

(** C7 as stated fails for finite inputs too: with x = (1, 0, 0, 0) and
    the weights (FLT_MAX, 1, 1, 1), every entry a finite [float],
    normalized_0 = 1 * rms * FLT_MAX overflows to +infinity, so that
    scale = 127 / (infinity + 1e-5) is 0 and normalized_0 * scale is NaN:
    clamp(round(NaN)) is no [int8_t] value, and the conversion
    [(int8_t)roundf(val)] of the code is undefined. *)
Lemma rms_norm_int8_overflow_counterexample :
  forallb (fun f => valid f && is_finite f) (overflow_x ++ overflow_w) = true
  /\ normalized overflow_x overflow_w = [S754_infinity false; f_0; f_0; f_0]
  /\ scale overflow_x overflow_w = f_0
  /\ scaled overflow_x overflow_w = [S754_nan; f_0; f_0; f_0]
  /\ mapM quantized (scaled overflow_x overflow_w) = None
  /\ rms_norm_int8 overflow_x overflow_w 4 [0; 0; 0; 0] = None.
Proof. repeat split; vm_compute; reflexivity. Qed.

(** C7, as the code has it.  In binary32 arithmetic, for vectors x and w
    of [size] values a [float] can hold, [rms_norm_int8] computes
    rms = 1 / sqrt(mean(x_i^2) + 1e-6), normalized_i = x_i * rms * w_i and
    scale = 127 / (max_i |normalized_i| + 1e-5).  When no
    normalized_i * scale is NaN it returns scale and stores
    clamp(round(normalized_i * scale), -128, 127), a value of [int8_t], in
    the first [size] entries of [out], leaving the others as they were;
    when some normalized_i * scale is NaN the conversion to [int8_t] is
    undefined.  No divisor is a zero: neither sqrt(mean(x_i^2) + 1e-6)
    nor max_i |normalized_i| + 1e-5, nor [size] when it is at least 1.
    For the all-zero vector (size >= 1) with finite weights
    rms = 1 / sqrt(1e-6), scale = 127 / 1e-5 and every output is 0. *)
Theorem rms_norm_int8_quantizes (x w : list float) (size : Z) (out : list Z) :
  0 <= size < 2 ^ 30 ->
  Z.of_nat (length x) = size -> Z.of_nat (length w) = size ->
  size <= Z.of_nat (length out) ->
  Forall (fun f => valid f = true) x -> Forall (fun f => valid f = true) w ->
  rms_norm_int8 x w size out
  = match mapM quantized (scaled x w) with
    | Some q => Some (scale x w, q ++ drop (Z.to_nat size) out)
    | None => None
    end
  /\ (forall q, mapM quantized (scaled x w) = Some q ->
        length q = Z.to_nat size /\ Forall (fun z => -128 <= z <= 127) q)
  /\ (mapM quantized (scaled x w) = None <-> In S754_nan (scaled x w))
  /\ (is_zero (sqrtf (fadd (mean_sq x) f_1e_6)) = false
      /\ is_zero (fadd (max_abs (normalized x w)) f_1e_5) = false
      /\ (1 <= size -> is_zero (of_int size) = false))
  /\ (1 <= size ->
      Forall (fun f => is_zero f = true) x ->
      Forall (fun f => is_finite f = true) w ->
      rms x = S754_finite false 16383999 (-14)
      /\ rms_norm_int8 x w size out
         = Some (S754_finite false 12700000 0,
                 replicate (Z.to_nat size) 0 ++ drop (Z.to_nat size) out)).
Proof.
  intros Hsize Hx Hw Hout Hvx Hvw.
  pose proof (rms_norm_int8_eq x w size out Hx Hw Hout Hvx Hvw) as Heq.
  assert (Hlen : length (scaled x w) = Z.to_nat size).
  { unfold scaled, normalized. rewrite length_map, length_zip_with. lia. }
  split; [exact Heq |]. split; [| split; [| split]].
  - intros q Hq. split.
    + rewrite <- (length_mapM _ _ _ Hq). exact Hlen.
    + apply mapM_Some_1 in Hq. clear - Hq.
      induction Hq as [| v z l k Hvz _ IH]; [apply Forall_nil_2 |].
      apply Forall_cons. split; [exact (quantized_int8 v z Hvz) | exact IH].
  - rewrite mapM_None. rewrite Exists_exists. split.
    + intros (v & Hin & Hv). apply quantized_nan in Hv. subst v.
      apply list_elem_of_In. exact Hin.
    + intros Hin. exists S754_nan. split; [apply list_elem_of_In; exact Hin | reflexivity].
  - split; [| split].
    + apply sqrtf_nonzero.
      * apply fadd_valid; [apply fdiv_valid | reflexivity].
      * apply fadd_positive; [apply mean_sq_nonneg | reflexivity].
    + apply fadd_positive; [apply max_abs_nonneg | reflexivity].
    + intros H1. pose proof (of_int_positive size ltac:(lia)) as Hpos.
      destruct (of_int size); first [contradiction | reflexivity].
  - intros H1 Hzero Hfin.
    assert (Hne : x <> []).
    { intros Hnil. rewrite Hnil in Hx. cbn [length] in Hx. lia. }
    split; [exact (rms_zero x Hne Hzero) |].
    destruct (scaled_zero x w Hne Hzero Hfin) as [Hscale Hq].
    assert (HlenN : length (normalized x w) = Z.to_nat size).
    { unfold normalized. rewrite length_zip_with. lia. }
    rewrite HlenN in Hq. rewrite Heq, Hq, Hscale. reflexivity.
Qed.

Lemma rms_norm_int8_quantizes_witness :
  rms_norm_int8 sample_x sample_w 4 [9; 9; 9; 9; 9]
  = Some (S754_finite false 10380631 (-17), [127; -85; 42; 0; 9]).
Proof.
  destruct (rms_norm_int8_quantizes sample_x sample_w 4 [9; 9; 9; 9; 9]) as [Heq _].
  - lia.
  - reflexivity.
  - reflexivity.
  - cbn. lia.
  - repeat (apply Forall_cons; split; [vm_compute; reflexivity |]). apply Forall_nil_2.
  - repeat (apply Forall_cons; split; [vm_compute; reflexivity |]). apply Forall_nil_2.
  - rewrite Heq. vm_compute. reflexivity.
Defined.

End QuantFacts.

(** * Further properties of the code *)

(** ** Reference rows of a matrix, ReLU *)

Module MatvecFacts.








(** X2. [relu_int8] on the first [n] entries of a buffer replaces each
    negative entry by 0 and keeps the others; entries from [n] on and the
    length are untouched; a second pass changes nothing. *)
Theorem relu_int8_spec (buf : list Z) (n : Z) :
  0 <= n <= Z.of_nat (length buf) ->
  length (relu_int8 buf n) = length buf
  /\ (forall i, 0 <= i < n -> aget (relu_int8 buf n) i = Z.max 0 (aget buf i))
  /\ (forall i, n <= i -> aget (relu_int8 buf n) i = aget buf i)
  /\ relu_int8 (relu_int8 buf n) n = relu_int8 buf n.
Proof.
  intros Hn.
  assert (Hspec : forall b : list Z,
            0 <= n <= Z.of_nat (length b) ->
            length (relu_int8 b n) = length b
            /\ (forall i, 0 <= i < n -> aget (relu_int8 b n) i = Z.max 0 (aget b i))
            /\ (forall i, n <= i -> aget (relu_int8 b n) i = aget b i)).
  { intros b Hb. unfold relu_int8.
    apply for_range_ind
      with (P := fun k out =>
                   length out = length b
                   /\ (forall i, 0 <= i < k -> aget out i = Z.max 0 (aget b i))
                   /\ (forall i, k <= i -> aget out i = aget b i)); [lia | |].
    - repeat split; try reflexivity. intros i Hi. lia.
    - intros k out Hk (Hl & Hlow & Hhigh).
      pose proof (Hhigh k ltac:(lia)) as Hcur.
      destruct (Z.ltb_spec (aget out k) 0) as [Hneg | Hpos].
      + split; [rewrite length_aset; exact Hl |]. split.
        * intros i Hi. destruct (Z.eq_dec i k) as [-> | Hne].
          -- rewrite aget_aset_eq by lia. lia.
          -- rewrite aget_aset_ne by lia. apply Hlow. lia.
        * intros i Hi. rewrite aget_aset_ne by lia. apply Hhigh. lia.
      + split; [exact Hl |]. split.
        * intros i Hi. destruct (Z.eq_dec i k) as [-> | Hne]; [lia |].
          apply Hlow. lia.
        * intros i Hi. apply Hhigh. lia. }
  destruct (Hspec buf Hn) as (Hl & Hlow & Hhigh).
  split; [exact Hl |]. split; [exact Hlow |]. split; [exact Hhigh |].
  destruct (Hspec (relu_int8 buf n) ltac:(rewrite Hl; exact Hn)) as (Hl2 & Hlow2 & Hhigh2).
  apply DriverSpec.list_eq_aget; [exact Hl2 |].
  intros j Hj. destruct (Z.lt_ge_cases j n) as [Hin | Hout].
  - rewrite Hlow2 by lia. rewrite Hlow by lia. lia.
  - apply Hhigh2. lia.
Qed.

Lemma relu_int8_spec_witness :
  aget (relu_int8 [5; -7; 0; -128; 127] 4) 1 = Z.max 0 (aget [5; -7; 0; -128; 127] 1).
Proof.
  refine (proj1 (proj2 (relu_int8_spec [5; -7; 0; -128; 127] 4 _)) 1 _).
  - vm_compute. split; discriminate.
  - lia.
Defined.

End MatvecFacts.

(** ** The driver: polling, launches *)

Module DriverExtras.

Import Fpga Tiling FpgaFacts DriverFacts TileLoop DriverSpec.

(** The reads of STATUS one wait makes. *)
Lemma wait_loop_polls (hw : accelerator) (fuel : nat) :
  forall (timeout_us : Z) (d : fpga),
    (Z.to_nat ((timeout_us + 9) / 10) <= fuel)%nat ->
    timeout_us < 2 ^ 31 ->
    (polls d <= polls (snd (wait_loop hw fuel timeout_us d))
     <= polls d + Z.to_nat ((timeout_us + 9) / 10))%nat.
Proof.
  induction fuel as [|fuel IH]; intros t d Hfuel Ht.
  - simpl wait_loop. cbn [snd]. lia.
  - simpl wait_loop. destruct (Z.gtb_spec t 0) as [Hpos | Hneg]; [| cbn [snd]; lia].
    assert (Hdiv : (t + 9) / 10 = (t - 10 + 9) / 10 + 1).
    { replace (t + 9) with (t - 10 + 9 + 1 * 10) by lia.
      rewrite Z.div_add by lia. reflexivity. }
    assert (Hnn : 0 <= (t - 10 + 9) / 10) by (apply Z.div_pos; lia).
    unfold fpga_reg_read. cbv zeta.
    change (to_uint32 REG_STATUS / 4 =? REG_STATUS / 4) with true. cbv iota.
    destruct (Z.land (hw_status hw (length (runs d)) (polls d)) 2 =? 0).
    + unfold sub32.
      rewrite (to_int32_id (t - 10)) by (change (2 ^ 31) with 2147483648 in Ht; int_range).
      specialize (IH (t - 10)
        {| regs := regs d; runs := runs d; polls := Datatypes.S (polls d) |}
        ltac:(lia) ltac:(lia)).
      cbn [polls] in IH. lia.
    + cbn [snd polls]. lia.
Qed.

(** X3. [fpga_wait_done] with a time-out of [t] microseconds reads STATUS
    at most [ceil (t / 10)] times; it returns 0 exactly when one of these
    reads shows bit 1 set and -1 otherwise; it writes no register and
    launches nothing; with [t <= 0] it returns -1 without a read. *)
Theorem fpga_wait_done_bounded (hw : accelerator) (t : Z) (d : fpga) :
  t < 2 ^ 31 ->
  regs (snd (fpga_wait_done hw t d)) = regs d
  /\ runs (snd (fpga_wait_done hw t d)) = runs d
  /\ (fst (fpga_wait_done hw t d) = 0
      <-> exists p, (p < Z.to_nat ((t + 9) / 10))%nat
                    /\ Z.land (hw_status hw (length (runs d)) (polls d + p)) 2 <> 0)
  /\ (fst (fpga_wait_done hw t d) <> 0 -> fst (fpga_wait_done hw t d) = -1)
  /\ (polls d <= polls (snd (fpga_wait_done hw t d))
      <= polls d + Z.to_nat ((t + 9) / 10))%nat
  /\ (t <= 0 -> fpga_wait_done hw t d = (-1, d)).
Proof.
  intros Ht.
  assert (Hfuel : (Z.to_nat ((t + 9) / 10) <= Z.to_nat t)%nat).
  { destruct (Z.le_gt_cases t 0) as [Hneg | Hpos].
    - assert ((t + 9) / 10 <= 0).
      { apply Z.lt_succ_r. apply Z.div_lt_upper_bound; lia. }
      lia.
    - assert ((t + 9) / 10 <= t).
      { apply Z.lt_succ_r. apply Z.div_lt_upper_bound; lia. }
      lia. }
  unfold fpga_wait_done.
  destruct (wait_loop_spec hw (Z.to_nat t) t d Hfuel Ht) as (Hr & Hn & Hrc).
  split; [exact Hr |]. split; [exact Hn |].
  split; [| split; [| split]].
  - rewrite Hrc.
    destruct (existsb _ (seq (polls d) (Z.to_nat ((t + 9) / 10)))) eqn:Hex.
    + split; [intros _ | reflexivity].
      apply existsb_exists in Hex. destruct Hex as (q & Hin & Hq).
      apply in_seq in Hin. exists (q - polls d)%nat. split; [lia |].
      replace (polls d + (q - polls d))%nat with q by lia.
      apply negb_true_iff in Hq. apply Z.eqb_neq in Hq. exact Hq.
    + split; [discriminate |]. intros (p & Hp & Hbit). exfalso.
      assert (Hnone : existsb
                        (fun p0 => negb (Z.land (hw_status hw (length (runs d)) p0) 2 =? 0))
                        (seq (polls d) (Z.to_nat ((t + 9) / 10))) = true).
      { apply existsb_exists. exists (polls d + p)%nat. split.
        - apply in_seq. lia.
        - apply negb_true_iff. apply Z.eqb_neq. exact Hbit. }
      congruence.
  - rewrite Hrc. destruct (existsb _ _); [intros H; contradiction | reflexivity].
  - apply wait_loop_polls; assumption.
  - intros Hneg. destruct (Z.to_nat t) as [|n]; [reflexivity |].
    simpl wait_loop. destruct (Z.gtb_spec t 0); [lia | reflexivity].
Qed.

Lemma fpga_wait_done_bounded_witness :
  fst (fpga_wait_done (demo_hw_late 1) 25 demo_bank) = 0
  /\ regs (snd (fpga_wait_done (demo_hw_late 1) 25 demo_bank)) = regs demo_bank
  /\ runs (snd (fpga_wait_done (demo_hw_late 1) 25 demo_bank)) = runs demo_bank
  /\ (polls demo_bank <= polls (snd (fpga_wait_done (demo_hw_late 1) 25 demo_bank))
      <= polls demo_bank + Z.to_nat ((25 + 9) / 10))%nat.
Proof.
  destruct (fpga_wait_done_bounded (demo_hw_late 1) 25 demo_bank)
    as (Hregs & Hruns & Hdone & _ & Hpolls & _).
  - reflexivity.
  - split; [| split; [exact Hregs | split; [exact Hruns | exact Hpolls]]].
    apply Hdone. exists 1%nat. split.
    + change (Z.to_nat ((25 + 9) / 10)) with 3%nat. lia.
    + vm_compute. discriminate.
Defined.

(** The read-back loop never touches the register bank. *)
Lemma read_back_dev (hw : accelerator) (start n : Z) (res0 : list Z) (d : fpga) :
  n <= 2 ^ 16 ->
  snd (for_range 0 n
         (fun i '(res, d) =>
            let '(v, d) := fpga_reg_read hw (add32 REG_RES_BASE (mul32 i 4)) d in
            (aset res (add32 start i) (to_int32 v), d))
         (res0, d)) = d.
Proof.
  intros Hn.
  destruct (Z.le_gt_cases 0 n) as [Hpos | Hneg];
    [| rewrite for_range_empty by lia; reflexivity].
  apply for_range_ind with (P := fun _ (out : list Z * fpga) => snd out = d);
    [lia | reflexivity |].
  intros k [res d'] Hk Hd. cbn [snd] in Hd. subst d'.
  rewrite reg_read_result by lia. reflexivity.
Qed.

(** The registers one turn of the tile loop leaves, and the run it adds. *)
Lemma chunk_step_dev (hw : accelerator) (weight_base M stride rows_done : Z) (s : driver) :
  exists b m,
    regs (dev (chunk_step hw weight_base M stride rows_done s))
    = <[0 := 1]> (<[REG_DIM_M / 4 := m]> (<[REG_WEIGHT_BASE / 4 := b]> (regs (dev s))))
    /\ runs (dev (chunk_step hw weight_base M stride rows_done s))
       = runs (dev s)
         ++ [<[0 := 1]> (<[REG_DIM_M / 4 := m]> (<[REG_WEIGHT_BASE / 4 := b]> (regs (dev s))))].
Proof.
  unfold chunk_step. cbv zeta.
  set (tile_m := if sub32 M rows_done >? FPGA_MAX_DIM_M then FPGA_MAX_DIM_M
                 else sub32 M rows_done).
  assert (Htm : tile_m <= 2 ^ 16).
  { unfold tile_m, FPGA_MAX_DIM_M. change (2 ^ 16) with 65536.
    destruct (Z.gtb_spec (sub32 M rows_done) 1024); lia. }
  exists (addu32 weight_base (mulu32 (to_uint32 rows_done) (to_uint32 stride))),
         (to_uint32 tile_m).
  rewrite (reg_write_plain REG_WEIGHT_BASE) by (unfold REG_WEIGHT_BASE; lia).
  rewrite (reg_write_plain REG_DIM_M) by (unfold REG_DIM_M; lia).
  rewrite reg_write_start. cbn [regs runs polls].
  match goal with
  | |- context [fpga_wait_done hw 1000000 ?d3] =>
      destruct (wait_done_spec hw d3 eq_refl) as (Hregs & Hruns & _);
      destruct (fpga_wait_done hw 1000000 d3) as [rc d4]
  end.
  cbn [fst snd regs runs] in Hregs, Hruns.
  destruct (rc <? 0).
  - cbn [dev]. split; assumption.
  - pose proof (read_back_dev hw rows_done tile_m (results s) d4 Htm) as Hback.
    destruct (for_range 0 tile_m _ (results s, d4)) as [res d5].
    cbn [snd] in Hback. subst d5. cbn [dev]. split; assumption.
Qed.

(** Every run the tile loop launches is launched on configured registers. *)
Lemma tile_loop_launches (hw : accelerator) (activations : list Z)
    (K weight_base M stride : Z) (fuel : nat) :
  0 <= K ->
  forall (rows_done : Z) (s : driver),
    configured activations K (regs (dev s)) ->
    exists new,
      runs (dev (tile_loop hw fuel weight_base M stride rows_done s))
      = runs (dev s) ++ new
      /\ Forall (configured activations K) new.
Proof.
  intros HK. induction fuel as [|fuel IH]; intros rows_done s Hcfg.
  - exists []. cbn [tile_loop]. rewrite app_nil_r. split; [reflexivity | constructor].
  - rewrite tile_loop_unfold. destruct (rows_done <? M).
    + destruct (chunk_step_dev hw weight_base M stride rows_done s)
        as (b & m & Hregs & Hruns).
      assert (Hcfg' : configured activations K
                        (<[0 := 1]> (<[REG_DIM_M / 4 := m]>
                           (<[REG_WEIGHT_BASE / 4 := b]> (regs (dev s)))))).
      { apply configured_launch; assumption. }
      destruct (IH (add32 rows_done
                      (if sub32 M rows_done >? FPGA_MAX_DIM_M then FPGA_MAX_DIM_M
                       else sub32 M rows_done))
                  (chunk_step hw weight_base M stride rows_done s))
        as (new & Hnew & Hall).
      { rewrite Hregs. exact Hcfg'. }
      eexists. split.
      * rewrite Hnew, Hruns, <- app_assoc. reflexivity.
      * cbn [app]. constructor; assumption.
    + exists []. rewrite app_nil_r. split; [reflexivity | constructor].
Qed.

(** X4. The activations are written once and persist: every run that a
    call of [fpga_bitlinear] launches, whatever the number of chunks and
    whether earlier chunks timed out, is latched with DIM_K = K,
    SHIFT_AMT = 0 and the activation buffer holding the K activations as
    unsigned bytes. *)
Theorem activations_persist (hw : accelerator) (activations : list Z)
    (K weight_base M stride : Z) (s : driver) :
  0 <= K <= FPGA_MAX_DIM_K ->
  exists new,
    runs (dev (fpga_bitlinear hw activations K weight_base M stride s))
    = runs (dev s) ++ new
    /\ Forall (fun cfg =>
                 reg_of cfg REG_DIM_K = K
                 /\ reg_of cfg REG_SHIFT_AMT = 0
                 /\ act_buffer cfg K = map (fun i => to_uint8 (aget activations i)) (seqZ 0 K))
         new.
Proof.
  intros HK. unfold fpga_bitlinear. cbv zeta.
  destruct (setup_configured activations K (dev s) HK) as (Hruns & Hcfg).
  cbv zeta in Hruns, Hcfg.
  set (d := fpga_reg_write REG_SHIFT_AMT 0 _) in *.
  destruct (tile_loop_launches hw activations K weight_base M stride (Z.to_nat M)
              ltac:(lia) 0 {| dev := d; results := results s; stderr := stderr s |} Hcfg)
    as (new & Hnew & Hall).
  cbn [dev] in Hnew. exists new. split; [rewrite Hnew, Hruns; reflexivity |].
  eapply Forall_impl; [exact Hall |].
  intros cfg Hc. pose proof (act_buffer_loaded _ _ _ Hc) as Hbuf.
  destruct Hc as (Hk & Hs & _).
  unfold FPGA_MAX_DIM_K in HK.
  rewrite to_uint32_id in Hk by int_range.
  split; [exact Hk |]. split; [exact Hs | exact Hbuf].
Qed.

Lemma activations_persist_witness :
  exists new,
    runs (dev (fpga_bitlinear (demo_hw [1%nat]) demo_acts 128 0x30000000 1030 32
                 (demo_start 1030)))
    = runs (dev (demo_start 1030)) ++ new
    /\ Forall (fun cfg =>
                 reg_of cfg REG_DIM_K = 128
                 /\ reg_of cfg REG_SHIFT_AMT = 0
                 /\ act_buffer cfg 128 = map (fun i => to_uint8 (aget demo_acts i)) (seqZ 0 128))
         new.
Proof.
  apply (activations_persist (demo_hw [1%nat]) demo_acts 128 0x30000000 1030 32
           (demo_start 1030)).
  vm_compute. split; discriminate.
Defined.

Lemma chunk_rows_sum (M : Z) (n : nat) :
  0 <= M ->
  forall c, 0 <= c -> Z.to_nat (num_chunks M - c) = n ->
    fold_right Z.add 0 (map (chunk_rows M) (starts_from M c))
    = M - Z.min (c * FPGA_MAX_DIM_M) M
    /\ Forall (fun r => 1 <= chunk_rows M r <= FPGA_MAX_DIM_M) (starts_from M c)
    /\ length (starts_from M c) = n.
Proof.
  intros HM. induction n as [|n IH]; intros c Hc Hn.
  - pose proof (num_chunks_bound M c HM Hc) as Hb.
    rewrite starts_from_nil by lia. cbn. split; [lia |]. split; [constructor | reflexivity].
  - pose proof (num_chunks_bound M c HM Hc) as Hb.
    assert (Hlt : c < num_chunks M) by lia.
    rewrite (starts_from_cons M c Hlt). cbn [map fold_right length].
    destruct (IH (c + 1) ltac:(lia) ltac:(lia)) as (Hsum & Hall & Hlen).
    rewrite Hsum, Hlen.
    assert (Hcm : c * FPGA_MAX_DIM_M < M) by (apply Hb; exact Hlt).
    unfold chunk_rows, FPGA_MAX_DIM_M in *.
    split; [lia |]. split; [| reflexivity].
    constructor; [lia | exact Hall].
Qed.

(** X5. The chunks of a call partition the rows: [fpga_bitlinear] on M
    rows launches [ceil (M / 1024)] runs, each with DIM_M between 1 and
    1024, and the DIM_M values add up to M. *)
Theorem chunks_partition_rows (hw : accelerator) (activations : list Z)
    (K weight_base M stride : Z) (s : driver) :
  0 <= K <= FPGA_MAX_DIM_K -> 0 <= M < 2 ^ 31 ->
  FPGA_MAX_DIM_M <= hw_max_dim_m hw ->
  Z.of_nat (length (results s)) = M ->
  exists new,
    runs (dev (fpga_bitlinear hw activations K weight_base M stride s))
    = runs (dev s) ++ new
    /\ Z.of_nat (length new) = (M + 1023) / 1024
    /\ Forall (fun cfg => 1 <= reg_of cfg REG_DIM_M <= 1024) new
    /\ fold_right Z.add 0 (map (fun cfg => reg_of cfg REG_DIM_M) new) = M.
Proof.
  intros HK HM Hmax Hlen.
  destruct (fpga_bitlinear_spec hw activations K weight_base M stride s
              HK HM Hmax Hlen) as (_ & _ & _ & (new & Hruns & Hmap)).
  rewrite chunk_starts_from in Hmap.
  assert (Hnc : 0 <= num_chunks M).
  { unfold num_chunks, FPGA_MAX_DIM_M. apply Z.div_pos; lia. }
  destruct (chunk_rows_sum M (Z.to_nat (num_chunks M - 0)) ltac:(lia) 0 ltac:(lia) eq_refl)
    as (Hsum & Hall & Hcount).
  assert (Hdims : map (fun cfg => reg_of cfg REG_DIM_M) new
                  = map (chunk_rows M) (starts_from M 0)).
  { apply (f_equal (map snd)) in Hmap. rewrite !map_map in Hmap. exact Hmap. }
  exists new. split; [exact Hruns |].
  split; [| split].
  - apply (f_equal (@length _)) in Hdims. rewrite !length_map in Hdims.
    rewrite Hdims, Hcount. unfold num_chunks, FPGA_MAX_DIM_M in *.
    replace (M + 1024 - 1) with (M + 1023) in * by lia. lia.
  - apply (proj1 (List.Forall_map (fun cfg => reg_of cfg REG_DIM_M)
                    (fun x => 1 <= x <= 1024) new)).
    rewrite Hdims.
    apply (proj2 (List.Forall_map (chunk_rows M) (fun x => 1 <= x <= 1024)
                    (starts_from M 0))).
    exact Hall.
  - rewrite Hdims, Hsum. unfold FPGA_MAX_DIM_M. lia.
Qed.

Lemma chunks_partition_rows_witness :
  exists new,
    runs (dev (fpga_bitlinear (demo_hw []) demo_acts 128 0x30000000 2500 32
                 (demo_start 2500)))
    = runs (dev (demo_start 2500)) ++ new
    /\ Z.of_nat (length new) = (2500 + 1023) / 1024
    /\ Forall (fun cfg => 1 <= reg_of cfg REG_DIM_M <= 1024) new
    /\ fold_right Z.add 0 (map (fun cfg => reg_of cfg REG_DIM_M) new) = 2500.
Proof.
  apply (chunks_partition_rows (demo_hw []) demo_acts 128 0x30000000 2500 32
           (demo_start 2500)).
  - vm_compute. split; discriminate.
  - split; [lia | reflexivity].
  - vm_compute. discriminate.
  - unfold demo_start. cbn [results]. rewrite length_replicate. lia.
Defined.

(** X6. With no row to compute ([M <= 0]) [fpga_bitlinear] still loads the
    activations, DIM_K and SHIFT_AMT, but launches nothing and leaves the
    output array and stderr as they were. *)
Theorem no_rows_no_launch (hw : accelerator) (activations : list Z)
    (K weight_base M stride : Z) (s : driver) :
  0 <= K <= FPGA_MAX_DIM_K -> M <= 0 ->
  results (fpga_bitlinear hw activations K weight_base M stride s) = results s
  /\ stderr (fpga_bitlinear hw activations K weight_base M stride s) = stderr s
  /\ runs (dev (fpga_bitlinear hw activations K weight_base M stride s)) = runs (dev s)
  /\ configured activations K
       (regs (dev (fpga_bitlinear hw activations K weight_base M stride s))).
Proof.
  intros HK HM. unfold fpga_bitlinear. cbv zeta.
  destruct (setup_configured activations K (dev s) HK) as (Hruns & Hcfg).
  cbv zeta in Hruns, Hcfg.
  replace (Z.to_nat M) with O by lia. cbn [tile_loop dev results stderr].
  repeat split; try assumption; apply Hcfg.
Qed.

Lemma no_rows_no_launch_witness :
  results (fpga_bitlinear (demo_hw []) demo_acts 128 0x30000000 0 32 (demo_start 3))
  = results (demo_start 3).
Proof.
  refine (proj1 (no_rows_no_launch (demo_hw []) demo_acts 128 0x30000000 0 32
                   (demo_start 3) _ _)).
  - vm_compute. split; discriminate.
  - lia.
Defined.

(** X23. A call of [fpga_bitlinear] takes nothing from what came before
    it: two calls with the same arguments, made after the same number of
    earlier runs, give the same output array and add the same lines to
    stderr, whatever the registers and the output array held before. *)
Theorem fpga_bitlinear_no_leak (hw : accelerator) (activations : list Z)
    (K weight_base M stride : Z) (s1 s2 : driver) :
  0 <= K <= FPGA_MAX_DIM_K -> 0 <= M < 2 ^ 31 ->
  FPGA_MAX_DIM_M <= hw_max_dim_m hw ->
  Z.of_nat (length (results s1)) = M -> Z.of_nat (length (results s2)) = M ->
  length (runs (dev s1)) = length (runs (dev s2)) ->
  results (fpga_bitlinear hw activations K weight_base M stride s1)
  = results (fpga_bitlinear hw activations K weight_base M stride s2)
  /\ exists lines,
       stderr (fpga_bitlinear hw activations K weight_base M stride s1)
       = stderr s1 ++ lines
       /\ stderr (fpga_bitlinear hw activations K weight_base M stride s2)
          = stderr s2 ++ lines.
Proof.
  intros HK HM Hmax Hl1 Hl2 Hruns.
  destruct (fpga_bitlinear_spec hw activations K weight_base M stride s1 HK HM Hmax Hl1)
    as (Hlen1 & Hrow1 & Herr1 & _).
  destruct (fpga_bitlinear_spec hw activations K weight_base M stride s2 HK HM Hmax Hl2)
    as (Hlen2 & Hrow2 & Herr2 & _).
  cbv zeta in *. split.
  - apply list_eq_aget; [rewrite Hlen1, Hlen2; lia |].
    intros j Hj. rewrite Hlen1, Hl1 in Hj.
    rewrite (Hrow1 j Hj), (Hrow2 j Hj), Hruns. reflexivity.
  - eexists. split; [exact Herr1 |]. rewrite Herr2, Hruns. reflexivity.
Qed.

Lemma fpga_bitlinear_no_leak_witness :
  results (fpga_bitlinear (demo_hw []) demo_acts 128 0x30000000 3 32 (demo_start 3))
  = results (fpga_bitlinear (demo_hw []) demo_acts 128 0x30000000 3 32
               {| dev := {| regs := <[REG_SHIFT_AMT / 4 := 9]> ∅; runs := [];
                            polls := 5%nat |};
                  results := [1; 2; 3];
                  stderr := [4] |}).
Proof.
  refine (proj1 (fpga_bitlinear_no_leak (demo_hw []) demo_acts 128 0x30000000 3 32
                   (demo_start 3) _ _ _ _ _ _ _)).
  - vm_compute. split; discriminate.
  - split; [lia | reflexivity].
  - vm_compute. discriminate.
  - reflexivity.
  - reflexivity.
  - reflexivity.
Defined.

End DriverExtras.


(** ** The weight codec: rewriting the window, losslessness *)

Module CodecExtras.

Lemma fits_window_fewer_rows (M1 M2 K : Z) :
  1 <= K -> 0 <= M2 <= M1 -> fits_window M1 K -> fits_window M2 K.
Proof.
  intros HK HM Hfit. unfold fits_window, CodecSpec.byte_stride, CodecSpec.bytes_per_tile in *.
  pose proof (tiles_per_row_pos K HK). nia.
Qed.

(** X7. A matrix written over an earlier one of the same width replaces
    it and nothing else: with the same number of rows the window is the
    one the second matrix alone gives, whatever the first matrix was; with
    fewer rows the rows of the first matrix beyond the second stay stored
    as they were. *)
Theorem write_weight_matrix_overwrites (w1 w2 : list Z) (M1 M2 K : Z) (before : gmap Z Z) :
  1 <= M2 <= M1 -> 1 <= K -> fits_window M1 K ->
  (M2 = M1 ->
   write_weight_matrix w2 M2 K (write_weight_matrix w1 M1 K before)
   = write_weight_matrix w2 M2 K before)
  /\ (forall row tile,
        0 <= row < M2 -> 0 <= tile < CodecSpec.tiles_per_row K ->
        CodecSpec.stored_tile
          (write_weight_matrix w2 M2 K (write_weight_matrix w1 M1 K before)) K row tile
        = Some (pack_weights (tile_chunk w2 K row tile)))
  /\ (forall row tile,
        M2 <= row < M1 -> 0 <= tile < CodecSpec.tiles_per_row K ->
        CodecSpec.stored_tile
          (write_weight_matrix w2 M2 K (write_weight_matrix w1 M1 K before)) K row tile
        = Some (pack_weights (tile_chunk w1 K row tile))).
Proof.
  intros HM HK Hfit1.
  assert (Hfit2 : fits_window M2 K) by (apply (fits_window_fewer_rows M1); [| lia |]; assumption).
  pose proof (tiles_per_row_pos K HK) as Htpos.
  set (tpr := CodecSpec.tiles_per_row K) in *.
  split; [| split].
  - intros ->. apply map_eq. intros idx.
    rewrite (write_weight_matrix_written w2 M1 K _ ltac:(lia) HK Hfit1 idx).
    rewrite (write_weight_matrix_written w2 M1 K before ltac:(lia) HK Hfit1 idx).
    destruct ((0 <=? idx) && (idx <? M1 * CodecSpec.tiles_per_row K * 4)) eqn:E;
      [reflexivity |].
    rewrite (write_weight_matrix_written w1 M1 K before ltac:(lia) HK Hfit1 idx).
    rewrite E. reflexivity.
  - intros row tile Hrow Htile.
    apply stored_tile_written; assumption || lia.
  - intros row tile Hrow Htile.
    rewrite <- (stored_tile_written w1 M1 K before row tile) by (assumption || lia).
    unfold CodecSpec.stored_tile. cbn [mapM].
    assert (Hsame : forall i, 0 <= i < 4 ->
              write_weight_matrix w2 M2 K (write_weight_matrix w1 M1 K before)
                !! (CodecSpec.tile_offset K row tile / 4 + i)
              = write_weight_matrix w1 M1 K before
                  !! (CodecSpec.tile_offset K row tile / 4 + i)).
    { intros i Hi.
      rewrite (write_weight_matrix_written w2 M2 K _ ltac:(lia) HK Hfit2 _).
      unfold CodecSpec.tile_offset, CodecSpec.bytes_per_tile. fold tpr.
      replace ((row * tpr * 16 + tile * 16) / 4) with ((row * tpr + tile) * 4)
        by (apply Z.div_unique with (r := 0); lia).
      destruct (Z.ltb_spec ((row * tpr + tile) * 4 + i) (M2 * tpr * 4)); [nia |].
      rewrite andb_false_r. reflexivity. }
    rewrite !Hsame by lia. reflexivity.
Qed.

Lemma write_weight_matrix_overwrites_witness :
  write_weight_matrix (replicate 140 (-1)) 2 70 (write_weight_matrix (replicate 140 1) 2 70 ∅)
  = write_weight_matrix (replicate 140 (-1)) 2 70 ∅.
Proof.
  refine (proj1 (write_weight_matrix_overwrites (replicate 140 1) (replicate 140 (-1))
                   2 2 70 ∅ _ _ _) _).
  - lia.
  - lia.
  - unfold fits_window. vm_compute. discriminate.
  - reflexivity.
Defined.

Lemma encode_inj (a b : Z) : is_ternary a -> is_ternary b -> encode a = encode b -> a = b.
Proof.
  intros Ha Hb He. apply decode_encode in Ha, Hb. rewrite He in Ha. congruence.
Qed.

(** X8. [pack_weights] loses nothing on ternary input: two vectors of 64
    weights in {-1,0,+1} that pack to the same four words are equal. *)
Theorem pack_weights_injective (w1 w2 : list Z) :
  length w1 = 64%nat -> length w2 = 64%nat ->
  Forall is_ternary w1 -> Forall is_ternary w2 ->
  pack_weights w1 = pack_weights w2 -> w1 = w2.
Proof.
  intros H1 H2 Ht1 Ht2 Hp.
  apply DriverSpec.list_eq_aget; [congruence |].
  intros j Hj. rewrite H1 in Hj.
  assert (Hz : is_ternary 0) by (unfold is_ternary; lia).
  apply encode_inj; [apply Forall_aget; assumption | apply Forall_aget; assumption |].
  rewrite <- !pack_weights_field by lia. rewrite Hp. reflexivity.
Qed.

Lemma pack_weights_injective_witness : replicate 64 1 = replicate 64 1.
Proof.
  apply (pack_weights_injective (replicate 64 1) (replicate 64 1)).
  - reflexivity.
  - reflexivity.
  - apply Forall_replicate. unfold is_ternary. lia.
  - apply Forall_replicate. unfold is_ternary. lia.
  - reflexivity.
Defined.

End CodecExtras.


(** ** Images: resizing, the PGM reader, raw files, file names *)

Module ImageExtras.

Import Image ImageFacts.

Lemma div32_nonneg (a b : Z) :
  0 <= a < 2 ^ 31 -> 1 <= b -> div32 a b = a / b /\ 0 <= a / b <= a.
Proof.
  intros Ha Hb. unfold div32. rewrite Z.quot_div_nonneg by lia.
  assert (H0 : 0 <= a / b) by (apply Z.div_pos; lia).
  assert (H1 : a / b <= a).
  { destruct (Z.eq_dec a 0) as [-> | Hne]; [rewrite Z.div_0_l by lia; lia |].
    apply Z.div_le_upper_bound; nia. }
  split; [apply to_int32_id; int_range | lia].
Qed.

(** The loops of [resize_nearest]: the pixels written and the bytes left. *)
Lemma resize_nearest_pixels (src : list Z) (src_w src_h : Z) (dst : list Z) (dst_w dst_h : Z) :
  1 <= src_w -> 1 <= src_h -> 1 <= dst_w -> 1 <= dst_h ->
  src_w * src_h < 2 ^ 31 -> dst_w * dst_h < 2 ^ 31 ->
  dst_w * src_w < 2 ^ 31 -> dst_h * src_h < 2 ^ 31 ->
  dst_w * dst_h <= Z.of_nat (length dst) ->
  length (resize_nearest src src_w src_h dst dst_w dst_h) = length dst
  /\ (forall y x, 0 <= y < dst_h -> 0 <= x < dst_w ->
        aget (resize_nearest src src_w src_h dst dst_w dst_h) (y * dst_w + x)
        = aget src (y * src_h / dst_h * src_w + x * src_w / dst_w))
  /\ (forall j, dst_h * dst_w <= j ->
        aget (resize_nearest src src_w src_h dst dst_w dst_h) j = aget dst j).
Proof.
  intros Hsw Hsh Hdw Hdh Hs Hd Hww Hhh Hlen.
  change (2 ^ 31) with 2147483648 in *.
  assert (Hrow : forall y, 0 <= y < dst_h -> 0 <= y * src_h / dst_h < src_h).
  { intros y Hy. split; [apply Z.div_pos; nia | apply Z.div_lt_upper_bound; nia]. }
  assert (Hcol : forall x, 0 <= x < dst_w -> 0 <= x * src_w / dst_w < src_w).
  { intros x Hx. split; [apply Z.div_pos; nia | apply Z.div_lt_upper_bound; nia]. }
  unfold resize_nearest.
  apply for_range_ind
    with (P := fun (y : Z) (t : list Z) =>
                 length t = length dst
                 /\ (forall y' x', 0 <= y' < y -> 0 <= x' < dst_w ->
                       aget t (y' * dst_w + x')
                       = aget src (y' * src_h / dst_h * src_w + x' * src_w / dst_w))
                 /\ (forall j, y * dst_w <= j -> aget t j = aget dst j)); [lia | |].
  - split; [reflexivity |]. split; [intros; lia | reflexivity].
  - intros y t Hy (Hl & Hdone & Hrest).
    specialize (Hrow y Hy).
    assert (Hsy : div32 (mul32 y src_h) dst_h = y * src_h / dst_h).
    { unfold mul32. rewrite (to_int32_id (y * src_h)) by (unfold is_int32; nia).
      apply div32_nonneg; nia. }
    cbv beta zeta. rewrite Hsy.
    pose (Q := fun (x : Z) (t' : list Z) =>
                 length t' = length dst
                 /\ (forall y' x',
                       (0 <= y' < y /\ 0 <= x' < dst_w) \/ (y' = y /\ 0 <= x' < x) ->
                       aget t' (y' * dst_w + x')
                       = aget src (y' * src_h / dst_h * src_w + x' * src_w / dst_w))
                 /\ (forall j, y * dst_w + x <= j -> aget t' j = aget dst j)).
    assert (HQ : Q dst_w
              (for_range 0 dst_w
                 (fun x dst0 =>
                    aset dst0 (add32 (mul32 y dst_w) x)
                      (aget src
                         (add32 (mul32 (y * src_h / dst_h) src_w)
                            (div32 (mul32 x src_w) dst_w)))) t)).
    { apply for_range_ind with (P := Q); [lia | |].
      - split; [exact Hl |]. split.
        + intros y' x' [(Hy' & Hx') | (-> & Hx')]; [apply Hdone; assumption | lia].
        + intros j Hj. apply Hrest. lia.
      - intros x t' Hx (Hl' & Hdone' & Hrest').
        specialize (Hcol x Hx).
        assert (Hsx : div32 (mul32 x src_w) dst_w = x * src_w / dst_w).
        { unfold mul32. rewrite (to_int32_id (x * src_w)) by (unfold is_int32; nia).
          apply div32_nonneg; nia. }
        cbv beta zeta. rewrite Hsx.
        unfold mul32, add32.
        rewrite (to_int32_id (y * dst_w)) by (unfold is_int32; nia).
        rewrite (to_int32_id (y * dst_w + x)) by (unfold is_int32; nia).
        rewrite (to_int32_id (y * src_h / dst_h * src_w)) by (unfold is_int32; nia).
        rewrite (to_int32_id (y * src_h / dst_h * src_w + x * src_w / dst_w))
          by (unfold is_int32; nia).
        split; [rewrite length_aset; exact Hl' |]. split.
        + intros y' x' Hc.
          destruct (Z.eq_dec (y' * dst_w + x') (y * dst_w + x)) as [He | Hne].
          * assert (y' = y /\ x' = x) as (-> & ->) by nia.
            apply aget_aset_eq. nia.
          * rewrite aget_aset_ne by nia. apply Hdone'.
            destruct Hc as [Hc | (-> & Hx')]; [left; exact Hc | right].
            split; [reflexivity |]. assert (x' <> x) by (intros ->; lia). lia.
        + intros j Hj. rewrite aget_aset_ne by nia. apply Hrest'. lia. }
    destruct HQ as (Hl2 & Hdone2 & Hrest2).
    split; [exact Hl2 |]. split.
    + intros y' x' Hy' Hx'. apply Hdone2.
      destruct (Z.eq_dec y' y) as [-> | Hne]; [right; lia | left; lia].
    + intros j Hj. apply Hrest2. lia.
Qed.



Lemma fgets_bytes_split (n : nat) :
  forall fp line rest, fgets_bytes n fp = (line, rest) -> fp = line ++ rest.
Proof.
  induction n as [|n IH]; intros fp line rest Hg.
  - simpl in Hg. destruct fp; apply pair_equal_spec in Hg as (<- & <-); reflexivity.
  - destruct fp as [|c fp]; simpl in Hg.
    + apply pair_equal_spec in Hg as (<- & <-). reflexivity.
    + destruct (c =? 10).
      * apply pair_equal_spec in Hg as (<- & <-). reflexivity.
      * destruct (fgets_bytes n fp) as [line' rest'] eqn:E.
        apply pair_equal_spec in Hg as (<- & <-).
        cbn [app]. f_equal. apply IH. exact E.
Qed.

(** A line read by [fgets] is a prefix of the stream; it holds the first
    byte, and the second one too unless the first is a newline. *)
Lemma fgets_split (fp line rest : list Z) :
  fgets 256 fp = Some (line, rest) ->
  fp = line ++ rest
  /\ aget line 0 = aget fp 0
  /\ (aget line 0 <> 10 -> aget line 1 <> 0 -> aget line 1 = aget fp 1).
Proof.
  intros Hg. unfold fgets in Hg. destruct fp as [|c fp]; [discriminate |].
  remember (Z.to_nat (256 - 1)) as n eqn:Hn.
  apply (inj Some) in Hg.
  pose proof (fgets_bytes_split _ _ _ _ Hg) as Hsplit.
  split; [exact Hsplit |].
  assert (Hn' : n = Datatypes.S (Z.to_nat 254)) by (subst n; reflexivity).
  rewrite Hn' in Hg. cbn [fgets_bytes] in Hg.
  destruct (Z.eqb_spec c 10) as [-> | Hc].
  - apply pair_equal_spec in Hg as (<- & <-). split; [reflexivity |].
    intros H; exfalso; apply H; reflexivity.
  - destruct (fgets_bytes (Z.to_nat 254) fp) as [line' rest'] eqn:E.
    apply pair_equal_spec in Hg as (<- & <-).
    split; [reflexivity |]. intros _ H1.
    apply fgets_bytes_split in E. subst fp.
    destruct line' as [|c' line']; [exfalso; apply H1; reflexivity | reflexivity].
Qed.

(** The header loop hands on what is left of the stream. *)
Lemma pgm_header_suffix (scan : scanner) (fuel : nat) :
  forall fp hf w h mv fp' w' h' mv',
    pgm_header scan fuel fp hf w h mv = Some (fp', w', h', mv') ->
    exists header, fp = header ++ fp'.
Proof.
  induction fuel as [|fuel IH]; intros fp hf w h mv fp' w' h' mv' Hh;
    [discriminate |].
  cbn [pgm_header] in Hh.
  destruct (hf <? 3).
  2:{ apply (inj Some) in Hh.
      repeat (apply pair_equal_spec in Hh; destruct Hh as [Hh ?]); subst.
      exists []. reflexivity. }
  destruct (fgets 256 fp) as [[line rest] |] eqn:Hg; [| discriminate].
  destruct (fgets_split _ _ _ Hg) as (-> & _).
  assert (Hrest : exists header, rest = header ++ fp').
  { repeat match type of Hh with
           | (if ?b then _ else _) = _ => destruct b
           | (let '(_, _) := ?x in _) = _ => destruct x
           end;
      eapply IH; eassumption. }
  destruct Hrest as (header & ->). exists (line ++ header).
  rewrite <- app_assoc. reflexivity.
Qed.

(** A successful [load_pgm], step by step: the magic line, the header
    lines, and the pixels read from what is left of the stream. *)
Lemma load_pgm_inv (scan : scanner) (bytes buf : list Z) (buf_size : Z)
    (buf' : list Z) (w h : Z) :
  load_pgm scan (Some bytes) buf buf_size = Some (buf', w, h) ->
  exists line header fp',
    bytes = line ++ header ++ fp'
    /\ aget bytes 0 = 80 /\ aget bytes 1 = 53
    /\ 1 <= w /\ 1 <= h /\ mul32 w h <= buf_size
    /\ to_int32 (Z.of_nat (length (take (Z.to_nat (to_uint32 (mul32 w h))) fp')))
       = mul32 w h
    /\ buf' = take (Z.to_nat (to_uint32 (mul32 w h))) fp'
              ++ drop (length (take (Z.to_nat (to_uint32 (mul32 w h))) fp')) buf.
Proof.
  intros Hl. unfold load_pgm in Hl.
  destruct (fgets 256 bytes) as [[line rest] |] eqn:Hg; [| discriminate].
  destruct (fgets_split _ _ _ Hg) as (Hsplit & H0 & H1).
  destruct (Z.eqb_spec (aget line 0) 80) as [Hp | Hp]; [| discriminate].
  destruct (Z.eqb_spec (aget line 1) 53) as [H5 | H5]; [| discriminate].
  cbn [negb orb] in Hl.
  destruct (pgm_header scan _ rest 0 0 0 0) as [[[[fp' w'] h'] mv'] |] eqn:Hh;
    [| discriminate].
  destruct (pgm_header_suffix _ _ _ _ _ _ _ _ _ _ _ Hh) as (header & Hrest).
  destruct (Z.leb_spec w' 0) as [Hw | Hw]; [discriminate |].
  destruct (Z.leb_spec h' 0) as [Hh' | Hh']; [discriminate |].
  cbn [orb] in Hl.
  destruct ((mv' <=? 0) || (mv' >? 255)); [discriminate |].
  destruct (Z.gtb_spec (mul32 w' h') buf_size) as [Hbig | Hfit]; [discriminate |].
  unfold fread in Hl. cbv zeta in Hl.
  destruct (Z.eqb_spec
              (to_int32 (Z.of_nat (length (take (Z.to_nat (to_uint32 (mul32 w' h'))) fp'))))
              (mul32 w' h')) as [Hgot | Hgot]; [| discriminate].
  cbn [negb] in Hl. apply (inj Some) in Hl.
  repeat (apply pair_equal_spec in Hl; destruct Hl as [Hl ?]); subst buf' w h.
  exists line, header, fp'.
  split; [rewrite Hsplit, Hrest; reflexivity |].
  split; [rewrite <- H0; exact Hp |].
  split; [rewrite <- H1; [exact H5 | lia | lia] |].
  split; [lia |]. split; [lia |]. split; [lia |].
  split; [exact Hgot | reflexivity].
Qed.

(** A file that is not that long is read in full or not at all. *)
Lemma pixels_read (fp' : list Z) (n : Z) :
  Z.of_nat (length fp') < 2 ^ 31 -> - 2 ^ 31 <= n < 2 ^ 31 ->
  to_int32 (Z.of_nat (length (take (Z.to_nat (to_uint32 n)) fp'))) = n ->
  0 <= n /\ Z.of_nat (length (take (Z.to_nat (to_uint32 n)) fp')) = n.
Proof.
  intros Hsize Hn Hgot. change (2 ^ 31) with 2147483648 in *.
  assert (Htake : Z.of_nat (length (take (Z.to_nat (to_uint32 n)) fp')) < 2147483648)
    by (rewrite length_take; lia).
  rewrite to_int32_id in Hgot
    by (unfold is_int32; change (2 ^ 31) with 2147483648; lia).
  split; [lia | exact Hgot].
Qed.

(** X10. What a successful [load_pgm] has established: the file starts
    with the bytes 'P' '5'; width and height are at least 1; their [int]
    product, the number of pixels read, is between 0 and [buf_size]; the
    pixels are a run of consecutive bytes of the file after its header
    and land at the start of the buffer, whose other bytes and whose
    length are unchanged. *)
Theorem load_pgm_success (scan : scanner) (bytes buf : list Z) (buf_size : Z)
    (buf' : list Z) (w h : Z) :
  Z.of_nat (length bytes) < 2 ^ 31 ->
  buf_size <= Z.of_nat (length buf) ->
  load_pgm scan (Some bytes) buf buf_size = Some (buf', w, h) ->
  aget bytes 0 = 80 /\ aget bytes 1 = 53
  /\ 1 <= w /\ 1 <= h
  /\ 0 <= mul32 w h <= buf_size
  /\ length buf' = length buf
  /\ exists header pixels trailer,
       bytes = header ++ pixels ++ trailer
       /\ Z.of_nat (length pixels) = mul32 w h
       /\ buf' = pixels ++ drop (length pixels) buf.
Proof.
  intros Hsize Hbuf Hl.
  destruct (load_pgm_inv scan bytes buf buf_size buf' w h Hl)
    as (line & header & fp' & Hbytes & Hp & H5 & Hw & Hh & Hfit & Hgot & Hbuf').
  pose proof (to_int32_range (w * h)) as Hprod. fold (mul32 w h) in Hprod.
  unfold is_int32 in Hprod.
  assert (Hfp : Z.of_nat (length fp') < 2 ^ 31).
  { rewrite Hbytes, !length_app in Hsize. lia. }
  destruct (pixels_read fp' (mul32 w h) Hfp Hprod Hgot) as (Hnn & Hlen).
  set (n := Z.to_nat (to_uint32 (mul32 w h))) in *.
  split; [exact Hp |]. split; [exact H5 |]. split; [exact Hw |]. split; [exact Hh |].
  split; [lia |].
  split; [rewrite Hbuf', length_app, length_drop; lia |].
  exists (line ++ header), (take n fp'), (drop n fp').
  split; [| split; [exact Hlen | exact Hbuf']].
  rewrite Hbytes, take_drop, <- app_assoc. reflexivity.
Qed.

Lemma load_pgm_success_witness :
  exists header pixels trailer,
    demo_pgm = header ++ pixels ++ trailer
    /\ Z.of_nat (length pixels) = mul32 2 2
    /\ [0; 255; 128; 64; 9; 9] = pixels ++ drop (length pixels) [9; 9; 9; 9; 9; 9].
Proof.
  refine (proj2 (proj2 (proj2 (proj2 (proj2 (proj2
            (load_pgm_success scan_decimal demo_pgm [9; 9; 9; 9; 9; 9] 6
               [0; 255; 128; 64; 9; 9] 2 2 _ _ _))))))).
  - vm_compute. reflexivity.
  - vm_compute. discriminate.
  - vm_compute. reflexivity.
Defined.

(** The size check of [load_pgm] is on the [int] product: the header
    "P5 65536 65536 255" with no pixel data is accepted, the product
    being 0 in 32 bits. *)
Example load_pgm_product_wraps :
  load_pgm scan_decimal
    (Some [80; 53; 10; 54; 53; 53; 51; 54; 32; 54; 53; 53; 51; 54; 10; 50; 53; 53; 10])
    [7; 7] (MAX_IMG_DIM * MAX_IMG_DIM)
  = Some ([7; 7], 65536, 65536).
Proof. vm_compute. reflexivity. Qed.

Lemma fgets_bytes_line (n : nat) :
  forall body rest,
    Forall (fun c => c <> 10) body -> (length body < n)%nat ->
    fgets_bytes n (body ++ 10 :: rest) = (body ++ [10], rest).
Proof.
  induction n as [|n IH]; intros body rest Hbody Hlen; [lia |].
  destruct body as [|c body]; cbn [app fgets_bytes].
  - reflexivity.
  - apply Forall_cons in Hbody as (Hc & Hbody).
    destruct (Z.eqb_spec c 10) as [-> | _]; [congruence |].
    rewrite (IH body rest Hbody) by (cbn [length] in Hlen; lia). reflexivity.
Qed.

(** [fgets] returns a whole line when the line fits the 256-byte buffer. *)
Lemma fgets_line (body rest : list Z) :
  Forall (fun c => c <> 10) body -> (length body <= 254)%nat ->
  fgets 256 (body ++ 10 :: rest) = Some (body ++ [10], rest).
Proof.
  intros Hbody Hlen. unfold fgets.
  rewrite fgets_bytes_line by (assumption || (change (256 - 1) with 255; lia)).
  destruct body; reflexivity.
Qed.

(** X11. A comment line after the magic line of a PGM is skipped: when
    the magic line and the line starting with '#' each fit the 256-byte
    line buffer, [load_pgm] gives the same result, the same bytes in the
    buffer included, as on the file without the comment line. *)
Theorem pgm_comment_ignored (scan : scanner) (first body rest buf : list Z) (buf_size : Z) :
  Forall (fun c => c <> 10) first -> (length first <= 254)%nat ->
  Forall (fun c => c <> 10) body -> (length body <= 253)%nat ->
  load_pgm scan (Some (first ++ 10 :: (35 :: body) ++ 10 :: rest)) buf buf_size
  = load_pgm scan (Some (first ++ 10 :: rest)) buf buf_size.
Proof.
  intros Hfirst Hl1 Hbody Hl2. unfold load_pgm.
  rewrite !fgets_line by assumption.
  destruct (negb (aget (first ++ [10]) 0 =? 80) || negb (aget (first ++ [10]) 1 =? 53));
    [reflexivity |].
  assert (Hhead : pgm_header scan (Datatypes.S (length ((35 :: body) ++ 10 :: rest)))
                    ((35 :: body) ++ 10 :: rest) 0 0 0 0
                  = pgm_header scan (Datatypes.S (length rest)) rest 0 0 0 0).
  { cbn [pgm_header]. change (0 <? 3) with true. cbv iota.
    rewrite fgets_line
      by (first [constructor; [discriminate | exact Hbody] | cbn [length]; lia]).
    change (aget ((35 :: body) ++ [10]) 0) with 35.
    change (35 =? 35) with true. cbv iota.
    replace (length ((35 :: body) ++ 10 :: rest))
      with (Datatypes.S (length rest) + Datatypes.S (length body))%nat
      by (rewrite length_app; cbn [length]; lia).
    apply pgm_header_fuel. lia. }
  rewrite Hhead. reflexivity.
Qed.

Lemma pgm_comment_ignored_witness :
  load_pgm scan_decimal
    (Some ([80; 53] ++ 10 :: (35 :: [104; 105]) ++ 10
             :: [50; 32; 50; 10; 50; 53; 53; 10; 0; 255; 128; 64]))
    [0; 0; 0; 0] 4
  = load_pgm scan_decimal
      (Some ([80; 53] ++ 10 :: [50; 32; 50; 10; 50; 53; 53; 10; 0; 255; 128; 64]))
      [0; 0; 0; 0] 4.
Proof.
  apply (pgm_comment_ignored scan_decimal [80; 53] [104; 105]).
  - repeat constructor; discriminate.
  - cbn [length]. lia.
  - repeat constructor; discriminate.
  - cbn [length]. lia.
Defined.

(** The pixels of a raw file as activations. *)
Lemma to_activations_map (img output0 : list Z) :
  length img = 784%nat -> length output0 = 784%nat ->
  to_activations img output0 = map (fun p => to_int8 (div32 (mul32 p 127) 255)) img.
Proof.
  intros Hi Ho. destruct (to_activations_spec img output0 Ho) as (Hl & Hout).
  apply DriverSpec.list_eq_aget; [rewrite length_map; congruence |].
  intros j Hj. rewrite Hl in Hj. rewrite (Hout j ltac:(lia)).
  rewrite !aget_nth by lia.
  destruct (lookup_lt_is_Some_2 img (Z.to_nat j) ltac:(lia)) as (p & Hp).
  rewrite (nth_lookup_Some img (Z.to_nat j) 0 p Hp).
  symmetry. apply nth_lookup_Some.
  change (map (fun q => to_int8 (div32 (mul32 q 127) 255)) img)
    with ((fun q => to_int8 (div32 (mul32 q 127) 255)) <$> img).
  rewrite list_lookup_fmap, Hp. reflexivity.
Qed.

(** X12. A file that does not start with the bytes 'P' '5' is accepted
    by [preprocess_image] exactly when it is 784 bytes long; it is then
    taken as a 28x28 image, not resized, and activation [i] is byte [i]
    of the file times 127 divided by 255. *)
Theorem raw_file_accepted_iff (scan : scanner) (bytes raw_buf img28 output0 : list Z) :
  ~ (aget bytes 0 = 80 /\ aget bytes 1 = 53) ->
  Forall is_uint8 bytes ->
  length img28 = 784%nat -> length output0 = 784%nat ->
  (preprocess_image scan (Some bytes) raw_buf img28 output0 <> None
   <-> length bytes = 784%nat)
  /\ (length bytes = 784%nat ->
      preprocess_image scan (Some bytes) raw_buf img28 output0
      = Some {| output := map (fun p => p * 127 / 255) bytes;
                orig_w := 28; orig_h := 28; resized := 0 |}).
Proof.
  intros Hmagic Hbytes Himg Hout.
  assert (Hpre : preprocess_image scan (Some bytes) raw_buf img28 output0
                 = if (length bytes =? 784)%nat
                   then Some {| output := map (fun p => p * 127 / 255) bytes;
                                orig_w := 28; orig_h := 28; resized := 0 |}
                   else None).
  { unfold preprocess_image, load_image28.
    unfold fread at 1. cbv zeta. change (Z.to_nat (to_uint32 2)) with 2%nat.
    destruct bytes as [|b0 [|b1 bytes]].
    - reflexivity.
    - reflexivity.
    - set (fp := b0 :: b1 :: bytes) in *.
      change (length (take 2 fp)) with 2%nat.
      change (negb (Z.of_nat 2 =? 2)) with false. cbv iota.
      change (aget (take 2 fp ++ drop 2 [0; 0]) 0) with b0.
      change (aget (take 2 fp ++ drop 2 [0; 0]) 1) with b1.
      change (aget fp 0) with b0 in Hmagic. change (aget fp 1) with b1 in Hmagic.
      assert (Hnot : (b0 =? 80) && (b1 =? 53) = false).
      { destruct (Z.eqb_spec b0 80); destruct (Z.eqb_spec b1 53); try reflexivity.
        exfalso. apply Hmagic. split; assumption. }
      rewrite Hnot. change MNIST_PIXELS with 784.
      destruct (Nat.eqb_spec (length fp) 784) as [Hlen | Hlen].
      + rewrite Hlen. change (negb (Z.of_nat 784 =? 784)) with false. cbv iota.
        unfold fread. cbv zeta. change (Z.to_nat (to_uint32 784)) with 784%nat.
        rewrite take_ge by lia. rewrite drop_ge by lia. rewrite app_nil_r.
        rewrite Hlen. change (negb (to_int32 (Z.of_nat 784) =? 784)) with false. cbv iota.
        rewrite to_activations_map by assumption.
        do 2 f_equal. apply map_ext_in. intros p Hp.
        apply pixel_activation.
        exact (proj1 (List.Forall_forall is_uint8 fp) Hbytes p Hp).
      + destruct (Z.eqb_spec (Z.of_nat (length fp)) 784) as [He | _]; [lia | reflexivity]. }
  rewrite Hpre. split.
  - destruct (Nat.eqb_spec (length bytes) 784) as [Hlen | Hlen].
    + split; [intros _; exact Hlen | intros _; discriminate].
    + split; [intros H; exfalso; apply H; reflexivity | intros H; contradiction].
  - intros Hlen. rewrite Hlen. reflexivity.
Qed.

Lemma raw_file_accepted_iff_witness :
  preprocess_image scan_decimal (Some (replicate 784 200)) [] (replicate 784 0)
    (replicate 784 0)
  = Some {| output := map (fun p => p * 127 / 255) (replicate 784 200);
            orig_w := 28; orig_h := 28; resized := 0 |}.
Proof.
  refine (proj2 (raw_file_accepted_iff scan_decimal (replicate 784 200) []
                   (replicate 784 0) (replicate 784 0) _ _ _ _) _).
  - intros (H & _). vm_compute in H. discriminate.
  - apply Forall_replicate. unfold is_uint8. lia.
  - reflexivity.
  - reflexivity.
  - reflexivity.
Defined.

Lemma memcpy_spec (dst src : list Z) (n : Z) :
  0 <= n <= Z.of_nat (length dst) ->
  forall i, 0 <= i < n -> aget (memcpy dst src n) i = aget src i.
Proof.
  intros Hn. unfold memcpy.
  apply (for_range_ind
           (fun k out =>
              length out = length dst
              /\ forall i, 0 <= i < k -> aget out i = aget src i)); [lia | |].
  - split; [reflexivity | intros i Hi; lia].
  - intros k out Hk (Hl & Hin). split; [rewrite length_aset; exact Hl |].
    intros i Hi. destruct (Z.eq_dec i k) as [-> | Hne].
    + apply aget_aset_eq. lia.
    + rewrite aget_aset_ne by lia. apply Hin. lia.
Qed.

Lemma aget_prefix (a b : list Z) (i : Z) :
  0 <= i < Z.of_nat (length a) -> aget (a ++ b) i = aget a i.
Proof. intros Hi. rewrite !aget_nth by lia. apply app_nth1. lia. Qed.

(** X22. For a PGM file whose width times height fits an [int],
    [preprocess_image] reports the width and height of the header, each
    at least 1 and with a product of at most 1024 * 1024, and sets
    [resized] exactly when the image is not 28x28; activation (x, y) of
    the 28x28 output is the pixel at column [x * width / 28] of row
    [y * height / 28] of the file's pixel data, times 127 divided by
    255 (for a 28x28 image, the pixel (x, y) itself). *)
Theorem pgm_pixels_to_activations (scan : scanner) (bytes raw_buf img28 output0 : list Z)
    (out : preprocessed) :
  Forall is_uint8 bytes -> Z.of_nat (length bytes) < 2 ^ 31 ->
  length img28 = 784%nat -> length output0 = 784%nat ->
  aget bytes 0 = 80 -> aget bytes 1 = 53 ->
  preprocess_image scan (Some bytes) raw_buf img28 output0 = Some out ->
  orig_w out * orig_h out < 2 ^ 31 ->
  1 <= orig_w out /\ 1 <= orig_h out
  /\ orig_w out * orig_h out <= MAX_IMG_DIM * MAX_IMG_DIM
  /\ resized out = (if (orig_w out =? 28) && (orig_h out =? 28) then 0 else 1)
  /\ exists header pixels trailer,
       bytes = header ++ pixels ++ trailer
       /\ Z.of_nat (length pixels) = orig_w out * orig_h out
       /\ forall y x, 0 <= y < 28 -> 0 <= x < 28 ->
            aget (output out) (y * 28 + x)
            = aget pixels (y * orig_h out / 28 * orig_w out + x * orig_w out / 28)
              * 127 / 255.
Proof.
  intros Hbytes Hsize Himg Hout H0 H1 Hpre Hov.
  unfold preprocess_image in Hpre.
  destruct (load_image28 scan (Some bytes) raw_buf img28) as [[[[img w] h] r] |] eqn:Hload;
    [| discriminate].
  apply (inj Some) in Hpre. subst out. cbn [orig_w orig_h resized output] in *.
  destruct bytes as [|b0 [|b1 rest]]; [discriminate H0 | discriminate H1 |].
  change (aget (b0 :: b1 :: rest) 0) with b0 in H0.
  change (aget (b0 :: b1 :: rest) 1) with b1 in H1. subst b0 b1.
  set (fp := 80 :: 53 :: rest) in *.
  unfold load_image28 in Hload.
  change (fread [0; 0] 2 fp) with (2, [80; 53], drop 2 fp) in Hload.
  cbv beta iota in Hload.
  change (negb (2 =? 2)) with false in Hload.
  change ((aget [80; 53] 0 =? 80) && (aget [80; 53] 1 =? 53)) with true in Hload.
  cbv beta iota in Hload.
  change MNIST_DIM with 28 in Hload. change MNIST_PIXELS with 784 in Hload.
  destruct (load_pgm scan (Some fp) raw_buf (MAX_IMG_DIM * MAX_IMG_DIM))
    as [[[raw' w'] h'] |] eqn:Hp; [| discriminate].
  destruct (load_pgm_inv scan fp raw_buf _ raw' w' h' Hp)
    as (line & header & fp' & Hfp & _ & _ & Hw & Hh & Hfit & Hgot & Hraw).
  pose proof (to_int32_range (w' * h')) as Hprod. fold (mul32 w' h') in Hprod.
  unfold is_int32 in Hprod.
  assert (Hfp' : Z.of_nat (length fp') < 2 ^ 31).
  { rewrite Hfp, !length_app in Hsize. lia. }
  destruct (pixels_read fp' (mul32 w' h') Hfp' Hprod Hgot) as (_ & Hlen).
  set (pixels := take (Z.to_nat (to_uint32 (mul32 w' h'))) fp') in *.
  assert (Hdims : w = w' /\ h = h'
                  /\ r = (if (w' =? 28) && (h' =? 28) then 0 else 1)
                  /\ img = (if (w' =? 28) && (h' =? 28) then memcpy img28 raw' 784
                            else resize_nearest raw' w' h' img28 28 28)).
  { destruct ((w' =? 28) && (h' =? 28));
      apply (inj Some) in Hload;
      repeat (apply pair_equal_spec in Hload; destruct Hload as [Hload ?]); subst;
      repeat split; reflexivity. }
  destruct Hdims as (-> & -> & -> & Himg'). clear Hload.
  change (2 ^ 31) with 2147483648 in Hov.
  assert (Hmul : mul32 w' h' = w' * h').
  { unfold mul32. apply to_int32_id. unfold is_int32.
    change (2 ^ 31) with 2147483648. nia. }
  rewrite Hmul in Hlen, Hfit.
  assert (Hpix : Forall is_uint8 pixels).
  { unfold pixels. apply Forall_take. rewrite Hfp in Hbytes.
    apply Forall_app in Hbytes as (_ & Hbytes).
    apply Forall_app in Hbytes as (_ & Hbytes). exact Hbytes. }
  split; [exact Hw |]. split; [exact Hh |]. split; [exact Hfit |].
  split; [reflexivity |].
  exists (line ++ header), pixels, (drop (Z.to_nat (to_uint32 (mul32 w' h'))) fp').
  split; [unfold pixels; rewrite Hfp, take_drop, <- app_assoc; reflexivity |].
  split; [exact Hlen |].
  intros y x Hy Hx.
  destruct (to_activations_spec img output0 Hout) as (_ & Hact).
  rewrite (Hact (y * 28 + x)) by lia.
  assert (Hsrc : 0 <= y * h' / 28 * w' + x * w' / 28 < w' * h').
  { assert (0 <= y * h' / 28 < h').
    { split; [apply Z.div_pos; nia | apply Z.div_lt_upper_bound; nia]. }
    assert (0 <= x * w' / 28 < w').
    { split; [apply Z.div_pos; nia | apply Z.div_lt_upper_bound; nia]. }
    nia. }
  assert (Hpixel : aget img (y * 28 + x)
                   = aget pixels (y * h' / 28 * w' + x * w' / 28)).
  { unfold MAX_IMG_DIM in Hfit.
    assert (B1 : w' * h' < 2 ^ 31) by (change (2 ^ 31) with 2147483648; lia).
    assert (B2 : 28 * 28 < 2 ^ 31) by (change (2 ^ 31) with 2147483648; lia).
    assert (B3 : 28 * w' < 2 ^ 31) by (change (2 ^ 31) with 2147483648; nia).
    assert (B4 : 28 * h' < 2 ^ 31) by (change (2 ^ 31) with 2147483648; nia).
    assert (B5 : 28 * 28 <= Z.of_nat (length img28)) by (rewrite Himg; lia).
    destruct (resize_nearest_pixels raw' w' h' img28 28 28 Hw Hh ltac:(lia) ltac:(lia)
                B1 B2 B3 B4 B5) as (_ & Hres & _).
    rewrite Himg'.
    destruct ((w' =? 28) && (h' =? 28)) eqn:Hdim.
    - apply andb_true_iff in Hdim as (Hw28 & Hh28).
      apply Z.eqb_eq in Hw28, Hh28. subst w' h'.
      rewrite memcpy_spec by (rewrite ?Himg; lia).
      rewrite Hraw. fold pixels. rewrite aget_prefix by lia.
      rewrite !Z.div_mul by lia. reflexivity.
    - rewrite (Hres y x Hy Hx). rewrite Hraw. fold pixels.
      apply aget_prefix. lia. }
  rewrite Hpixel.
  apply pixel_activation. apply Forall_aget; [exact Hpix | exact uint8_zero].
Qed.

Lemma pgm_pixels_to_activations_witness :
  exists out,
    preprocess_image scan_decimal (Some demo_pgm) [] (replicate 784 0) (replicate 784 0)
    = Some out
    /\ resized out = (if (orig_w out =? 28) && (orig_h out =? 28) then 0 else 1).
Proof.
  eexists. split; [vm_compute; reflexivity |].
  refine (proj1 (proj2 (proj2 (proj2
            (pgm_pixels_to_activations scan_decimal demo_pgm [] (replicate 784 0)
               (replicate 784 0) _ _ _ _ _ _ _ _ _))))).
  - unfold demo_pgm.
    repeat (apply Forall_cons; split; [unfold is_uint8; lia |]). apply Forall_nil_2.
  - vm_compute. reflexivity.
  - reflexivity.
  - reflexivity.
  - reflexivity.
  - reflexivity.
  - vm_compute. reflexivity.
  - vm_compute. reflexivity.
Defined.

Import Exit.

Lemma strrchr_dot_cons (c : Ascii.ascii) (rest : string) :
  strrchr_dot (String c rest)
  = match strrchr_dot rest with
    | Some dot => Some dot
    | None => if Ascii.eqb c (Ascii.ascii_of_nat 46) then Some (String c rest) else None
    end.
Proof. reflexivity. Qed.

Lemma strrchr_dot_ext (ext : string) :
  strrchr_dot ext = None ->
  forall stem,
    strrchr_dot (String.append stem (String (Ascii.ascii_of_nat 46) ext))
    = Some (String (Ascii.ascii_of_nat 46) ext).
Proof.
  intros Hext stem. induction stem as [|c stem IH].
  - change (String.append EmptyString (String (Ascii.ascii_of_nat 46) ext))
      with (String (Ascii.ascii_of_nat 46) ext).
    rewrite strrchr_dot_cons, Hext. reflexivity.
  - change (String.append (String c stem) (String (Ascii.ascii_of_nat 46) ext))
      with (String c (String.append stem (String (Ascii.ascii_of_nat 46) ext))).
    rewrite strrchr_dot_cons, IH. reflexivity.
Qed.

(** X13. [has_image_ext] looks at the text after the last dot only and
    ignores its case: a name [stem.ext] whose [ext] holds no dot is an
    image name exactly when [ext] in lower case is pgm, bin or raw,
    whatever the stem, the empty one included; a name without a dot is
    not an image name. *)
Theorem has_image_ext_spec (stem ext : string) :
  strrchr_dot ext = None ->
  has_image_ext (String.append stem (String (Ascii.ascii_of_nat 46) ext))
  = (String.eqb (lowercase ext) "pgm"
     || String.eqb (lowercase ext) "bin"
     || String.eqb (lowercase ext) "raw")
  /\ has_image_ext ext = false.
Proof.
  intros Hext. unfold has_image_ext.
  rewrite Hext, (strrchr_dot_ext ext Hext stem). split; reflexivity.
Qed.

Lemma has_image_ext_spec_witness :
  has_image_ext (String.append "digits/seven" (String (Ascii.ascii_of_nat 46) "PgM"))
  = (String.eqb (lowercase "PgM") "pgm"
     || String.eqb (lowercase "PgM") "bin"
     || String.eqb (lowercase "PgM") "raw").
Proof.
  refine (proj1 (has_image_ext_spec "digits/seven" "PgM" _)). reflexivity.
Defined.

End ImageExtras.


(** ** The test bench: one run *)

Module BenchFacts.

Import Fpga Bench FpgaFacts.

Lemma bench_write_plain (offset val : Z) (d : fpga) :
  4 <= offset < 2 ^ 32 ->
  reg_write offset val d
  = {| regs := <[offset / 4 := val]> (regs d); runs := runs d; polls := polls d |}.
Proof. exact (reg_write_plain offset val d). Qed.

Lemma bench_write_start (d : fpga) :
  reg_write REG_CTRL 1 d
  = {| regs := <[0 := 1]> (regs d);
       runs := runs d ++ [<[0 := 1]> (regs d)];
       polls := O |}.
Proof. reflexivity. Qed.

(** [wait_done] polls as [fpga_wait_done] does. *)
Lemma wait_loop_status (hw : bench_hw) (fuel : nat) :
  forall (timeout_us : Z) (d : fpga),
    Bench.wait_loop hw fuel timeout_us d = Fpga.wait_loop (status_only hw) fuel timeout_us d.
Proof.
  induction fuel as [|fuel IH]; intros t d; [reflexivity |].
  cbn [Bench.wait_loop Fpga.wait_loop].
  destruct (t >? 0); [| reflexivity].
  unfold reg_read, fpga_reg_read. cbv zeta.
  change (to_uint32 REG_STATUS / 4 =? REG_STATUS / 4) with true. cbv iota.
  cbn [hw_status status_only].
  destruct (Z.land (bh_status hw (length (runs d)) (polls d)) 2 =? 0);
    [apply IH | reflexivity].
Qed.

(** The wait that follows a START pulse. *)
Lemma wait_done_outcome (hw : bench_hw) (t : Z) (d : fpga) :
  0 <= t < 2 ^ 31 -> polls d = O ->
  regs (snd (wait_done hw t d)) = regs d
  /\ runs (snd (wait_done hw t d)) = runs d
  /\ fst (wait_done hw t d) = if done_by hw (length (runs d)) ((t + 9) / 10) then 0 else -1.
Proof.
  intros Ht Hp. unfold wait_done, done_by. rewrite wait_loop_status.
  assert (Hfuel : (Z.to_nat ((t + 9) / 10) <= Z.to_nat t)%nat).
  { destruct (Z.eq_dec t 0) as [-> | Hne]; [reflexivity |].
    assert ((t + 9) / 10 <= t) by (apply Z.lt_succ_r; apply Z.div_lt_upper_bound; lia).
    lia. }
  pose proof (wait_loop_spec (status_only hw) (Z.to_nat t) t d Hfuel ltac:(lia)) as H.
  rewrite Hp in H. exact H.
Qed.

(** [write_activations]: activation [i] lands in ACTIVATION[i]; no other
    register changes and nothing is launched. *)
Lemma write_activations_spec (acts : list Z) (K : Z) (d : fpga) :
  0 <= K < 2 ^ 28 ->
  runs (write_activations acts K d) = runs d
  /\ polls (write_activations acts K d) = polls d
  /\ (forall i, 0 <= i < K ->
        regs (write_activations acts K d) !! (32 + i) = Some (to_uint8 (aget acts i)))
  /\ (forall w, ~ (32 <= w < 32 + K) ->
        regs (write_activations acts K d) !! w = regs d !! w).
Proof.
  intros HK. change (2 ^ 28) with 268435456 in HK. unfold write_activations.
  apply for_range_ind
    with (P := fun n d' =>
                 runs d' = runs d /\ polls d' = polls d
                 /\ (forall i, 0 <= i < n ->
                       regs d' !! (32 + i) = Some (to_uint8 (aget acts i)))
                 /\ (forall w, ~ (32 <= w < 32 + n) -> regs d' !! w = regs d !! w));
    [lia | |].
  - repeat split; try reflexivity. intros i Hi. lia.
  - intros j d' Hj (Hr & Hp & Ha & Hother).
    unfold add32, mul32, REG_ACT_BASE.
    rewrite (to_int32_id (j * 4)) by int_range.
    rewrite (to_int32_id (128 + j * 4)) by int_range.
    rewrite bench_write_plain by lia. cbn [regs runs polls].
    replace ((128 + j * 4) / 4) with (32 + j)
      by (apply Z.div_unique with (r := 0); lia).
    split; [exact Hr |]. split; [exact Hp |]. split.
    + intros i Hi. destruct (Z.eq_dec i j) as [-> | Hne].
      * apply lookup_insert_eq.
      * rewrite lookup_insert_ne by lia. apply Ha. lia.
    + intros w Hw. rewrite lookup_insert_ne by lia. apply Hother. lia.
Qed.

Lemma reg_of_act (r : gmap Z Z) (i v : Z) :
  0 <= i -> r !! (32 + i) = Some v -> reg_of r (REG_ACT_BASE + i * 4) = v.
Proof.
  intros Hi Hr. unfold reg_of, REG_ACT_BASE.
  replace ((128 + i * 4) / 4) with (32 + i)
    by (apply Z.div_unique with (r := 0); lia).
  rewrite Hr. reflexivity.
Qed.

(** A read of a RESULT register leaves the bank as it is. *)
Lemma bench_read_result (hw : bench_hw) (i : Z) (d : fpga) :
  0 <= i < 2 ^ 28 ->
  reg_read hw (add32 RES_BASE (mul32 i 4)) d
  = (bh_result hw (length (runs d)) (List.last (runs d) ∅) i, d).
Proof.
  intros Hi. change (2 ^ 28) with 268435456 in Hi.
  unfold reg_read, add32, mul32, RES_BASE. cbv zeta.
  rewrite (to_int32_id (i * 4)) by int_range.
  rewrite (to_int32_id (8192 + i * 4)) by int_range.
  rewrite (to_uint32_id (8192 + i * 4)) by int_range.
  replace ((8192 + i * 4) / 4) with (2048 + i)
    by (apply Z.div_unique with (r := 0); lia).
  change (REG_STATUS / 4) with 1. change (8192 / 4) with 2048.
  destruct (Z.eqb_spec (2048 + i) 1); [lia |].
  destruct (Z.leb_spec 2048 (2048 + i)); [| lia].
  replace (2048 + i - 2048) with i by lia. reflexivity.
Qed.

(** [read_results]: the low byte of RESULT[i], as an [int8_t], for every
    i below M. *)
Lemma read_results_spec (hw : bench_hw) (results : list Z) (M : Z) (d : fpga) :
  0 <= M < 2 ^ 28 -> M <= Z.of_nat (length results) ->
  snd (read_results hw results M d) = d
  /\ length (fst (read_results hw results M d)) = length results
  /\ (forall i, 0 <= i < M ->
        aget (fst (read_results hw results M d)) i
        = result_byte hw (length (runs d)) (List.last (runs d) ∅) i)
  /\ (forall j, M <= j -> aget (fst (read_results hw results M d)) j = aget results j).
Proof.
  intros HM Hlen. change (2 ^ 28) with 268435456 in HM. unfold read_results.
  apply for_range_ind
    with (P := fun k (out : list Z * fpga) =>
                 snd out = d
                 /\ length (fst out) = length results
                 /\ (forall i, 0 <= i < k ->
                       aget (fst out) i
                       = result_byte hw (length (runs d)) (List.last (runs d) ∅) i)
                 /\ (forall j, k <= j -> aget (fst out) j = aget results j)); [lia | |].
  - cbn [fst snd]. repeat split; try reflexivity. intros i Hi. lia.
  - intros k [res d'] Hk (Hd & Hl & Hin & Hout). cbn [fst snd] in *. subst d'.
    rewrite bench_read_result by (change (2 ^ 28) with 268435456; lia).
    cbn [fst snd]. split; [reflexivity |].
    split; [rewrite length_aset; exact Hl |]. split.
    + intros i Hi. destruct (Z.eq_dec i k) as [-> | Hne].
      * rewrite aget_aset_eq by lia. reflexivity.
      * rewrite aget_aset_ne by lia. apply Hin. lia.
    + intros j Hj. rewrite aget_aset_ne by lia. apply Hout. lia.
Qed.

(** X14. One call of [run_test] on an M x K matrix that fits the DDR3
    window, with the K activation and M result registers inside the
    mapped bridge and the arrays as long as the loops read them (M * K
    weights, K activations, M results), launches exactly one run.  The run is latched with
    WEIGHT_BASE = DDR3_BASE, DIM_M = M, DIM_K = K, SHIFT_AMT = shift and
    the K activations as unsigned bytes, whatever the registers held
    before; every other register, CTRL apart, is as it was before the
    call, activation registers from K on included.  The DDR3 window
    holds the packed tile of every (row, tile) of the matrix and is
    unchanged beyond its M rows.  The call returns 0 when STATUS shows
    done within 50000 reads and -1 otherwise; on -1 the output array is
    untouched; on 0 entry [i] of the output, for i below M, is the low
    byte of RESULT[i] read as an int8, and the entries from M on are
    untouched. *)
Theorem run_test_protocol (hw : bench_hw) (wmat acts : list Z) (M K shift : Z)
    (results : list Z) (b : board) :
  1 <= M -> 1 <= K -> fits_window M K -> fits_bridge M K ->
  M * K <= Z.of_nat (length wmat) -> K <= Z.of_nat (length acts) ->
  M <= Z.of_nat (length results) ->
  exists cfg,
    runs (g_bitnet (snd (run_test hw wmat acts M K shift results b)))
    = runs (g_bitnet b) ++ [cfg]
    /\ launched acts M K shift DDR3_BASE cfg
    /\ (forall w, w <> 0 -> ~ (2 <= w <= 5) -> ~ (32 <= w < 32 + K) ->
          cfg !! w = regs (g_bitnet b) !! w)
    /\ (forall row tile,
          0 <= row < M -> 0 <= tile < CodecSpec.tiles_per_row K ->
          CodecSpec.stored_tile (g_ddr3 (snd (run_test hw wmat acts M K shift results b)))
            K row tile
          = Some (pack_weights (tile_chunk wmat K row tile)))
    /\ (forall idx, ~ (0 <= idx * 4 < M * CodecSpec.byte_stride K) ->
          g_ddr3 (snd (run_test hw wmat acts M K shift results b)) !! idx
          = g_ddr3 b !! idx)
    /\ fst (fst (run_test hw wmat acts M K shift results b))
       = (if done_by hw (Datatypes.S (length (runs (g_bitnet b)))) 50000 then 0 else -1)
    /\ (done_by hw (Datatypes.S (length (runs (g_bitnet b)))) 50000 = false ->
          snd (fst (run_test hw wmat acts M K shift results b)) = results)
    /\ (done_by hw (Datatypes.S (length (runs (g_bitnet b)))) 50000 = true ->
          length (snd (fst (run_test hw wmat acts M K shift results b))) = length results
          /\ (forall i, 0 <= i < M ->
                aget (snd (fst (run_test hw wmat acts M K shift results b))) i
                = result_byte hw (Datatypes.S (length (runs (g_bitnet b)))) cfg i)
          /\ (forall j, M <= j ->
                aget (snd (fst (run_test hw wmat acts M K shift results b))) j
                = aget results j)).
Proof.
  intros HM1 HK1 Hwin (Hact_end & Hres_end) _ _ Hlen.
  unfold REG_ACT_BASE, RES_BASE, LW_BRIDGE_SPAN in Hact_end, Hres_end.
  assert (HM : 0 <= M < 2 ^ 28) by (change (2 ^ 28) with 268435456; lia).
  assert (HK : 0 <= K < 2 ^ 28) by (change (2 ^ 28) with 268435456; lia).
  assert (Hddr3 : g_ddr3 (snd (run_test hw wmat acts M K shift results b))
                  = write_weight_matrix wmat M K (g_ddr3 b)).
  { unfold run_test. cbv zeta.
    destruct (wait_done hw 500000 _) as [rc d4]. destruct (rc <? 0); [reflexivity |].
    destruct (read_results hw results M d4). reflexivity. }
  assert (Htiles : forall row tile,
            0 <= row < M -> 0 <= tile < CodecSpec.tiles_per_row K ->
            CodecSpec.stored_tile (g_ddr3 (snd (run_test hw wmat acts M K shift results b)))
              K row tile
            = Some (pack_weights (tile_chunk wmat K row tile))).
  { intros row tile Hrow Htile. rewrite Hddr3.
    apply stored_tile_written; assumption. }
  assert (Hframe : forall idx, ~ (0 <= idx * 4 < M * CodecSpec.byte_stride K) ->
            g_ddr3 (snd (run_test hw wmat acts M K shift results b)) !! idx
            = g_ddr3 b !! idx).
  { intros idx Hout. rewrite Hddr3.
    rewrite (write_weight_matrix_written wmat M K (g_ddr3 b) HM1 HK1 Hwin idx).
    unfold CodecSpec.byte_stride, CodecSpec.bytes_per_tile in Hout.
    destruct (Z.leb_spec 0 idx); simpl; [| reflexivity].
    destruct (Z.ltb_spec idx (M * CodecSpec.tiles_per_row K * 4)); [lia | reflexivity]. }
  clear Hddr3.
  assert (Hmain : exists cfg,
    runs (g_bitnet (snd (run_test hw wmat acts M K shift results b)))
    = runs (g_bitnet b) ++ [cfg]
    /\ launched acts M K shift DDR3_BASE cfg
    /\ (forall w, w <> 0 -> ~ (2 <= w <= 5) -> ~ (32 <= w < 32 + K) ->
          cfg !! w = regs (g_bitnet b) !! w)
    /\ fst (fst (run_test hw wmat acts M K shift results b))
       = (if done_by hw (Datatypes.S (length (runs (g_bitnet b)))) 50000 then 0 else -1)
    /\ (done_by hw (Datatypes.S (length (runs (g_bitnet b)))) 50000 = false ->
          snd (fst (run_test hw wmat acts M K shift results b)) = results)
    /\ (done_by hw (Datatypes.S (length (runs (g_bitnet b)))) 50000 = true ->
          length (snd (fst (run_test hw wmat acts M K shift results b))) = length results
          /\ (forall i, 0 <= i < M ->
                aget (snd (fst (run_test hw wmat acts M K shift results b))) i
                = result_byte hw (Datatypes.S (length (runs (g_bitnet b)))) cfg i)
          /\ (forall j, M <= j ->
                aget (snd (fst (run_test hw wmat acts M K shift results b))) j
                = aget results j))).
  2:{ destruct Hmain as (cfg & Hruns & Hcfg & Hkeep & Hrc & Hfail & Hok).
      exists cfg. repeat (split; [assumption |]). exact Hok. }
  clear Htiles Hframe.
  unfold run_test. cbv zeta.
  rewrite (bench_write_plain REG_WEIGHT_BASE) by (unfold REG_WEIGHT_BASE; lia).
  rewrite (bench_write_plain REG_DIM_M) by (unfold REG_DIM_M; lia).
  rewrite (bench_write_plain REG_DIM_K) by (unfold REG_DIM_K; lia).
  rewrite (bench_write_plain REG_SHIFT_AMT) by (unfold REG_SHIFT_AMT; lia).
  cbn [regs runs polls].
  set (r1 := <[REG_SHIFT_AMT / 4 := to_uint32 shift]>
               (<[REG_DIM_K / 4 := to_uint32 K]>
                  (<[REG_DIM_M / 4 := to_uint32 M]>
                     (<[REG_WEIGHT_BASE / 4 := DDR3_BASE]> (regs (g_bitnet b)))))).
  set (d1 := {| regs := r1; runs := runs (g_bitnet b); polls := polls (g_bitnet b) |}).
  destruct (write_activations_spec acts K d1 HK) as (Hruns & _ & Hact & Hother).
  rewrite bench_write_start.
  set (cfg := <[0 := 1]> (regs (write_activations acts K d1))).
  set (d3 := {| regs := cfg; runs := runs (write_activations acts K d1) ++ [cfg];
                polls := O |}).
  destruct (wait_done_outcome hw 500000 d3 ltac:(split; [lia | reflexivity]) eq_refl)
    as (Hwr & Hwn & Hrc).
  change ((500000 + 9) / 10) with 50000 in Hrc.
  assert (Hn : length (runs d3) = Datatypes.S (length (runs (g_bitnet b)))).
  { unfold d3. cbn [runs]. rewrite Hruns. unfold d1. cbn [runs].
    rewrite length_app. cbn [length]. lia. }
  rewrite Hn in Hrc.
  assert (Hlast : List.last (runs d3) ∅ = cfg).
  { unfold d3. cbn [runs]. apply last_last. }
  assert (Hruns3 : runs d3 = runs (g_bitnet b) ++ [cfg]).
  { unfold d3. cbn [runs]. rewrite Hruns. reflexivity. }
  assert (Hlow : forall w, w <> 0 -> ~ (32 <= w < 32 + K) -> cfg !! w = r1 !! w).
  { intros w Hw0 Hw. unfold cfg. rewrite lookup_insert_ne by lia.
    rewrite (Hother w Hw). reflexivity. }
  assert (Hcfg : launched acts M K shift DDR3_BASE cfg).
  { assert (Hreg : forall off, 4 <= off < 128 -> reg_of cfg off = reg_of r1 off).
    { intros off Hoff. unfold reg_of.
      assert (1 <= off / 4) by (apply Z.div_le_lower_bound; lia).
      assert (off / 4 < 32) by (apply Z.div_lt_upper_bound; lia).
      rewrite Hlow by lia. reflexivity. }
    unfold launched.
    rewrite (Hreg REG_WEIGHT_BASE) by (unfold REG_WEIGHT_BASE; lia).
    rewrite (Hreg REG_DIM_M) by (unfold REG_DIM_M; lia).
    rewrite (Hreg REG_DIM_K) by (unfold REG_DIM_K; lia).
    rewrite (Hreg REG_SHIFT_AMT) by (unfold REG_SHIFT_AMT; lia).
    unfold r1.
    split; [| split; [| split; [| split]]].
    - rewrite !reg_of_insert_ne by (vm_compute; discriminate).
      apply reg_of_insert_eq.
    - rewrite !reg_of_insert_ne by (vm_compute; discriminate).
      apply reg_of_insert_eq.
    - rewrite !reg_of_insert_ne by (vm_compute; discriminate).
      apply reg_of_insert_eq.
    - apply reg_of_insert_eq.
    - intros i Hi.
      apply reg_of_act; [lia |]. unfold cfg. rewrite lookup_insert_ne by lia.
      apply Hact. exact Hi. }
  exists cfg.
  destruct (wait_done hw 500000 d3) as [rc d4]. cbn [fst snd] in Hwr, Hwn, Hrc.
  assert (Hkeep : forall w, w <> 0 -> ~ (2 <= w <= 5) -> ~ (32 <= w < 32 + K) ->
                    cfg !! w = regs (g_bitnet b) !! w).
  { intros w Hw0 Hcfgw Hw. rewrite (Hlow w Hw0 Hw). unfold r1.
    change (REG_SHIFT_AMT / 4) with 5. change (REG_DIM_K / 4) with 4.
    change (REG_DIM_M / 4) with 3. change (REG_WEIGHT_BASE / 4) with 2.
    rewrite !lookup_insert_ne by lia. reflexivity. }
  destruct (done_by hw (Datatypes.S (length (runs (g_bitnet b)))) 50000).
  - subst rc. change (0 <? 0) with false. cbv iota.
    destruct (read_results_spec hw results M d4 HM Hlen) as (Hd & Hl & Hin & Hout).
    destruct (read_results hw results M d4) as [res d5]. cbn [fst snd] in *. subst d5.
    cbn [g_bitnet g_ddr3].
    rewrite Hwn, Hn, Hlast in Hin.
    split; [rewrite Hwn; exact Hruns3 |]. split; [exact Hcfg |].
    split; [exact Hkeep |]. split; [reflexivity |].
    split; [discriminate |]. intros _. split; [exact Hl |]. split; assumption.
  - subst rc. change (-1 <? 0) with true. cbv iota. cbn [fst snd g_bitnet g_ddr3].
    split; [rewrite Hwn; exact Hruns3 |]. split; [exact Hcfg |].
    split; [exact Hkeep |]. split; [reflexivity |].
    split; [reflexivity | discriminate].
Qed.

Lemma run_test_protocol_witness :
  exists cfg,
    runs (g_bitnet (snd (run_test
                           {| bh_status := fun _ _ => 2;
                              bh_result := fun _ _ i => 250 + i;
                              bh_cycles := fun _ _ => 0 |}
                           (replicate 140 1) (replicate 70 3) 2 70 0 [7; 7; 7]
                           {| g_bitnet := demo_bank; g_ddr3 := ∅ |})))
    = runs demo_bank ++ [cfg]
    /\ launched (replicate 70 3) 2 70 0 DDR3_BASE cfg.
Proof.
  destruct (run_test_protocol
              {| bh_status := fun _ _ => 2;
                 bh_result := fun _ _ i => 250 + i;
                 bh_cycles := fun _ _ => 0 |}
              (replicate 140 1) (replicate 70 3) 2 70 0 [7; 7; 7]
              {| g_bitnet := demo_bank; g_ddr3 := ∅ |})
    as (cfg & Hruns & Hcfg & _).
  - lia.
  - lia.
  - unfold fits_window. vm_compute. discriminate.
  - unfold fits_bridge. vm_compute. split; discriminate.
  - rewrite length_replicate. lia.
  - rewrite length_replicate. lia.
  - cbn [length]. lia.
  - exists cfg. split; [exact Hruns | exact Hcfg].
Defined.

End BenchFacts.


(** ** The network of [mnist_inference.c] *)

Module MnistFacts.

Import Fpga Bench Mnist MnistSpec FpgaFacts BenchFacts.

Lemma aget_map (f : Z -> Z) (l : list Z) (j : Z) :
  0 <= j < Z.of_nat (length l) -> aget (map f l) j = f (aget l j).
Proof.
  intros Hj. rewrite !aget_nth by lia.
  destruct (lookup_lt_is_Some_2 l (Z.to_nat j) ltac:(lia)) as (p & Hp).
  rewrite (nth_lookup_Some l (Z.to_nat j) 0 p Hp).
  apply nth_lookup_Some. change (map f l) with (f <$> l).
  rewrite list_lookup_fmap, Hp. reflexivity.
Qed.

Lemma length_map_seqZ (f : Z -> Z) (n : Z) :
  0 <= n -> Z.of_nat (length (map f (seqZ 0 n))) = n.
Proof. intros Hn. rewrite length_map, length_seqZ. lia. Qed.

(** [relu_int8] over a whole buffer. *)
Lemma relu_int8_map (buf : list Z) (n : Z) :
  Z.of_nat (length buf) = n -> relu_int8 buf n = relu buf.
Proof.
  intros Hn. unfold relu_int8, relu.
  assert (H : length (for_range 0 n
                        (fun i b => if aget b i <? 0 then aset b i 0 else b) buf)
              = length buf
              /\ (forall i, 0 <= i < n ->
                    aget (for_range 0 n
                            (fun i b => if aget b i <? 0 then aset b i 0 else b) buf) i
                    = Z.max 0 (aget buf i))
              /\ (forall i, n <= i ->
                    aget (for_range 0 n
                            (fun i b => if aget b i <? 0 then aset b i 0 else b) buf) i
                    = aget buf i)).
  { apply for_range_ind
      with (P := fun k out =>
                   length out = length buf
                   /\ (forall i, 0 <= i < k -> aget out i = Z.max 0 (aget buf i))
                   /\ (forall i, k <= i -> aget out i = aget buf i)); [lia | |].
    - repeat split; try reflexivity. intros i Hi. lia.
    - intros k out Hk (Hl & Hlow & Hhigh).
      pose proof (Hhigh k ltac:(lia)) as Hcur.
      destruct (Z.ltb_spec (aget out k) 0) as [Hneg | Hpos].
      + split; [rewrite length_aset; exact Hl |]. split.
        * intros i Hi. destruct (Z.eq_dec i k) as [-> | Hne].
          -- rewrite aget_aset_eq by lia. lia.
          -- rewrite aget_aset_ne by lia. apply Hlow. lia.
        * intros i Hi. rewrite aget_aset_ne by lia. apply Hhigh. lia.
      + split; [exact Hl |]. split.
        * intros i Hi. destruct (Z.eq_dec i k) as [-> | Hne]; [lia |].
          apply Hlow. lia.
        * intros i Hi. apply Hhigh. lia. }
  destruct H as (Hl & Hlow & _).
  apply DriverSpec.list_eq_aget; [rewrite length_map; exact Hl |].
  intros j Hj. rewrite Hl in Hj. rewrite Hlow by lia.
  rewrite aget_map by lia. reflexivity.
Qed.


(** [read_results] over a whole buffer. *)
Lemma read_results_map (hw : bench_hw) (results : list Z) (M : Z) (d : fpga) :
  0 <= M < 2 ^ 28 -> Z.of_nat (length results) = M ->
  fst (read_results hw results M d)
  = map (result_byte hw (length (runs d)) (List.last (runs d) ∅)) (seqZ 0 M).
Proof.
  intros HM Hlen.
  destruct (read_results_spec hw results M d HM ltac:(lia)) as (_ & Hl & Hin & _).
  apply DriverSpec.list_eq_aget.
  - apply Nat2Z.inj. rewrite Hl, length_map_seqZ by lia. exact Hlen.
  - intros j Hj. rewrite Hl in Hj. rewrite Hin by lia.
    rewrite DriverSpec.aget_map_seqZ by lia. reflexivity.
Qed.

Lemma result_byte_range (hw : bench_hw) (n : nat) (cfg : gmap Z Z) (i : Z) :
  is_int8 (result_byte hw n cfg i).
Proof.
  unfold result_byte, to_int8, is_int8.
  pose proof (Z.mod_pos_bound (Z.land (bh_result hw n cfg i) 255 + 2 ^ 7) (2 ^ 8) ltac:(lia)).
  change (2 ^ 7) with 128 in *. change (2 ^ 8) with 256 in *. lia.
Qed.

(** One layer on the accelerator. *)
Lemma fpga_layer_spec (hw : bench_hw) (activations results : list Z)
    (M K shift off c : Z) (s : mnist) :
  0 <= M < 2 ^ 28 -> 0 <= K < 2 ^ 28 -> Z.of_nat (length results) = M ->
  exists cfg,
    runs (bank (snd (fpga_layer hw activations results M K shift off c s)))
    = runs (bank s) ++ [cfg]
    /\ launched activations M K shift (addu32 DDR3_BASE off) cfg
    /\ ddr3_l1_offset (snd (fpga_layer hw activations results M K shift off c s))
       = ddr3_l1_offset s
    /\ ddr3_l2_offset (snd (fpga_layer hw activations results M K shift off c s))
       = ddr3_l2_offset s
    /\ ddr3_l3_offset (snd (fpga_layer hw activations results M K shift off c s))
       = ddr3_l3_offset s
    /\ fpga_layer hw activations results M K shift off c s
       = (if done_by hw (Datatypes.S (length (runs (bank s)))) 200000
          then (0,
                map (result_byte hw (Datatypes.S (length (runs (bank s)))) cfg) (seqZ 0 M),
                bh_cycles hw (Datatypes.S (length (runs (bank s)))) cfg)
          else (-1, results, c),
          snd (fpga_layer hw activations results M K shift off c s))
    /\ timeout_lines (snd (fpga_layer hw activations results M K shift off c s))
       = timeout_lines s
         ++ (if done_by hw (Datatypes.S (length (runs (bank s)))) 200000 then []
             else [(M, K)]).
Proof.
  intros HM HK Hlen. unfold fpga_layer. cbv zeta.
  destruct (write_activations_spec activations K (bank s) HK) as (Hruns & _ & Hact & _).
  set (d0 := write_activations activations K (bank s)) in *.
  rewrite (bench_write_plain REG_WEIGHT_BASE) by (unfold REG_WEIGHT_BASE; lia).
  rewrite (bench_write_plain REG_DIM_M) by (unfold REG_DIM_M; lia).
  rewrite (bench_write_plain REG_DIM_K) by (unfold REG_DIM_K; lia).
  rewrite (bench_write_plain REG_SHIFT_AMT) by (unfold REG_SHIFT_AMT; lia).
  cbn [regs runs polls]. rewrite bench_write_start. cbn [regs runs polls].
  set (cfg := <[0 := 1]>
                (<[REG_SHIFT_AMT / 4 := to_uint32 shift]>
                   (<[REG_DIM_K / 4 := to_uint32 K]>
                      (<[REG_DIM_M / 4 := to_uint32 M]>
                         (<[REG_WEIGHT_BASE / 4 := addu32 DDR3_BASE off]> (regs d0)))))).
  set (d3 := {| regs := cfg; runs := runs d0 ++ [cfg]; polls := O |}).
  destruct (wait_done_outcome hw 2000000 d3 ltac:(split; [lia | reflexivity]) eq_refl)
    as (_ & Hwn & Hrc).
  change ((2000000 + 9) / 10) with 200000 in Hrc.
  assert (Hn : length (runs d3) = Datatypes.S (length (runs (bank s)))).
  { unfold d3. cbn [runs]. rewrite Hruns, length_app. cbn [length]. lia. }
  rewrite Hn in Hrc.
  assert (Hlast : List.last (runs d3) ∅ = cfg).
  { unfold d3. cbn [runs]. apply last_last. }
  assert (Hruns3 : runs d3 = runs (bank s) ++ [cfg]).
  { unfold d3. cbn [runs]. rewrite Hruns. reflexivity. }
  assert (Hcfg : launched activations M K shift (addu32 DDR3_BASE off) cfg).
  { unfold launched, cfg.
    split; [| split; [| split; [| split]]].
    - rewrite !reg_of_insert_ne by (vm_compute; discriminate). apply reg_of_insert_eq.
    - rewrite !reg_of_insert_ne by (vm_compute; discriminate). apply reg_of_insert_eq.
    - rewrite !reg_of_insert_ne by (vm_compute; discriminate). apply reg_of_insert_eq.
    - rewrite !reg_of_insert_ne by (vm_compute; discriminate). apply reg_of_insert_eq.
    - intros i Hi. apply reg_of_act; [lia |].
      change (REG_SHIFT_AMT / 4) with 5. change (REG_DIM_K / 4) with 4.
      change (REG_DIM_M / 4) with 3. change (REG_WEIGHT_BASE / 4) with 2.
      rewrite !lookup_insert_ne by lia. apply Hact. exact Hi. }
  exists cfg.
  destruct (wait_done hw 2000000 d3) as [rc d4]. cbn [fst snd] in Hwn, Hrc.
  destruct (done_by hw (Datatypes.S (length (runs (bank s)))) 200000).
  - subst rc. change (0 <? 0) with false. cbv iota.
    change (reg_read hw REG_PERF_CYCLES d4)
      with (bh_cycles hw (length (runs d4)) (List.last (runs d4) ∅), d4).
    cbv beta iota.
    pose proof (read_results_map hw results M d4 HM Hlen) as Hmap.
    destruct (read_results_spec hw results M d4 HM ltac:(lia)) as (Hd & _).
    destruct (read_results hw results M d4) as [res d5]. cbn [fst snd] in *. subst d5.
    rewrite Hwn, Hn, Hlast in *. subst res.
    unfold with_bank. cbn [bank ddr3_l1_offset ddr3_l2_offset ddr3_l3_offset timeout_lines].
    rewrite app_nil_r, Hwn.
    split; [exact Hruns3 |]. split; [exact Hcfg |].
    repeat (split; [reflexivity |]). reflexivity.
  - subst rc. change (-1 <? 0) with true. cbv iota.
    cbn [fst snd bank ddr3_l1_offset ddr3_l2_offset ddr3_l3_offset timeout_lines].
    rewrite Hwn.
    split; [exact Hruns3 |]. split; [exact Hcfg |].
    repeat (split; [reflexivity |]). reflexivity.
Qed.

(** The whole course of [fpga_inference]. *)
Lemma fpga_inference_trace (hw : bench_hw) (net : network) (image layer_cycles : list Z)
    (buf1 buf2 buf3 : list Z) (s : mnist) :
  sized net buf1 buf2 buf3 -> 0 <= L1_M net -> 0 <= L2_M net -> 0 <= L3_M net ->
  exists cfg1 cfg2 cfg3,
    launched image (L1_M net) (L1_K net) (L1_SHIFT net)
      (addu32 DDR3_BASE (ddr3_l1_offset s)) cfg1
    /\ (layer_ok hw s 1 = true ->
        launched (relu (layer_out hw s 1 cfg1 (L1_M net)))
          (L2_M net) (L2_K net) (L2_SHIFT net)
          (addu32 DDR3_BASE (ddr3_l2_offset s)) cfg2)
    /\ (layer_ok hw s 1 = true -> layer_ok hw s 2 = true ->
        launched (relu (layer_out hw s 2 cfg2 (L2_M net)))
          (L3_M net) (L3_K net) (L3_SHIFT net)
          (addu32 DDR3_BASE (ddr3_l3_offset s)) cfg3)
    /\ fst (fst (fpga_inference hw net image layer_cycles buf1 buf2 buf3 s))
       = (if layer_ok hw s 1 && layer_ok hw s 2 && layer_ok hw s 3
          then argmax_int8 (layer_out hw s 3 cfg3 (L3_M net)) (L3_M net)
          else -1)
    /\ (layer_ok hw s 1 && layer_ok hw s 2 && layer_ok hw s 3 = true ->
        snd (fst (fpga_inference hw net image layer_cycles buf1 buf2 buf3 s))
        = aset (aset (aset layer_cycles 0
                        (bh_cycles hw (length (runs (bank s)) + 1) cfg1))
                  1 (bh_cycles hw (length (runs (bank s)) + 2) cfg2))
            2 (bh_cycles hw (length (runs (bank s)) + 3) cfg3))
    /\ runs (bank (snd (fpga_inference hw net image layer_cycles buf1 buf2 buf3 s)))
       = runs (bank s)
         ++ (if layer_ok hw s 1
             then if layer_ok hw s 2 then [cfg1; cfg2; cfg3] else [cfg1; cfg2]
             else [cfg1])
    /\ timeout_lines (snd (fpga_inference hw net image layer_cycles buf1 buf2 buf3 s))
       = timeout_lines s
         ++ (if layer_ok hw s 1
             then if layer_ok hw s 2
                  then if layer_ok hw s 3 then [] else [(L3_M net, L3_K net)]
                  else [(L2_M net, L2_K net)]
             else [(L1_M net, L1_K net)]).
Proof.
  intros ((HK1 & HK2 & HK3) & (HM1 & HM2 & HM3) & Hb1 & Hb2 & Hb3) H1 H2 H3.
  unfold layer_ok, layer_out, fpga_inference.
  replace (length (runs (bank s)) + 1)%nat with (Datatypes.S (length (runs (bank s))))
    by lia.
  replace (length (runs (bank s)) + 2)%nat
    with (Datatypes.S (Datatypes.S (length (runs (bank s))))) by lia.
  replace (length (runs (bank s)) + 3)%nat
    with (Datatypes.S (Datatypes.S (Datatypes.S (length (runs (bank s)))))) by lia.
  set (n0 := length (runs (bank s))).
  (* layer 1 *)
  destruct (fpga_layer_spec hw image buf1 (L1_M net) (L1_K net) (L1_SHIFT net)
              (ddr3_l1_offset s) (aget layer_cycles 0) s ltac:(lia) HK1 Hb1)
    as (cfg1 & Hr1 & Hc1 & _ & Ho12 & Ho13 & He1 & Ht1).
  fold n0 in He1, Ht1.
  destruct (fpga_layer hw image buf1 (L1_M net) (L1_K net) (L1_SHIFT net)
              (ddr3_l1_offset s) (aget layer_cycles 0) s) as [[[rc1 b1] c1] s1].
  cbn [snd] in Hr1, Ho12, Ho13, He1, Ht1.
  destruct (done_by hw (Datatypes.S n0) 200000).
  2:{ apply pair_equal_spec in He1 as (He1 & _).
      apply pair_equal_spec in He1 as (He1 & ->).
      apply pair_equal_spec in He1 as (-> & ->).
      change (-1 <? 0) with true. cbv iota. cbn [fst snd andb].
      exists cfg1, ∅, ∅.
      split; [exact Hc1 |]. split; [discriminate |]. split; [discriminate |].
      split; [reflexivity |]. split; [discriminate |].
      split; [exact Hr1 | exact Ht1]. }
  apply pair_equal_spec in He1 as (He1 & _).
  apply pair_equal_spec in He1 as (He1 & ->).
  apply pair_equal_spec in He1 as (-> & ->).
  change (0 <? 0) with false. cbv iota. rewrite app_nil_r in Ht1.
  rewrite relu_int8_map by (apply length_map_seqZ; exact H1).
  (* layer 2 *)
  assert (Hn1 : length (runs (bank s1)) = Datatypes.S n0).
  { rewrite Hr1, length_app. cbn [length]. unfold n0. lia. }
  destruct (fpga_layer_spec hw
              (relu (map (result_byte hw (Datatypes.S n0) cfg1) (seqZ 0 (L1_M net))))
              buf2 (L2_M net) (L2_K net) (L2_SHIFT net) (ddr3_l2_offset s1)
              (aget (aset layer_cycles 0 (bh_cycles hw (Datatypes.S n0) cfg1)) 1) s1
              ltac:(lia) HK2 Hb2)
    as (cfg2 & Hr2 & Hc2 & _ & _ & Ho23 & He2 & Ht2).
  rewrite Hn1 in He2, Ht2. rewrite Ho12 in Hc2.
  destruct (fpga_layer hw _ buf2 (L2_M net) (L2_K net) (L2_SHIFT net)
              (ddr3_l2_offset s1) _ s1) as [[[rc2 b2] c2] s2].
  cbn [snd] in Hr2, Ho23, He2, Ht2.
  destruct (done_by hw (Datatypes.S (Datatypes.S n0)) 200000).
  2:{ apply pair_equal_spec in He2 as (He2 & _).
      apply pair_equal_spec in He2 as (He2 & ->).
      apply pair_equal_spec in He2 as (-> & ->).
      change (-1 <? 0) with true. cbv iota. cbn [fst snd andb].
      exists cfg1, cfg2, ∅.
      split; [exact Hc1 |]. split; [intros _; exact Hc2 |]. split; [discriminate |].
      split; [reflexivity |]. split; [discriminate |].
      split; [rewrite Hr2, Hr1, <- app_assoc; reflexivity |].
      rewrite Ht2, Ht1. reflexivity. }
  apply pair_equal_spec in He2 as (He2 & _).
  apply pair_equal_spec in He2 as (He2 & ->).
  apply pair_equal_spec in He2 as (-> & ->).
  change (0 <? 0) with false. cbv iota. rewrite app_nil_r in Ht2.
  rewrite relu_int8_map by (apply length_map_seqZ; exact H2).
  (* layer 3 *)
  assert (Hn2 : length (runs (bank s2)) = Datatypes.S (Datatypes.S n0)).
  { rewrite Hr2, length_app, Hn1. cbn [length]. lia. }
  destruct (fpga_layer_spec hw
              (relu (map (result_byte hw (Datatypes.S (Datatypes.S n0)) cfg2)
                       (seqZ 0 (L2_M net))))
              buf3 (L3_M net) (L3_K net) (L3_SHIFT net) (ddr3_l3_offset s2)
              (aget (aset (aset layer_cycles 0 (bh_cycles hw (Datatypes.S n0) cfg1)) 1
                       (bh_cycles hw (Datatypes.S (Datatypes.S n0)) cfg2)) 2) s2
              ltac:(lia) HK3 Hb3)
    as (cfg3 & Hr3 & Hc3 & _ & _ & _ & He3 & Ht3).
  rewrite Hn2 in He3, Ht3. rewrite Ho23, Ho13 in Hc3.
  destruct (fpga_layer hw _ buf3 (L3_M net) (L3_K net) (L3_SHIFT net)
              (ddr3_l3_offset s2) _ s2) as [[[rc3 b3] c3] s3].
  cbn [snd] in Hr3, He3, Ht3.
  exists cfg1, cfg2, cfg3.
  split; [exact Hc1 |]. split; [intros _; exact Hc2 |].
  split; [intros _ _; exact Hc3 |].
  destruct (done_by hw (Datatypes.S (Datatypes.S (Datatypes.S n0))) 200000).
  - apply pair_equal_spec in He3 as (He3 & _).
    apply pair_equal_spec in He3 as (He3 & ->).
    apply pair_equal_spec in He3 as (-> & ->).
    change (0 <? 0) with false. cbv iota. cbn [fst snd andb].
    split; [reflexivity |]. split; [intros _; reflexivity |].
    split; [rewrite Hr3, Hr2, Hr1, <- !app_assoc; reflexivity |].
    rewrite Ht3, Ht2, Ht1. reflexivity.
  - apply pair_equal_spec in He3 as (He3 & _).
    apply pair_equal_spec in He3 as (He3 & ->).
    apply pair_equal_spec in He3 as (-> & ->).
    change (-1 <? 0) with true. cbv iota. cbn [fst snd andb].
    split; [reflexivity |]. split; [discriminate |].
    split; [rewrite Hr3, Hr2, Hr1, <- !app_assoc; reflexivity |].
    rewrite Ht3, Ht2, Ht1. reflexivity.
Qed.


(** Done at the first read of STATUS is done within any positive number
    of reads. *)
Lemma done_by_first (hw : bench_hw) (launch : nat) (n : Z) :
  0 < n -> Z.land (bh_status hw launch 0) 2 <> 0 -> done_by hw launch n = true.
Proof.
  intros Hn Hdone. unfold done_by.
  replace (Z.to_nat n) with (Datatypes.S (Z.to_nat (n - 1))) by lia.
  cbn [seq existsb]. apply Z.eqb_neq in Hdone. rewrite Hdone. reflexivity.
Qed.



(** The activation registers a layer is launched with, when they come
    from the ReLU of the bytes read back from the run before. *)
Lemma relu_activations (hw : bench_hw) (s : mnist) (k : nat) (prev cfg : gmap Z Z)
    (Mprev M K shift base : Z) :
  0 <= Mprev -> K = Mprev ->
  launched (relu (layer_out hw s k prev Mprev)) M K shift base cfg ->
  forall i, 0 <= i < K ->
    reg_of cfg (REG_ACT_BASE + i * 4)
    = Z.max 0 (result_byte hw (length (runs (bank s)) + k) prev i).
Proof.
  intros HM -> (_ & _ & _ & _ & Hact) i Hi.
  rewrite (Hact i Hi). unfold relu, layer_out.
  rewrite aget_map by (rewrite length_map_seqZ; lia).
  rewrite DriverSpec.aget_map_seqZ by lia.
  pose proof (result_byte_range hw (length (runs (bank s)) + k) prev i) as Hr.
  unfold is_int8 in Hr. unfold to_uint8. change (2 ^ 8) with 256.
  apply Z.mod_small. lia.
Qed.

(** X16. When all three layers complete, in a network whose layers are
    wired to one another (the image has L1_K entries, L2_K = L1_M,
    L3_K = L2_M, [layer_cycles] has three entries, the registers lie
    inside the mapped bridge),
    [fpga_inference] launches three runs: the first on the image, the
    second on the ReLU of the bytes read back from the first, the third
    on the ReLU of the bytes read back from the second, each with the
    M, K, shift and DDR3 offset of its layer; activation register [i]
    of the second and third run holds max(0, byte [i] read back from
    the run before).  It returns the arg-max of the L3_M bytes read back
    from the third run and stores the three cycle counts.  The contents
    the local buffers had before the call play no part. *)
Theorem fpga_inference_dataflow (hw : bench_hw) (net : network)
    (image layer_cycles buf1 buf2 buf3 : list Z) (s : mnist) :
  sized net buf1 buf2 buf3 -> wired net image layer_cycles ->
  0 <= L1_M net -> 0 <= L2_M net -> 0 <= L3_M net ->
  layer_ok hw s 1 = true -> layer_ok hw s 2 = true -> layer_ok hw s 3 = true ->
  exists cfg1 cfg2 cfg3,
    runs (bank (snd (fpga_inference hw net image layer_cycles buf1 buf2 buf3 s)))
    = runs (bank s) ++ [cfg1; cfg2; cfg3]
    /\ launched image (L1_M net) (L1_K net) (L1_SHIFT net)
         (addu32 DDR3_BASE (ddr3_l1_offset s)) cfg1
    /\ launched (relu (layer_out hw s 1 cfg1 (L1_M net)))
         (L2_M net) (L2_K net) (L2_SHIFT net)
         (addu32 DDR3_BASE (ddr3_l2_offset s)) cfg2
    /\ launched (relu (layer_out hw s 2 cfg2 (L2_M net)))
         (L3_M net) (L3_K net) (L3_SHIFT net)
         (addu32 DDR3_BASE (ddr3_l3_offset s)) cfg3
    /\ (forall i, 0 <= i < L2_K net ->
          reg_of cfg2 (REG_ACT_BASE + i * 4)
          = Z.max 0 (result_byte hw (length (runs (bank s)) + 1) cfg1 i))
    /\ (forall i, 0 <= i < L3_K net ->
          reg_of cfg3 (REG_ACT_BASE + i * 4)
          = Z.max 0 (result_byte hw (length (runs (bank s)) + 2) cfg2 i))
    /\ fst (fst (fpga_inference hw net image layer_cycles buf1 buf2 buf3 s))
       = argmax_int8 (layer_out hw s 3 cfg3 (L3_M net)) (L3_M net)
    /\ snd (fst (fpga_inference hw net image layer_cycles buf1 buf2 buf3 s))
       = [bh_cycles hw (length (runs (bank s)) + 1) cfg1;
          bh_cycles hw (length (runs (bank s)) + 2) cfg2;
          bh_cycles hw (length (runs (bank s)) + 3) cfg3].
Proof.
  intros Hsz (_ & Hk2 & Hk3 & Hcycles & _) H1 H2 H3 Hok1 Hok2 Hok3.
  destruct (fpga_inference_trace hw net image layer_cycles buf1 buf2 buf3 s
              Hsz H1 H2 H3)
    as (cfg1 & cfg2 & cfg3 & Hc1 & Hc2 & Hc3 & Hrc & Hcyc & Hruns & _).
  rewrite Hok1, Hok2, Hok3 in *. cbn [andb] in *.
  specialize (Hc2 eq_refl). specialize (Hc3 eq_refl eq_refl).
  exists cfg1, cfg2, cfg3.
  split; [exact Hruns |]. split; [exact Hc1 |]. split; [exact Hc2 |].
  split; [exact Hc3 |].
  split; [exact (relu_activations hw s 1 cfg1 cfg2 _ _ _ _ _ H1 Hk2 Hc2) |].
  split; [exact (relu_activations hw s 2 cfg2 cfg3 _ _ _ _ _ H2 Hk3 Hc3) |].
  split; [exact Hrc |].
  rewrite (Hcyc eq_refl).
  destruct layer_cycles as [|c0 [|c1 [|c2 [|c3 rest]]]]; try discriminate Hcycles.
  reflexivity.
Qed.

Lemma fpga_inference_dataflow_witness :
  exists cfg1 cfg2 cfg3,
    runs (bank (snd (fpga_inference (demo_bench []) demo_net [1; 2; 3; 4; 5; 6]
                       [0; 0; 0] [0; 0; 0] [0; 0] [0; 0] demo_state)))
    = runs (bank demo_state) ++ [cfg1; cfg2; cfg3]
    /\ (forall i, 0 <= i < L2_K demo_net ->
          reg_of cfg2 (REG_ACT_BASE + i * 4)
          = Z.max 0 (result_byte (demo_bench []) (length (runs (bank demo_state)) + 1)
                       cfg1 i)).
Proof.
  destruct (fpga_inference_dataflow (demo_bench []) demo_net [1; 2; 3; 4; 5; 6]
              [0; 0; 0] [0; 0; 0] [0; 0] [0; 0] demo_state)
    as (cfg1 & cfg2 & cfg3 & Hruns & _ & _ & _ & Hact2 & _).
  - unfold sized. cbn. lia.
  - unfold wired, fits_bridge. vm_compute.
    repeat split; first [reflexivity | discriminate].
  - cbn. lia.
  - cbn. lia.
  - cbn. lia.
  - apply done_by_first; [lia | vm_compute; discriminate].
  - apply done_by_first; [lia | vm_compute; discriminate].
  - apply done_by_first; [lia | vm_compute; discriminate].
  - exists cfg1, cfg2, cfg3. split; [exact Hruns | exact Hact2].
Defined.










End MnistFacts.


(** ** Loading a weight file *)

Module LoadFacts.

(** X19. [fpga_load_weights] succeeds exactly when the file can be
    opened and is no longer than the DDR3 window.  On success the bytes
    of the file lie at the start of the window, in order, the rest of
    the window and its length are unchanged; on failure the window is
    untouched and the return value is -1. *)
Theorem fpga_load_weights_spec (file : option (list Z)) (fpga_ddr3_span : Z)
    (fpga_ddr3 : list Z) :
  0 <= fpga_ddr3_span < 2 ^ 32 ->
  fpga_ddr3_span <= Z.of_nat (length fpga_ddr3) ->
  match file with Some f => Z.of_nat (length f) < 2 ^ 31 | None => True end ->
  (fst (fpga_load_weights file fpga_ddr3_span fpga_ddr3) = 0
   <-> exists f, file = Some f /\ Z.of_nat (length f) <= fpga_ddr3_span)
  /\ (fst (fpga_load_weights file fpga_ddr3_span fpga_ddr3) <> 0 ->
      fpga_load_weights file fpga_ddr3_span fpga_ddr3 = (-1, fpga_ddr3))
  /\ (forall f, file = Some f -> Z.of_nat (length f) <= fpga_ddr3_span ->
        snd (fpga_load_weights file fpga_ddr3_span fpga_ddr3)
        = f ++ drop (length f) fpga_ddr3
        /\ length (snd (fpga_load_weights file fpga_ddr3_span fpga_ddr3))
           = length fpga_ddr3).
Proof.
  intros Hspan Hwin Hfile. change (2 ^ 32) with 4294967296 in Hspan.
  destruct file as [f |].
  2:{ cbn [fpga_load_weights fst snd]. split; [| split].
      - split; [discriminate | intros (f & Hf & _); discriminate].
      - reflexivity.
      - intros f Hf. discriminate. }
  change (2 ^ 31) with 2147483648 in Hfile.
  unfold fpga_load_weights. cbv zeta.
  rewrite (to_uint32_id (Z.of_nat (length f)))
    by (unfold is_uint32; change (2 ^ 32) with 4294967296; lia).
  destruct (Z.gtb_spec (Z.of_nat (length f)) fpga_ddr3_span) as [Hbig | Hfit].
  - cbn [fst snd]. split; [| split].
    + split; [discriminate |]. intros (f' & Hf' & Hle).
      apply (inj Some) in Hf'. subst f'. lia.
    + reflexivity.
    + intros f' Hf' Hle. apply (inj Some) in Hf'. subst f'. lia.
  - unfold Image.fread. cbv zeta.
    rewrite (to_uint32_id (Z.of_nat (length f)))
      by (unfold is_uint32; change (2 ^ 32) with 4294967296; lia).
    rewrite Nat2Z.id, take_ge by lia.
    rewrite to_int32_id by (unfold is_int32; change (2 ^ 31) with 2147483648; lia).
    rewrite Z.eqb_refl. cbn [negb fst snd].
    split; [| split].
    + split; [intros _; exists f; split; [reflexivity | exact Hfit] | reflexivity].
    + intros H. exfalso. apply H. reflexivity.
    + intros f' Hf' _. apply (inj Some) in Hf'. subst f'.
      split; [reflexivity |]. rewrite length_app, length_drop. lia.
Qed.

Lemma fpga_load_weights_spec_witness :
  snd (fpga_load_weights (Some [1; 2; 3]) 4 [9; 9; 9; 9; 9])
  = [1; 2; 3] ++ drop (length [1; 2; 3]) [9; 9; 9; 9; 9].
Proof.
  refine (proj1 (proj2 (proj2 (fpga_load_weights_spec (Some [1; 2; 3]) 4 [9; 9; 9; 9; 9]
                                 _ _ _)) [1; 2; 3] eq_refl _)).
  - split; [lia | reflexivity].
  - cbn [length]. lia.
  - reflexivity.
  - cbn [length]. lia.
Defined.

End LoadFacts.


(** ** The smoke test of the driver: 128-weight tiles *)

Module DriverTestFacts.

Import Fpga DriverTest.

Lemma aget_replicate_zero (n : nat) (i : Z) : aget (replicate n 0) i = 0.
Proof.
  unfold aget. destruct (i <? 0); [reflexivity |].
  destruct (Nat.lt_ge_cases (Z.to_nat i) n) as [Hlt | Hge].
  - apply nth_lookup_Some. apply lookup_replicate_2. exact Hlt.
  - apply nth_overflow. rewrite length_replicate. exact Hge.
Qed.

(** One turn of the loop of [pack_weights_128]. *)
Lemma packed128_step (weights : list Z) (i : Z) (out : list Z) :
  0 <= i < 128 ->
  packed128_upto weights i out ->
  packed128_upto weights (i + 1)
    (aset out (Z.quot i 16)
       (Z.lor (aget out (Z.quot i 16))
          (shlu32 (encode (aget weights i)) (mul32 (Z.rem i 16) 2)))).
Proof.
  intros Hi (Hlen & Hwords & Hfields).
  pose proof (encode_range (aget weights i)) as He.
  rewrite Z.quot_div_nonneg, Z.rem_mod_nonneg by lia.
  assert (Hq : 0 <= i / 16 < 8).
  { split; [apply Z.div_pos; lia | apply Z.div_lt_upper_bound; lia]. }
  assert (Hr : 0 <= i mod 16 < 16) by (apply Z.mod_pos_bound; lia).
  unfold mul32, shlu32. rewrite (to_int32_id (i mod 16 * 2)) by int_range.
  replace (i mod 16 * 2) with (2 * (i mod 16)) by lia.
  rewrite to_uint32_id by (apply shifted_code_uint32; lia).
  split; [rewrite length_aset; exact Hlen |].
  split.
  { apply Forall_aset; [exact Hwords |].
    apply lor_uint32.
    - apply Forall_aget; [exact Hwords | int_range].
    - apply shifted_code_uint32; lia. }
  intros j Hj.
  assert (Hjq : 0 <= j / 16 < 8).
  { split; [apply Z.div_pos; lia | apply Z.div_lt_upper_bound; lia]. }
  assert (Hjr : 0 <= j mod 16 < 16) by (apply Z.mod_pos_bound; lia).
  specialize (Hfields j Hj). unfold CodecSpec.field in *.
  assert (Hji : j = i <-> (j / 16 = i / 16 /\ j mod 16 = i mod 16)).
  { split; [intros ->; split; reflexivity |].
    intros (Hd & Hm). rewrite (Z.div_mod j 16), (Z.div_mod i 16) by lia. lia. }
  destruct (Z.eq_dec (j / 16) (i / 16)) as [Heq | Hne].
  - rewrite Heq. rewrite aget_aset_eq by lia.
    rewrite field_lor_shiftl by lia.
    rewrite Heq in Hfields.
    destruct (Z.eqb_spec (j mod 16) (i mod 16)) as [Hm | Hm].
    + assert (j = i) by (apply Hji; split; assumption).
      subst j. rewrite Hfields.
      destruct (Z.ltb_spec i i); [lia |].
      destruct (Z.ltb_spec i (i + 1)); [| lia].
      apply Z.lor_0_l.
    + rewrite Hfields.
      assert (j <> i) by (intros ->; lia).
      destruct (Z.ltb_spec j i); destruct (Z.ltb_spec j (i + 1)); try lia; reflexivity.
  - rewrite aget_aset_ne by lia. rewrite Hfields.
    assert (j <> i) by (intros ->; lia).
    destruct (Z.ltb_spec j i); destruct (Z.ltb_spec j (i + 1)); try lia; reflexivity.
Qed.

Lemma pack_weights_128_packed (weights : list Z) :
  packed128_upto weights 128 (pack_weights_128 weights).
Proof.
  unfold pack_weights_128. cbv zeta.
  apply for_range_ind with (P := packed128_upto weights); [lia | |].
  - split; [reflexivity |]. split.
    + apply Forall_replicate. unfold is_uint32. lia.
    + intros j Hj. destruct (Z.ltb_spec j 0); [lia |].
      unfold CodecSpec.field. rewrite aget_replicate_zero, Z.shiftr_0_l. reflexivity.
  - intros i out Hi HP. apply (packed128_step weights i out Hi HP).
Qed.





Lemma tiles128_pos (K : Z) : 1 <= K -> 1 <= tiles128 K.
Proof.
  intros HK. unfold tiles128, FPGA_NUM_PES. apply Z.div_le_lower_bound; lia.
Qed.

Lemma tiles128_code (K : Z) :
  1 <= K <= 2 ^ 22 ->
  div32 (sub32 (add32 K FPGA_NUM_PES) 1) FPGA_NUM_PES = tiles128 K.
Proof.
  intros HK. unfold div32, sub32, add32, tiles128, FPGA_NUM_PES.
  change (2 ^ 22) with 4194304 in HK.
  rewrite (to_int32_id (K + 128)) by int_range.
  rewrite (to_int32_id (K + 128 - 1)) by int_range.
  rewrite Z.quot_div_nonneg by lia.
  apply to_int32_id.
  assert (0 <= (K + 128 - 1) / 128) by (apply Z.div_pos; lia).
  assert ((K + 128 - 1) / 128 < 2 ^ 31) by (apply Z.div_lt_upper_bound; lia).
  int_range.
Qed.

(** The 128 weights handed to [pack_weights_128] for one tile. *)
Lemma test_chunk_spec (K tile fill_weight : Z) :
  0 <= tile -> tile * 128 <= 2 ^ 23 ->
  length (test_chunk K tile fill_weight) = 128%nat
  /\ forall i, 0 <= i < 128 ->
       aget (test_chunk K tile fill_weight) i
       = if tile * 128 + i <? K then fill_weight else 0.
Proof.
  intros Htile Ht. change (2 ^ 23) with 8388608 in Ht. unfold test_chunk.
  apply for_range_ind
    with (P := fun n chunk =>
                 length chunk = 128%nat
                 /\ forall i, 0 <= i < n ->
                      aget chunk i = if tile * 128 + i <? K then fill_weight else 0);
    [lia | |].
  - split; [rewrite length_replicate; reflexivity | intros i Hi; lia].
  - intros j chunk Hj (Hlen & Hc). cbv zeta.
    unfold mul32, add32, FPGA_NUM_PES.
    rewrite (to_int32_id (tile * 128)) by int_range.
    rewrite (to_int32_id (tile * 128 + j)) by int_range.
    split; [rewrite length_aset; exact Hlen |].
    intros i Hi. destruct (Z.eq_dec i j) as [-> | Hne].
    + apply aget_aset_eq. lia.
    + rewrite aget_aset_ne by lia. apply Hc. lia.
Qed.

Lemma test_written_insert (K fill_weight : Z) (before ddr3 : gmap Z Z) (n : Z) :
  0 <= n ->
  test_written_upto K fill_weight before n ddr3 ->
  test_written_upto K fill_weight before (n + 1)
    (<[n := test_word K fill_weight n]> ddr3).
Proof.
  intros Hn Hw idx. destruct (Z.eq_dec idx n) as [-> | Hne].
  - rewrite lookup_insert_eq.
    destruct (Z.leb_spec 0 n); [| lia]. destruct (Z.ltb_spec n (n + 1)); [| lia].
    reflexivity.
  - rewrite lookup_insert_ne by congruence. rewrite (Hw idx).
    destruct (Z.leb_spec 0 idx); simpl; [| reflexivity].
    destruct (Z.ltb_spec idx n); destruct (Z.ltb_spec idx (n + 1)); try lia; reflexivity.
Qed.

(** The eight stores of one tile. *)
Lemma test_written_tile (K fill_weight : Z) (before ddr3 : gmap Z Z) (row tile : Z) :
  1 <= K ->
  0 <= row -> 0 <= tile < tiles128 K ->
  (row * tiles128 K + tile) * 8 + 8 <= 2 ^ 30 ->
  test_written_upto K fill_weight before ((row * tiles128 K + tile) * 8) ddr3 ->
  test_written_upto K fill_weight before ((row * tiles128 K + (tile + 1)) * 8)
    (for_range 0 8
       (fun i fpga_ddr3 =>
          <[addu32 (to_uint32 (mul32 (add32 (mul32 row (tiles128 K)) tile) 8)) i
            := aget (pack_weights_128 (test_chunk K tile fill_weight)) i]> fpga_ddr3)
       ddr3).
Proof.
  intros HK Hrow Htile Hsmall Hw. change (2 ^ 30) with 1073741824 in Hsmall.
  set (tpr := tiles128 K) in *.
  assert (Hrt : 0 <= row * tpr) by nia.
  replace ((row * tpr + (tile + 1)) * 8) with ((row * tpr + tile) * 8 + 8) by lia.
  apply for_range_ind
    with (P := fun i m =>
                 test_written_upto K fill_weight before ((row * tpr + tile) * 8 + i) m);
    [lia | | ].
  - replace ((row * tpr + tile) * 8 + 0) with ((row * tpr + tile) * 8) by lia. exact Hw.
  - intros i m Hi Hm.
    unfold addu32, mul32, add32.
    rewrite (to_int32_id (row * tpr)) by int_range.
    rewrite (to_int32_id (row * tpr + tile)) by int_range.
    rewrite (to_int32_id ((row * tpr + tile) * 8)) by int_range.
    rewrite (to_uint32_id ((row * tpr + tile) * 8)) by int_range.
    rewrite (to_uint32_id ((row * tpr + tile) * 8 + i)) by int_range.
    replace ((row * tpr + tile) * 8 + (i + 1)) with ((row * tpr + tile) * 8 + i + 1) by lia.
    assert (Hword : aget (pack_weights_128 (test_chunk K tile fill_weight)) i
                    = test_word K fill_weight ((row * tpr + tile) * 8 + i)).
    { unfold test_word. fold tpr.
      replace (((row * tpr + tile) * 8 + i) / 8) with (row * tpr + tile)
        by (apply Z.div_unique with (r := i); lia).
      replace ((row * tpr + tile) mod tpr) with tile
        by (apply Z.mod_unique with (q := row); lia).
      replace (((row * tpr + tile) * 8 + i) mod 8) with i
        by (apply Z.mod_unique with (q := row * tpr + tile); lia).
      reflexivity. }
    rewrite Hword. apply test_written_insert; [lia | exact Hm].
Qed.

(** The window after [write_test_weights]. *)
Lemma write_test_weights_written (M K fill_weight : Z) (before : gmap Z Z) :
  1 <= M -> 1 <= K -> M * tiles128 K * 32 <= 2 ^ 20 ->
  test_written_upto K fill_weight before (M * tiles128 K * 8)
    (write_test_weights M K fill_weight before).
Proof.
  intros HM HK Hfit. change (2 ^ 20) with 1048576 in Hfit.
  pose proof (tiles128_pos K HK) as Htpos.
  assert (HK' : K <= 2 ^ 22).
  { unfold tiles128, FPGA_NUM_PES in *.
    pose proof (Z.div_mod (K + 128 - 1) 128 ltac:(lia)).
    pose proof (Z.mod_pos_bound (K + 128 - 1) 128 ltac:(lia)).
    change (2 ^ 22) with 4194304. nia. }
  unfold write_test_weights. cbv zeta.
  rewrite tiles128_code by lia.
  set (tpr := tiles128 K) in *.
  apply for_range_ind
    with (P := fun row m => test_written_upto K fill_weight before (row * tpr * 8) m);
    [lia | |].
  - intros idx. destruct (Z.leb_spec 0 idx); simpl; [| reflexivity].
    destruct (Z.ltb_spec idx (0 * tpr * 8)); [lia | reflexivity].
  - intros row m Hrow Hm.
    replace ((row + 1) * tpr * 8) with ((row * tpr + tpr) * 8) by lia.
    apply for_range_ind
      with (P := fun tile m' =>
                   test_written_upto K fill_weight before ((row * tpr + tile) * 8) m');
      [lia | |].
    + replace ((row * tpr + 0) * 8) with (row * tpr * 8) by lia. exact Hm.
    + intros tile m' Htile Hm'.
      apply test_written_tile; try lia; [| exact Hm'].
      change (2 ^ 30) with 1073741824. nia.
Qed.

Lemma hw_row_bytes_tiles (K : Z) : hw_row_bytes K = tiles128 K * 32.
Proof. reflexivity. Qed.

(** X21. [write_test_weights] stores, for every row below M and every
    tile of the row, the eight words of the packed tile at byte offset
    [row * stride + tile * 32], where [stride] is the row size
    [ceil (K / 128) * 32] that [fpga_bitlinear] is documented to take;
    field [j] of a tile codes [fill_weight] for the columns below K and
    the weight 0 from K on; no word outside the M rows is written.  The
    stride the tests pass, [(K / 128) * 32], is this row size when K is
    a multiple of 128. *)
Theorem write_test_weights_layout (M K fill_weight : Z) (before : gmap Z Z) :
  1 <= M -> 1 <= K -> M * hw_row_bytes K <= 2 ^ 20 ->
  (forall row tile i,
     0 <= row < M -> 0 <= tile < tiles128 K -> 0 <= i < 8 ->
     write_test_weights M K fill_weight before
       !! ((row * hw_row_bytes K + tile * 32) / 4 + i)
     = Some (aget (pack_weights_128 (test_chunk K tile fill_weight)) i))
  /\ (forall tile j,
        0 <= tile < tiles128 K -> 0 <= j < 128 ->
        CodecSpec.field (pack_weights_128 (test_chunk K tile fill_weight)) j
        = encode (if tile * 128 + j <? K then fill_weight else 0))
  /\ (forall idx, ~ (0 <= idx * 4 < M * hw_row_bytes K) ->
        write_test_weights M K fill_weight before !! idx = before !! idx)
  /\ (K mod 128 = 0 -> K / FPGA_NUM_PES * FPGA_BYTES_PER_BEAT = hw_row_bytes K).
Proof.
  intros HM HK Hfit. rewrite hw_row_bytes_tiles in *.
  pose proof (tiles128_pos K HK) as Htpos.
  pose proof (write_test_weights_written M K fill_weight before HM HK
                ltac:(replace (M * tiles128 K * 32) with (M * (tiles128 K * 32)) by lia;
                      exact Hfit)) as Hw.
  change (2 ^ 20) with 1048576 in Hfit.
  set (tpr := tiles128 K) in *.
  split; [| split; [| split]].
  - intros row tile i Hrow Htile Hi.
    assert (Hrt : 0 <= row * tpr) by nia.
    replace ((row * (tpr * 32) + tile * 32) / 4) with ((row * tpr + tile) * 8)
      by (apply Z.div_unique with (r := 0); lia).
    rewrite (Hw ((row * tpr + tile) * 8 + i)).
    destruct (Z.leb_spec 0 ((row * tpr + tile) * 8 + i)); [| lia].
    destruct (Z.ltb_spec ((row * tpr + tile) * 8 + i) (M * tpr * 8)); [| nia].
    simpl. f_equal. unfold test_word. fold tpr.
    replace (((row * tpr + tile) * 8 + i) / 8) with (row * tpr + tile)
      by (apply Z.div_unique with (r := i); lia).
    replace ((row * tpr + tile) mod tpr) with tile
      by (apply Z.mod_unique with (q := row); lia).
    replace (((row * tpr + tile) * 8 + i) mod 8) with i
      by (apply Z.mod_unique with (q := row * tpr + tile); lia).
    reflexivity.
  - intros tile j Htile Hj.
    destruct (pack_weights_128_packed (test_chunk K tile fill_weight)) as (_ & _ & Hf).
    rewrite (Hf j Hj). destruct (Z.ltb_spec j 128); [| lia]. f_equal.
    apply test_chunk_spec; [lia | | exact Hj].
    change (2 ^ 23) with 8388608. nia.
  - intros idx Hout. rewrite (Hw idx).
    destruct (Z.leb_spec 0 idx); simpl; [| reflexivity].
    destruct (Z.ltb_spec idx (M * tpr * 8)); [lia | reflexivity].
  - intros Hmul. unfold tpr, tiles128, FPGA_NUM_PES, FPGA_BYTES_PER_BEAT.
    f_equal.
    pose proof (Z.div_mod K 128 ltac:(lia)) as Hdm.
    apply Z.div_unique with (r := 127); lia.
Qed.

Lemma write_test_weights_layout_witness :
  write_test_weights 4 128 1 ∅ !! ((3 * hw_row_bytes 128 + 0 * 32) / 4 + 7)
  = Some (aget (pack_weights_128 (test_chunk 128 0 1)) 7).
Proof.
  refine (proj1 (write_test_weights_layout 4 128 1 ∅ _ _ _) 3 0 7 _ _ _).
  - lia.
  - lia.
  - vm_compute. discriminate.
  - lia.
  - vm_compute. split; [discriminate | reflexivity].
  - lia.
Defined.

End DriverTestFacts.
